(** * V-HOUSE: rooms and reservations (Convex functions)

    A shallow embedding of the Convex query and mutation handlers of the
    guesthouse site: the room catalogue ([list], [listAll],
    [getAvailableRooms], [seedRooms]) and the reservation ledger
    ([updateStatus], [cancel], [getStats]).

    Conventions of the embedding:
    - a table is the list of its documents in creation order, which is the
      order [ctx.db.query(t).collect()] returns them in;
    - a document id ([Id<"rooms">], [Id<"reservations">]) is opaque; it is
      a natural number here, and [toString()] is the identity on it;
    - [v.number()] fields hold integers (prices in currency units, counts,
      display order, epoch milliseconds) and are modelled as [Z]; where a
      handler adds such numbers up, the addition is that of JavaScript
      numbers, IEEE 754 binary64 with rounding to nearest ([Number.add]);
    - strings are byte strings compared lexicographically, which is what
      the JavaScript relational operators do on ASCII text such as
      [YYYY-MM-DD] dates;
    - the system field [_creationTime] of a document is left out: no
      handler reads it;
    - [Date] follows the abstract operations of ECMAScript (Day,
      DayFromYear, YearFromTime, MonthFromTime, DateFromTime, MakeDay,
      MakeDate, TimeClip); the local time zone of the function runtime is
      UTC;
    - [Date.now()] is an explicit argument of the mutations. *)

From Stdlib Require Import ZArith List String Ascii Bool Lia Permutation Sorted.
From Stdlib Require Floats.SpecFloat.
Import ListNotations.
Local Open Scope Z_scope.

(** ** ECMAScript dates *)

Module Date.

(** A time value: milliseconds since the epoch, or NaN ([None]). *)
Definition TimeValue := option Z.

Definition msPerDay : Z := 86400000.
Definition maxTime : Z := 8640000000000000.

Definition Day (t : Z) : Z := t / msPerDay.
Definition TimeWithinDay (t : Z) : Z := t mod msPerDay.

Definition DaysInYear (y : Z) : Z :=
  if negb (y mod 4 =? 0) then 365
  else if negb (y mod 100 =? 0) then 366
  else if negb (y mod 400 =? 0) then 365
  else 366.

Definition DayFromYear (y : Z) : Z :=
  365 * (y - 1970) + (y - 1969) / 4 - (y - 1901) / 100 + (y - 1601) / 400.

Definition TimeFromYear (y : Z) : Z := msPerDay * DayFromYear y.

(** The largest [y] with [TimeFromYear y <= t]: an estimate from the mean
    length of a Gregorian year, corrected by at most one year. *)
Definition YearFromTime (t : Z) : Z :=
  let d := Day t in
  let y := 1970 + (400 * d) / 146097 in
  if DayFromYear (y + 1) <=? d then y + 1
  else if DayFromYear y <=? d then y
  else y - 1.

(** 1 for a leap year, 0 otherwise. *)
Definition leapOf (y : Z) : Z := if DaysInYear y =? 366 then 1 else 0.

Definition InLeapYear (t : Z) : Z := leapOf (YearFromTime t).

Definition DayWithinYear (t : Z) : Z := Day t - DayFromYear (YearFromTime t).

(** Day number within the year on which month [m] (0..11) starts; [leap] is
    0 or 1. Index 12 is the length of the year. *)
Definition monthStart (leap m : Z) : Z :=
  match m with
  | 0 => 0
  | 1 => 31
  | 2 => 59 + leap
  | 3 => 90 + leap
  | 4 => 120 + leap
  | 5 => 151 + leap
  | 6 => 181 + leap
  | 7 => 212 + leap
  | 8 => 243 + leap
  | 9 => 273 + leap
  | 10 => 304 + leap
  | 11 => 334 + leap
  | _ => 365 + leap
  end.

Definition MonthFromTime (t : Z) : Z :=
  let d := DayWithinYear t in
  let l := InLeapYear t in
  if d <? 31 then 0
  else if d <? 59 + l then 1
  else if d <? 90 + l then 2
  else if d <? 120 + l then 3
  else if d <? 151 + l then 4
  else if d <? 181 + l then 5
  else if d <? 212 + l then 6
  else if d <? 243 + l then 7
  else if d <? 273 + l then 8
  else if d <? 304 + l then 9
  else if d <? 334 + l then 10
  else 11.

Definition DateFromTime (t : Z) : Z :=
  let d := DayWithinYear t in
  let l := InLeapYear t in
  match MonthFromTime t with
  | 0 => d + 1
  | 1 => d - 30
  | 2 => d - 58 - l
  | 3 => d - 89 - l
  | 4 => d - 119 - l
  | 5 => d - 150 - l
  | 6 => d - 180 - l
  | 7 => d - 211 - l
  | 8 => d - 242 - l
  | 9 => d - 272 - l
  | 10 => d - 303 - l
  | _ => d - 333 - l
  end.

Definition HourFromTime (t : Z) : Z := (t / 3600000) mod 24.
Definition MinFromTime (t : Z) : Z := (t / 60000) mod 60.
Definition SecFromTime (t : Z) : Z := (t / 1000) mod 60.
Definition msFromTime (t : Z) : Z := t mod 1000.

(** MakeDay(year, month, date): the day number of the first of the month
    [month] (0-based, any integer) of [year], plus [date - 1]. A year out
    of the range of time values gives a day that TimeClip turns into NaN,
    as ECMAScript's NaN from MakeDay would be. *)
Definition MakeDay (year month date : Z) : Z :=
  let ym := year + month / 12 in
  let mn := month mod 12 in
  DayFromYear ym + monthStart (leapOf ym) mn + date - 1.

Definition MakeDate (day time : Z) : Z := day * msPerDay + time.

Definition TimeClip (t : Z) : TimeValue :=
  if Z.abs t <=? maxTime then Some t else None.

(** Number of days of month [m] (1..12) of year [y]. *)
Definition DaysInMonth (y m : Z) : Z :=
  monthStart (leapOf y) m - monthStart (leapOf y) (m - 1).

(** *** Decimal fields of date strings *)

Definition digitChar (d : Z) : ascii := ascii_of_N (Z.to_N (48 + d)).

Definition digitValue (c : ascii) : option Z :=
  let n := Z.of_N (N_of_ascii c) in
  if (48 <=? n) && (n <=? 57) then Some (n - 48) else None.

Definition pad2 (n : Z) : string :=
  String (digitChar (n / 10 mod 10)) (String (digitChar (n mod 10)) EmptyString).

Definition pad3 (n : Z) : string :=
  String (digitChar (n / 100 mod 10)) (pad2 n).

Definition pad4 (n : Z) : string :=
  String (digitChar (n / 1000 mod 10)) (pad3 n).

Definition pad6 (n : Z) : string :=
  String (digitChar (n / 100000 mod 10))
    (String (digitChar (n / 10000 mod 10)) (pad4 n)).

(** The year of an ISO string: four digits for 0..9999, otherwise a sign
    and six digits. *)
Definition isoYear (y : Z) : string :=
  if (0 <=? y) && (y <=? 9999) then pad4 y
  else if y <? 0 then String "-" (pad6 (- y))
  else String "+" (pad6 y).

(** [Date.prototype.toISOString] on a finite time value:
    [YYYY-MM-DDTHH:mm:ss.sssZ], the date and the time of day around a
    [T]. *)
Definition isoDate (t : Z) : string :=
  (isoYear (YearFromTime t) ++ "-" ++ pad2 (MonthFromTime t + 1) ++ "-"
   ++ pad2 (DateFromTime t))%string.

Definition isoTime (t : Z) : string :=
  (pad2 (HourFromTime t) ++ ":" ++ pad2 (MinFromTime t) ++ ":"
   ++ pad2 (SecFromTime t) ++ "." ++ pad3 (msFromTime t) ++ "Z")%string.

Definition toISOString (t : Z) : string :=
  (isoDate t ++ "T" ++ isoTime t)%string.

(** The fields of a date-only string [YYYY-MM-DD]: ten characters, digits
    around two hyphens. *)
Definition dateFields (s : string) : option (Z * Z * Z) :=
  match s with
  | String y1 (String y2 (String y3 (String y4 (String h1
      (String m1 (String m2 (String h2
        (String d1 (String d2 EmptyString))))))))) =>
      if Ascii.eqb h1 "-" && Ascii.eqb h2 "-" then
        match digitValue y1, digitValue y2, digitValue y3, digitValue y4,
              digitValue m1, digitValue m2, digitValue d1, digitValue d2 with
        | Some a, Some b, Some c, Some d, Some e, Some f, Some g, Some h =>
            Some (1000 * a + 100 * b + 10 * c + d, 10 * e + f, 10 * g + h)
        | _, _, _, _, _, _, _, _ => None
        end
      else None
  | _ => None
  end.

(** [Date.parse] on the date-only form of the ECMAScript date-time string
    format, the form the schema documents for [checkIn], [checkOut] and
    [date]: month 01..12, day 01..31, read as midnight UTC. As in V8, a
    day past the end of its month carries into the next month (MakeDay
    does the carry). Only this form is modelled: the other strings that
    [new Date] accepts (date-times, year-months, the formats an engine adds
    of its own) are outside the model, which gives NaN for them, so a
    property that depends on the parsed value is stated for date strings of
    this form. *)
Definition parse (s : string) : TimeValue :=
  match dateFields s with
  | Some (y, m, d) =>
      if (1 <=? m) && (m <=? 12) && (1 <=? d) && (d <=? 31)
      then TimeClip (MakeDate (MakeDay y (m - 1) d) 0)
      else None
  | None => None
  end.

(** [a < b] on two Date objects: the comparison of their time values,
    false as soon as one is NaN. *)
Definition lt (a b : TimeValue) : bool :=
  match a, b with
  | Some x, Some y => x <? y
  | _, _ => false
  end.

(** [getDate()] and [setDate(dt)] on a finite time value, local time being
    UTC. *)
Definition getDate (t : Z) : Z := DateFromTime t.

Definition setDate (t : Z) (dt : Z) : TimeValue :=
  TimeClip (MakeDate (MakeDay (YearFromTime t) (MonthFromTime t) dt)
                     (TimeWithinDay t)).

(** A day of the calendar: month 1..12 and day within the month. *)
Definition validYMD (y m d : Z) : Prop :=
  1 <= m <= 12 /\ 1 <= d <= DaysInMonth y m.

(** A date string that names a day of the calendar: [YYYY-MM-DD] with the
    day within its month. *)
Definition isCalendarDate (s : string) : bool :=
  match dateFields s with
  | Some (y, m, d) =>
      (1 <=? m) && (m <=? 12) && (1 <=? d) && (d <=? DaysInMonth y m)
  | None => false
  end.

(** [YYYY-MM-DD] from its three numbers. *)
Definition formatYMD (y m d : Z) : string :=
  (pad4 y ++ "-" ++ pad2 m ++ "-" ++ pad2 d)%string.

(** The ten characters of a date string, from its eight digits. *)
Definition dateString (a b c e f g h i : Z) : string :=
  String (digitChar a) (String (digitChar b) (String (digitChar c)
    (String (digitChar e) (String "-" (String (digitChar f)
      (String (digitChar g) (String "-" (String (digitChar h)
        (String (digitChar i) EmptyString))))))))).

(** The order of three numbers, the first deciding before the second and
    the second before the third. *)
Definition compareYMD (y1 m1 d1 y2 m2 d2 : Z) : comparison :=
  match y1 ?= y2 with
  | Eq => match m1 ?= m2 with
          | Eq => d1 ?= d2
          | c => c
          end
  | c => c
  end.

End Date.

(** ** JavaScript strings and arrays *)

Module Js.

(** [s.split(sep)[0]]: the part of [s] before the first [sep]. *)
Fixpoint split0 (sep : ascii) (s : string) : string :=
  match s with
  | EmptyString => EmptyString
  | String c s' => if Ascii.eqb c sep then EmptyString else String c (split0 sep s')
  end.

(** [a.includes(x)] with the equality test of the element type. *)
Definition includes {A : Type} (eqb : A -> A -> bool) (a : list A) (x : A) : bool :=
  existsb (eqb x) a.

Section Sort.
Context {A : Type} (compareFn : A -> A -> Z).

(** [insert x l] puts [x] in front of the first element it does not
    compare greater than. *)
Fixpoint insert (x : A) (l : list A) : list A :=
  match l with
  | [] => [x]
  | y :: l' => if compareFn x y <=? 0 then x :: l else y :: insert x l'
  end.

(** [a.sort(compareFn)]. The sort of ECMAScript is stable, so for a
    comparator that is a total preorder its result is determined: the
    stable insertion sort computes it. *)
Definition sort (l : list A) : list A := fold_right insert [] l.
End Sort.

(** [s.startsWith(searchString)]. *)
Fixpoint startsWith (s searchString : string) : bool :=
  match searchString, s with
  | EmptyString, _ => true
  | String _ _, EmptyString => false
  | String c m, String d s' => Ascii.eqb c d && startsWith s' m
  end.

(** A string in a condition: true unless empty. *)
Definition truthy (s : string) : bool :=
  match s with
  | EmptyString => false
  | String _ _ => true
  end.

End Js.

(** ** JavaScript numbers under addition *)

Module Number.

(** The values a sum of integers can take as a JavaScript number: an
    integer that is a binary64 value, an infinity, or NaN. The two zeros
    are one value here; no handler tells them apart. *)
Inductive t := Finite (z : Z) | Infinity (negative : bool) | NaN.

(** The integer nearest to [m >= 0] that has at most 53 significant bits,
    ties going to the even significand. *)
Definition roundMagnitude (m : Z) : Z :=
  let e := Z.log2 m - 52 in
  if e <=? 0 then m
  else
    let ulp := 2 ^ e in
    let q := m / ulp in
    let r := m mod ulp in
    let q' :=
      if 2 * r <? ulp then q
      else if ulp <? 2 * r then q + 1
      else if Z.even q then q else q + 1 in
    q' * ulp.

(** The binary64 value of the integer [z]: [z] itself when it is one,
    which every integer up to [2^53] in magnitude is; an infinity from
    [2^1024] on. *)
Definition ofZ (z : Z) : t :=
  let m := roundMagnitude (Z.abs z) in
  if 2 ^ 1024 <=? m then Infinity (z <? 0) else Finite (Z.sgn z * m).

(** [a + b] on numbers. *)
Definition add (a b : t) : t :=
  match a, b with
  | NaN, _ | _, NaN => NaN
  | Infinity s1, Infinity s2 => if Bool.eqb s1 s2 then Infinity s1 else NaN
  | Infinity s, Finite _ | Finite _, Infinity s => Infinity s
  | Finite x, Finite y => ofZ (x + y)
  end.

Definition eqb (a b : t) : bool :=
  match a, b with
  | Finite x, Finite y => x =? y
  | Infinity s1, Infinity s2 => Bool.eqb s1 s2
  | NaN, NaN => true
  | _, _ => false
  end.

(** The same sum by the binary64 addition of the standard library's
    IEEE 754 specification, for comparison. *)
Definition toSpecFloat (z : Z) : SpecFloat.spec_float :=
  SpecFloat.binary_normalize 53 1024 z 0 false.

Definition ofSpecFloat (f : SpecFloat.spec_float) : t :=
  match f with
  | SpecFloat.S754_zero _ => Finite 0
  | SpecFloat.S754_infinity s => Infinity s
  | SpecFloat.S754_nan => NaN
  | SpecFloat.S754_finite s m e =>
      Finite ((if s then -1 else 1) * Z.shiftl (Z.pos m) e)
  end.

Definition addSpecFloat (x y : Z) : t :=
  ofSpecFloat (SpecFloat.SFadd 53 1024 (toSpecFloat x) (toSpecFloat y)).

(** Integers around the places where binary64 rounds, ties and overflows. *)
Definition probes : list Z :=
  [0; 1; -1; 2; 3; 50000; 2^52; 2^52 + 1; 2^53 - 1; 2^53; 2^53 + 1; 2^53 + 2;
   2^53 + 3; 2^54; 2^54 + 2; 2^54 + 6; 2^60 + 2^7; 2^60 + 3 * 2^7;
   2^60 + 2^7 + 1; - 2^53; - 2^53 - 1; - 2^53 - 3; 2^1023; 2^1023 + 2^970;
   (2^53 - 1) * 2^971; (2^53 - 1) * 2^971 - 2^970; 2^970; 2^969; 2^971;
   - ((2^53 - 1) * 2^971); - 2^970; 12345678901234567890; 3^200; - 3^300;
   7^100].

End Number.

(** ** Documents and the database *)

Definition Id := nat.

Inductive Status := pending | confirmed | cancelled | completed.

Definition Status_eqb (a b : Status) : bool :=
  match a, b with
  | pending, pending | confirmed, confirmed
  | cancelled, cancelled | completed, completed => true
  | _, _ => false
  end.

Module Room.
Record Description := { vi : string; ko : string; en : string }.

(** The fields of a [rooms] document, as [create] and [seedRooms] write
    them. *)
Record Fields := {
  name : string;
  nameKo : string;
  nameEn : string;
  description : Description;
  price : Z;
  capacity : Z;
  bedType : string;
  amenities : list string;
  images : list string;
  isAvailable : bool;
  order : Z
}.

Record t := mk { _id : Id; fields : Fields }.

(** The optional arguments of [update]; an argument left out or
    [undefined] is [None]. *)
Module Patch.
Record t := {
  name : option string;
  nameKo : option string;
  nameEn : option string;
  description : option Description;
  price : option Z;
  capacity : option Z;
  bedType : option string;
  amenities : option (list string);
  images : option (list string);
  isAvailable : option bool;
  order : option Z
}.

(** No optional argument given. *)
Definition empty : t :=
  {| name := None; nameKo := None; nameEn := None; description := None;
     price := None; capacity := None; bedType := None; amenities := None;
     images := None; isAvailable := None; order := None |}.
End Patch.

(** [supplied] when given, else [old]. *)
Definition pick {A : Type} (supplied : option A) (old : A) : A :=
  match supplied with
  | Some v => v
  | None => old
  end.

(** The document after [patch(id, cleanUpdates)], where [cleanUpdates]
    holds the entries of the arguments that are not [undefined]. *)
Definition withUpdates (u : Patch.t) (r : t) : t :=
  mk (_id r)
     {| name := pick (Patch.name u) (name (fields r));
        nameKo := pick (Patch.nameKo u) (nameKo (fields r));
        nameEn := pick (Patch.nameEn u) (nameEn (fields r));
        description := pick (Patch.description u) (description (fields r));
        price := pick (Patch.price u) (price (fields r));
        capacity := pick (Patch.capacity u) (capacity (fields r));
        bedType := pick (Patch.bedType u) (bedType (fields r));
        amenities := pick (Patch.amenities u) (amenities (fields r));
        images := pick (Patch.images u) (images (fields r));
        isAvailable := pick (Patch.isAvailable u) (isAvailable (fields r));
        order := pick (Patch.order u) (order (fields r)) |}.
End Room.
Coercion Room.fields : Room.t >-> Room.Fields.

Module Reservation.
Record Fields := {
  roomId : Id;
  guestName : string;
  guestEmail : string;
  guestPhone : string;
  guestCountry : string;
  checkIn : string;
  checkOut : string;
  adults : Z;
  children : Z;
  totalPrice : Z;
  status : Status;
  specialRequests : option string;
  createdAt : Z;
  updatedAt : Z
}.

Record t := mk { _id : Id; fields : Fields }.
#[local] Coercion fields : t >-> Fields.

(** The document after [patch(id, { status: s, updatedAt: now })]: the two
    fields are overwritten, the others kept. *)
Definition withStatus (s : Status) (now : Z) (r : t) : t :=
  mk (_id r)
     {| roomId := roomId r;
        guestName := guestName r;
        guestEmail := guestEmail r;
        guestPhone := guestPhone r;
        guestCountry := guestCountry r;
        checkIn := checkIn r;
        checkOut := checkOut r;
        adults := adults r;
        children := children r;
        totalPrice := totalPrice r;
        status := s;
        specialRequests := specialRequests r;
        createdAt := createdAt r;
        updatedAt := now |}.
End Reservation.
Coercion Reservation.fields : Reservation.t >-> Reservation.Fields.

Module BlockedDate.
Record Fields := { roomId : Id; date : string; reason : option string }.
Record t := mk { _id : Id; fields : Fields }.
End BlockedDate.
Coercion BlockedDate.fields : BlockedDate.t >-> BlockedDate.Fields.

Module Db.
(** The tables the handlers touch, each in creation order, and the next
    fresh document id. *)
Record t := mk {
  rooms : list Room.t;
  reservations : list Reservation.t;
  blockedDates : list BlockedDate.t;
  nextId : Id
}.

Section Table.
Context {D : Type} (idOf : D -> Id).

(** [ctx.db.get(id)]: the document with that id, if any. *)
Definition get (tbl : list D) (id : Id) : option D :=
  find (fun d => Nat.eqb (idOf d) id) tbl.

(** [ctx.db.patch(id, fields)] on a table: the document with that id
    merged with [fields] (the merge is [f]); [None] when the id does
    not resolve, where Convex throws. *)
Fixpoint patch (tbl : list D) (id : Id) (f : D -> D) : option (list D) :=
  match tbl with
  | [] => None
  | d :: tbl' =>
      if Nat.eqb (idOf d) id then Some (f d :: tbl')
      else option_map (cons d) (patch tbl' id f)
  end.
End Table.

Definition setReservations (l : list Reservation.t) (db : t) : t :=
  mk (rooms db) l (blockedDates db) (nextId db).
End Db.

(** ** Mutations: a state monad over the database with thrown errors *)

Inductive Error :=
| NotFound        (* "예약을 찾을 수 없습니다." *)
| Unauthorized    (* "예약자 이메일이 일치하지 않습니다." *)
| InvalidState    (* "확정된 예약은 취소할 수 없습니다. 고객센터로 연락해주세요." *)
| MissingDocument (* raised by ctx.db.patch on an id without a document *).

Definition message (e : Error) : string :=
  match e with
  | NotFound => "예약을 찾을 수 없습니다."
  | Unauthorized => "예약자 이메일이 일치하지 않습니다."
  | InvalidState => "확정된 예약은 취소할 수 없습니다. 고객센터로 연락해주세요."
  | MissingDocument => "Update on nonexistent document"
  end.

Inductive Outcome (A : Type) :=
| Return (a : A)
| Throw (e : Error).
Arguments Return {A} a.
Arguments Throw {A} e.

Definition Mutation (A : Type) : Type := Db.t -> Outcome A * Db.t.

Definition ret {A} (a : A) : Mutation A := fun db => (Return a, db).

Definition throw {A} (e : Error) : Mutation A := fun db => (Throw e, db).

Definition bind {A B} (m : Mutation A) (k : A -> Mutation B) : Mutation B :=
  fun db =>
    match m db with
    | (Return a, db') => k a db'
    | (Throw e, db') => (Throw e, db')
    end.

Declare Scope mutation_scope.
Delimit Scope mutation_scope with mutation.
Notation "x <- m ;; k" := (bind m (fun x => k))
  (at level 61, m at next level, right associativity) : mutation_scope.
Notation "m ;; k" := (bind m (fun _ => k))
  (at level 61, right associativity) : mutation_scope.

(** [for (const x of xs) await body(x)]. *)
Fixpoint forEach {A} (xs : list A) (body : A -> Mutation unit) : Mutation unit :=
  match xs with
  | [] => ret tt
  | x :: xs' => (body x ;; forEach xs' body)%mutation
  end.

Module Ctx.
(** [ctx.db.query(table).collect()]. *)
Definition collect {D} (table : Db.t -> list D) : Mutation (list D) :=
  fun db => (Return (table db), db).

Definition getReservation (id : Id) : Mutation (option Reservation.t) :=
  fun db => (Return (Db.get Reservation._id (Db.reservations db) id), db).

Definition patchReservation (id : Id) (f : Reservation.t -> Reservation.t)
  : Mutation unit :=
  fun db =>
    match Db.patch Reservation._id (Db.reservations db) id f with
    | Some l => (Return tt, Db.setReservations l db)
    | None => (Throw MissingDocument, db)
    end.

(** [ctx.db.insert("rooms", fields)]: the document gets the next id and
    goes to the end of the table. *)
Definition insertRoom (fields : Room.Fields) : Mutation Id :=
  fun db =>
    let id := Db.nextId db in
    (Return id,
     Db.mk (Db.rooms db ++ [Room.mk id fields]) (Db.reservations db)
           (Db.blockedDates db) (S id)).

Definition insertReservation (fields : Reservation.Fields) : Mutation Id :=
  fun db =>
    let id := Db.nextId db in
    (Return id,
     Db.mk (Db.rooms db) (Db.reservations db ++ [Reservation.mk id fields])
           (Db.blockedDates db) (S id)).

Definition patchRoom (id : Id) (f : Room.t -> Room.t) : Mutation unit :=
  fun db =>
    match Db.patch Room._id (Db.rooms db) id f with
    | Some l =>
        (Return tt,
         Db.mk l (Db.reservations db) (Db.blockedDates db) (Db.nextId db))
    | None => (Throw MissingDocument, db)
    end.
End Ctx.

(** ** rooms.ts *)

Module Rooms.

(** [list]: the rooms a guest can book, by display order. *)
Definition list (db : Db.t) : Datatypes.list Room.t :=
  let rooms := filter (fun r : Room.t => Bool.eqb (Room.isAvailable r) true) (Db.rooms db) in
  Js.sort (fun a b : Room.t => Room.order a - Room.order b) rooms.

(** [listAll]: every room, by display order. *)
Definition listAll (db : Db.t) : Datatypes.list Room.t :=
  let rooms := Db.rooms db in
  Js.sort (fun a b : Room.t => Room.order a - Room.order b) rooms.

Definition getById (db : Db.t) (roomId : Id) : option Room.t :=
  Db.get Room._id (Db.rooms db) roomId.

(** The inner helper of [getAvailableRooms]:
    [resCheckIn < checkOut && resCheckOut > checkIn] on strings. *)
Definition isOverlapping (resCheckIn resCheckOut checkIn checkOut : string) : bool :=
  (resCheckIn <? checkOut)%string && (checkIn <? resCheckOut)%string.

(** The loop of [getDatesInRange]:
    [while (current < endDate) { dates.push(current.toISOString().split("T")[0]);
    current.setDate(current.getDate() + 1); }].
    Inside the body [current] is finite, since the test held. [fuel]
    bounds the number of iterations. *)
Fixpoint getDatesInRange_loop (fuel : nat) (current endDate : Date.TimeValue)
  : Datatypes.list string :=
  match fuel with
  | O => []
  | S fuel' =>
      if Date.lt current endDate then
        match current with
        | Some t =>
            Js.split0 "T" (Date.toISOString t)
            :: getDatesInRange_loop fuel' (Date.setDate t (Date.getDate t + 1)) endDate
        | None => []
        end
      else []
  end.

(** A bound on the iterations of the loop: each one moves [current] a day
    closer to [endDate]. *)
Definition getDatesInRange_fuel (current endDate : Date.TimeValue) : nat :=
  match current, endDate with
  | Some c, Some e => Z.to_nat ((e - c) / Date.msPerDay + 1)
  | _, _ => O
  end.

Definition getDatesInRange (start end_ : string) : Datatypes.list string :=
  let current := Date.parse start in
  let endDate := Date.parse end_ in
  getDatesInRange_loop (getDatesInRange_fuel current endDate) current endDate.

(** [getAvailableRooms]: bookable rooms without an overlapping pending or
    confirmed reservation and without a blocked date among the requested
    days. *)
Definition getAvailableRooms (db : Db.t) (checkIn checkOut : string)
  : Datatypes.list Room.t :=
  let allRooms := filter (fun r : Room.t => Bool.eqb (Room.isAvailable r) true) (Db.rooms db) in
  let reservations := Db.reservations db in
  let bookedRoomIds :=
    map (fun res : Reservation.t => Reservation.roomId res)
      (filter
         (fun res : Reservation.t =>
            (Status_eqb (Reservation.status res) pending
             || Status_eqb (Reservation.status res) confirmed)
            && isOverlapping (Reservation.checkIn res) (Reservation.checkOut res)
                 checkIn checkOut)
         reservations) in
  let blockedDates := Db.blockedDates db in
  let requestedDates := getDatesInRange checkIn checkOut in
  let blockedRoomIds :=
    map (fun blocked : BlockedDate.t => BlockedDate.roomId blocked)
      (filter
         (fun blocked : BlockedDate.t => Js.includes String.eqb requestedDates (BlockedDate.date blocked))
         blockedDates) in
  let availableRooms :=
    filter
      (fun room : Room.t =>
         negb (Js.includes Nat.eqb bookedRoomIds (Room._id room))
         && negb (Js.includes Nat.eqb blockedRoomIds (Room._id room)))
      allRooms in
  Js.sort (fun a b : Room.t => Room.order a - Room.order b) availableRooms.

(** [create]: a new room, bookable from the start. *)
Definition create (name nameKo nameEn : string) (description : Room.Description)
    (price capacity : Z) (bedType : string)
    (amenities images : Datatypes.list string) (order : Z) : Mutation Id :=
  Ctx.insertRoom
    {| Room.name := name; Room.nameKo := nameKo; Room.nameEn := nameEn;
       Room.description := description; Room.price := price;
       Room.capacity := capacity; Room.bedType := bedType;
       Room.amenities := amenities; Room.images := images;
       Room.isAvailable := true; Room.order := order |}.

Definition seedRoom (name nameKo nameEn vi ko en : string)
    (images : Datatypes.list string) (order : Z) : Room.Fields :=
  {| Room.name := name; Room.nameKo := nameKo; Room.nameEn := nameEn;
     Room.description := {| Room.vi := vi; Room.ko := ko; Room.en := en |};
     Room.price := 50000; Room.capacity := 4; Room.bedType := "king";
     Room.amenities := ["wifi"; "ac"; "tv"; "fridge"; "private_bathroom"]%string;
     Room.images := images; Room.isAvailable := true; Room.order := order |}.

(** The six rooms of [seedRooms]; they share price, capacity, bed type and
    amenities. *)
Definition roomsData : Datatypes.list Room.Fields :=
  [ seedRoom "Phòng Hạnh Phúc" "행복의 방" "Happiness Room"
      "Phòng ấm cúng với tông màu be, mang đến cảm giác thoải mái như ở nhà."
      "베이지 톤의 아늑한 방으로, 집 같은 편안함을 선사합니다."
      "A cozy room with beige tones, offering a comfortable home-like feeling."
      ["/images/room-happiness-1.jpg"; "/images/room-happiness-2.jpg"]%string 1;
    seedRoom "Phòng Bình Yên" "평화의 방" "Peace Room"
      "Phòng với tông màu trắng tinh khiết, thiết kế đơn giản và thanh lịch."
      "순백의 화이트 톤으로 심플하고 우아한 디자인의 방입니다."
      "A room with pure white tones, featuring simple and elegant design."
      ["/images/room-peace-1.jpg"]%string 2;
    seedRoom "Phòng Ấm Áp" "따뜻한 방" "Warmth Room"
      "Phòng có giấy dán tường điểm nhấn và giường có ngăn chứa đồ tiện lợi."
      "포인트 벽지와 수납 침대가 있는 실용적인 방입니다."
      "A practical room with accent wallpaper and storage bed."
      ["/images/room-warmth-1.jpg"; "/images/room-warmth-2.jpg"]%string 3;
    seedRoom "Phòng An Lành" "평안의 방" "Serenity Room"
      "Phòng rộng rãi với đầy đủ tiện nghi, TV màn hình lớn."
      "넓은 공간에 TV가 완비된 여유로운 방입니다."
      "A spacious room fully equipped with a large TV."
      ["/images/room-serenity-1.jpg"; "/images/room-serenity-2.jpg"]%string 4;
    seedRoom "Phòng Thư Giãn" "휴식의 방" "Relax Room"
      "Phòng ấm cúng hoàn hảo để thư giãn sau một ngày dài."
      "긴 하루 후 휴식하기에 완벽한 아늑한 방입니다."
      "A cozy room perfect for relaxing after a long day."
      ["/images/room-serenity-2.jpg"]%string 5;
    seedRoom "Phòng Yêu Thương" "사랑의 방" "Love Room"
      "Phòng lý tưởng cho các cặp đôi và gia đình nhỏ."
      "커플과 소규모 가족에게 이상적인 방입니다."
      "An ideal room for couples and small families."
      ["/images/room-warmth-2.jpg"]%string 6 ].

Record SeedResult := { message : string; count : Z }.

(** [seedRooms]: skip when the table already has rooms, else insert the
    six rooms of [roomsData]. *)
Definition seedRooms : Mutation SeedResult :=
  (existingRooms <- Ctx.collect Db.rooms ;;
   if 0 <? Z.of_nat (List.length existingRooms) then
     ret {| message := "이미 객실 데이터가 있습니다.";
            count := Z.of_nat (List.length existingRooms) |}
   else
     forEach roomsData (fun room => _ <- Ctx.insertRoom room ;; ret tt) ;;
     ret {| message := "객실 데이터가 생성되었습니다.";
            count := Z.of_nat (List.length roomsData) |})%mutation.

(** [update]: write the supplied fields of a room, and only those. *)
Definition update (roomId : Id) (updates : Room.Patch.t) : Mutation Id :=
  (Ctx.patchRoom roomId (Room.withUpdates updates) ;; ret roomId)%mutation.

End Rooms.

(** ** app/admin/rooms/page.tsx: the calls of the admin page *)

Module AdminRoomsPage.

(** [handleToggleAvailable]: [updateRoom({ roomId, isAvailable })]. *)
Definition handleToggleAvailable (roomId : Id) (isAvailable : bool) : Mutation Id :=
  Rooms.update roomId
    {| Room.Patch.name := None; Room.Patch.nameKo := None;
       Room.Patch.nameEn := None; Room.Patch.description := None;
       Room.Patch.price := None; Room.Patch.capacity := None;
       Room.Patch.bedType := None; Room.Patch.amenities := None;
       Room.Patch.images := None; Room.Patch.isAvailable := Some isAvailable;
       Room.Patch.order := None |}.

(** [handleUpdateRoom]:
    [updateRoom({ roomId: selectedRoom, price: editPrice, capacity: editCapacity })]. *)
Definition handleUpdateRoom (selectedRoom : Id) (editPrice editCapacity : Z)
  : Mutation Id :=
  Rooms.update selectedRoom
    {| Room.Patch.name := None; Room.Patch.nameKo := None;
       Room.Patch.nameEn := None; Room.Patch.description := None;
       Room.Patch.price := Some editPrice;
       Room.Patch.capacity := Some editCapacity;
       Room.Patch.bedType := None; Room.Patch.amenities := None;
       Room.Patch.images := None; Room.Patch.isAvailable := None;
       Room.Patch.order := None |}.

End AdminRoomsPage.

(** ** reservations.ts *)

Module Reservations.

(** [create]: a new reservation, pending, both timestamps at [now]. *)
Definition create (now : Z) (roomId : Id)
    (guestName guestEmail guestPhone guestCountry checkIn checkOut : string)
    (adults children totalPrice : Z) (specialRequests : option string)
  : Mutation Id :=
  Ctx.insertReservation
    {| Reservation.roomId := roomId;
       Reservation.guestName := guestName;
       Reservation.guestEmail := guestEmail;
       Reservation.guestPhone := guestPhone;
       Reservation.guestCountry := guestCountry;
       Reservation.checkIn := checkIn;
       Reservation.checkOut := checkOut;
       Reservation.adults := adults;
       Reservation.children := children;
       Reservation.totalPrice := totalPrice;
       Reservation.status := pending;
       Reservation.specialRequests := specialRequests;
       Reservation.createdAt := now;
       Reservation.updatedAt := now |}.

Definition getById (db : Db.t) (reservationId : Id) : option Reservation.t :=
  Db.get Reservation._id (Db.reservations db) reservationId.

(** [updateStatus]: patch status and update time, whatever the current
    status. *)
Definition updateStatus (now : Z) (reservationId : Id) (status : Status)
  : Mutation Id :=
  (Ctx.patchReservation reservationId (Reservation.withStatus status now) ;;
   ret reservationId)%mutation.

(** [cancel]: the guest's own cancellation, checked against the booking
    email and allowed on a pending reservation only. *)
Definition cancel (now : Z) (reservationId : Id) (email : string) : Mutation Id :=
  (reservation <- Ctx.getReservation reservationId ;;
   match reservation with
   | None => throw NotFound
   | Some reservation =>
       if negb (Reservation.guestEmail reservation =? email)%string then
         throw Unauthorized
       else if negb (Status_eqb (Reservation.status reservation) pending) then
         throw InvalidState
       else
         Ctx.patchReservation reservationId (Reservation.withStatus cancelled now) ;;
         ret reservationId
   end)%mutation.

Module Stats.
Record t := {
  total : Z;
  pending : Z;
  confirmed : Z;
  cancelled : Z;
  completed : Z;
  totalRevenue : Number.t
}.
End Stats.

Definition countStatus (s : Status) (reservations : list Reservation.t) : Z :=
  Z.of_nat (List.length (filter (fun r : Reservation.t => Status_eqb (Reservation.status r) s) reservations)).

(** [getStats]: counts per status, and the revenue of confirmed and
    completed reservations, added up from [0] in table order with the
    addition of numbers. A stored [totalPrice] is a number, so [Number.ofZ]
    is the identity on it. *)
Definition getStats (db : Db.t) : Stats.t :=
  let reservations := Db.reservations db in
  {| Stats.total := Z.of_nat (List.length reservations);
     Stats.pending := countStatus pending reservations;
     Stats.confirmed := countStatus confirmed reservations;
     Stats.cancelled := countStatus cancelled reservations;
     Stats.completed := countStatus completed reservations;
     Stats.totalRevenue :=
       fold_left
         (fun sum (r : Reservation.t) =>
            Number.add sum (Number.ofZ (Reservation.totalPrice r)))
         (filter
            (fun r : Reservation.t =>
               Status_eqb (Reservation.status r) confirmed
               || Status_eqb (Reservation.status r) completed)
            reservations)
         (Number.Finite 0) |}.

(** [getById] as the handler returns it: the reservation together with
    the document of its room ([null] when the room is gone), or [null]
    when the id does not resolve. *)
Definition getByIdWithRoom (db : Db.t) (reservationId : Id)
  : option (Reservation.t * option Room.t) :=
  match Db.get Reservation._id (Db.reservations db) reservationId with
  | None => None
  | Some reservation =>
      let room := Db.get Room._id (Db.rooms db) (Reservation.roomId reservation) in
      Some (reservation, room)
  end.

(** [getByEmail]: the reservations booked under [email], each with its
    room, newest first. *)
Definition getByEmail (db : Db.t) (email : string)
  : Datatypes.list (Reservation.t * option Room.t) :=
  let reservations :=
    filter (fun r : Reservation.t => (Reservation.guestEmail r =? email)%string)
      (Db.reservations db) in
  let reservationsWithRooms :=
    map (fun reservation : Reservation.t =>
           (reservation,
            Db.get Room._id (Db.rooms db) (Reservation.roomId reservation)))
      reservations in
  Js.sort
    (fun a b : Reservation.t * option Room.t =>
       Reservation.createdAt (fst b) - Reservation.createdAt (fst a))
    reservationsWithRooms.

(** [getByRoom]: the pending and confirmed reservations of a room, in
    creation order (the order of the [by_room] index); with a month
    ["YYYY-MM"], those that start or end in it. *)
Definition getByRoom (db : Db.t) (roomId : Id) (month : option string)
  : Datatypes.list Reservation.t :=
  let reservations :=
    filter
      (fun r : Reservation.t =>
         Status_eqb (Reservation.status r) pending
         || Status_eqb (Reservation.status r) confirmed)
      (filter (fun r : Reservation.t => Nat.eqb (Reservation.roomId r) roomId)
         (Db.reservations db)) in
  match month with
  | Some m =>
      if Js.truthy m then
        filter
          (fun res : Reservation.t =>
             Js.startsWith (Reservation.checkIn res) m
             || Js.startsWith (Reservation.checkOut res) m)
          reservations
      else reservations
  | None => reservations
  end.

(** [list]: all reservations, or those of one status (read through the
    [by_status] index, in creation order), newest first. *)
Definition list (db : Db.t) (status : option Status)
  : Datatypes.list Reservation.t :=
  let reservations :=
    match status with
    | Some s =>
        filter (fun r : Reservation.t => Status_eqb (Reservation.status r) s)
          (Db.reservations db)
    | None => Db.reservations db
    end in
  Js.sort
    (fun a b : Reservation.t => Reservation.createdAt b - Reservation.createdAt a)
    reservations.

End Reservations.

(** ** app/admin/reservations/page.tsx: the status buttons *)

Module AdminReservationsPage.

(** The buttons of the detail dialog, in the order they are drawn:
    confirm unless the reservation is confirmed, cancel unless it is
    cancelled, complete when it is confirmed. *)
Definition offered (status : Status) : list Status :=
  (if negb (Status_eqb status confirmed) then [confirmed] else [])
  ++ (if negb (Status_eqb status cancelled) then [cancelled] else [])
  ++ (if Status_eqb status confirmed then [completed] else []).

(** [handleStatusChange]: [updateStatus({ reservationId, status: newStatus })]. *)
Definition handleStatusChange (now : Z) (reservationId : Id) (newStatus : Status)
  : Mutation Id :=
  Reservations.updateStatus now reservationId newStatus.

End AdminReservationsPage.

(** ** app/admin/page.tsx: the dashboard *)

Module AdminDashboard.

(** The list of recent reservations: [recentReservations.slice(0, 5)] of
    [reservations.list] without a status. *)
Definition recent (db : Db.t) : list Reservation.t :=
  firstn 5 (Reservations.list db None).

End AdminDashboard.

(** ** components/booking/BookingForm.tsx *)

Module BookingForm.

(** The guest counters of the form. *)
Record Guests := { adults : Z; children : Z }.

(** [useState(2)] and [useState(0)]. *)
Definition initial : Guests := {| adults := 2; children := 0 |}.

Definition handleAdultsChange (delta : Z) (st : Guests) : Guests :=
  let newValue := adults st + delta in
  if (1 <=? newValue) && (newValue <=? 4)
  then {| adults := newValue; children := children st |}
  else st.

Definition handleChildrenChange (delta : Z) (st : Guests) : Guests :=
  let newValue := children st + delta in
  if (0 <=? newValue) && (newValue <=? 3)
  then {| adults := adults st; children := newValue |}
  else st.

(** A press on one of the four counter buttons, with its [delta]. *)
Inductive Press :=
| PressAdults (delta : Z)
| PressChildren (delta : Z).

Definition press (st : Guests) (p : Press) : Guests :=
  match p with
  | PressAdults delta => handleAdultsChange delta st
  | PressChildren delta => handleChildrenChange delta st
  end.

(** The date argument [onSubmit] sends for a picked date, a finite time
    value: [date.toISOString().split("T")[0]]. *)
Definition dateArg (date : Z) : string := Js.split0 "T" (Date.toISOString date).

End BookingForm.

(** ** Notions of the specification *)

Module Spec.

(** An active reservation: pending or confirmed. *)
Definition isActive (res : Reservation.t) : bool :=
  match Reservation.status res with
  | pending | confirmed => true
  | cancelled | completed => false
  end.

(** The day [d] lies strictly inside the stay of [res]:
    [checkIn < d < checkOut] on date strings. *)
Definition spansDay (d : string) (res : Reservation.t) : bool :=
  (Reservation.checkIn res <? d)%string && (d <? Reservation.checkOut res)%string.

(** Room [roomId] has an active reservation whose stay spans [d]. *)
Definition heldOn (db : Db.t) (d : string) (roomId : Id) : bool :=
  existsb
    (fun res : Reservation.t =>
       isActive res && spansDay d res && Nat.eqb (Reservation.roomId res) roomId)
    (Db.reservations db).


(** The size of the amounts of [l]: the sum of the absolute values of
    [totalPrice]. While it stays within [safeInteger], every sum of prices
    of [l] is an integer that a number holds exactly. *)
Fixpoint volume (l : list Reservation.t) : Z :=
  match l with
  | [] => 0
  | r :: l' => Z.abs (Reservation.totalPrice r) + volume l'
  end.


(** Room [roomId] has a pending or confirmed reservation whose stay
    overlaps the range [checkIn, checkOut). *)
Definition bookedFor (db : Db.t) (checkIn checkOut : string) (roomId : Id) : bool :=
  existsb
    (fun res : Reservation.t =>
       isActive res
       && Rooms.isOverlapping (Reservation.checkIn res) (Reservation.checkOut res)
            checkIn checkOut
       && Nat.eqb (Reservation.roomId res) roomId)
    (Db.reservations db).

(** Room [roomId] has a blocked date among the requested days. *)
Definition blockedFor (db : Db.t) (checkIn checkOut : string) (roomId : Id) : bool :=
  existsb
    (fun b : BlockedDate.t =>
       Js.includes String.eqb (Rooms.getDatesInRange checkIn checkOut)
         (BlockedDate.date b)
       && Nat.eqb (BlockedDate.roomId b) roomId)
    (Db.blockedDates db).

(** Room [roomId] has a blocked date, a calendar date, in the half-open
    range [checkIn <= date < checkOut]. *)
Definition blockedWithin (db : Db.t) (checkIn checkOut : string) (roomId : Id) : bool :=
  existsb
    (fun b : BlockedDate.t =>
       Date.isCalendarDate (BlockedDate.date b)
       && (checkIn <=? BlockedDate.date b)%string
       && (BlockedDate.date b <? checkOut)%string
       && Nat.eqb (BlockedDate.roomId b) roomId)
    (Db.blockedDates db).

(** [r'] is [r] up to status and update time. *)
Definition sameBooking (r r' : Reservation.t) : Prop :=
  Reservation._id r' = Reservation._id r /\
  Reservation.roomId r' = Reservation.roomId r /\
  Reservation.guestName r' = Reservation.guestName r /\
  Reservation.guestEmail r' = Reservation.guestEmail r /\
  Reservation.guestPhone r' = Reservation.guestPhone r /\
  Reservation.guestCountry r' = Reservation.guestCountry r /\
  Reservation.checkIn r' = Reservation.checkIn r /\
  Reservation.checkOut r' = Reservation.checkOut r /\
  Reservation.adults r' = Reservation.adults r /\
  Reservation.children r' = Reservation.children r /\
  Reservation.totalPrice r' = Reservation.totalPrice r /\
  Reservation.specialRequests r' = Reservation.specialRequests r /\
  Reservation.createdAt r' = Reservation.createdAt r.

(** Rooms in display order. *)
Definition byOrder (a b : Room.t) : Prop := Room.order a <= Room.order b.


(** Reservations from the newest to the oldest. *)
Definition newestFirst (a b : Reservation.t) : Prop :=
  Reservation.createdAt b <= Reservation.createdAt a.

End Spec.

(** ** Document ids *)

Module Store.

(** The ids of all documents of the database. *)
Definition ids (db : Db.t) : list Id :=
  map Room._id (Db.rooms db) ++ map Reservation._id (Db.reservations db)
  ++ map BlockedDate._id (Db.blockedDates db).

(** Ids are unique and were all handed out before [nextId]. Convex
    guarantees this of its ids; here it is an invariant of the id
    counter. *)
Definition wf (db : Db.t) : Prop :=
  NoDup (ids db) /\ Forall (fun id => (id < Db.nextId db)%nat) (ids db).

(** Every reservation and every blocked date names a room of the rooms
    table. *)
Definition linked (db : Db.t) : Prop :=
  (forall res, In res (Db.reservations db) ->
     In (Reservation.roomId res) (map Room._id (Db.rooms db))) /\
  (forall b, In b (Db.blockedDates db) ->
     In (BlockedDate.roomId b) (map Room._id (Db.rooms db))).

End Store.

(** ** Sample data: two rooms, one reservation, one blocked date *)

Module Sample.

Definition room (id : Id) (name : string) (isAvailable : bool) (order : Z) : Room.t :=
  Room.mk id
    {| Room.name := name; Room.nameKo := name; Room.nameEn := name;
       Room.description := {| Room.vi := ""; Room.ko := ""; Room.en := "" |};
       Room.price := 50000; Room.capacity := 4; Room.bedType := "king";
       Room.amenities := ["wifi"]%string; Room.images := [];
       Room.isAvailable := isAvailable; Room.order := order |}.

Definition reservation (id roomId : Id) (guestEmail checkIn checkOut : string)
    (totalPrice : Z) (status : Status) : Reservation.t :=
  Reservation.mk id
    {| Reservation.roomId := roomId;
       Reservation.guestName := "Guest";
       Reservation.guestEmail := guestEmail;
       Reservation.guestPhone := "";
       Reservation.guestCountry := "VN";
       Reservation.checkIn := checkIn;
       Reservation.checkOut := checkOut;
       Reservation.adults := 2;
       Reservation.children := 0;
       Reservation.totalPrice := totalPrice;
       Reservation.status := status;
       Reservation.specialRequests := None;
       Reservation.createdAt := 1000;
       Reservation.updatedAt := 1000 |}.

Definition blocked (id roomId : Id) (date : string) : BlockedDate.t :=
  BlockedDate.mk id
    {| BlockedDate.roomId := roomId; BlockedDate.date := date;
       BlockedDate.reason := None |}.

Definition roomA : Room.t := room 1%nat "A" true 1.
Definition roomB : Room.t := room 2%nat "B" true 2.

(** Room A holds a confirmed reservation 2026-02-10 to 2026-02-15; room B
    is blocked on 2026-03-01. *)
Definition db : Db.t :=
  Db.mk [roomB; roomA]
        [reservation 3%nat 1%nat "guest@example.com" "2026-02-10" "2026-02-15"
           250000 confirmed]
        [blocked 4%nat 2%nat "2026-03-01"]
        5%nat.

(** Room A holds a confirmed reservation 2026-02-10 to 2026-02-12. *)
Definition dbTurnover : Db.t :=
  Db.mk [roomA; roomB]
        [reservation 3%nat 1%nat "guest@example.com" "2026-02-10" "2026-02-12"
           100000 confirmed]
        []
        4%nat.

(** The same rooms; room A's reservations are over or cancelled, and a
    pending one waits on room B. *)
Definition dbPast : Db.t :=
  Db.mk [roomB; roomA]
        [reservation 3%nat 1%nat "guest@example.com" "2026-02-10" "2026-02-15"
           250000 completed;
         reservation 4%nat 1%nat "other@example.com" "2026-02-12" "2026-02-14"
           100000 cancelled;
         reservation 5%nat 2%nat "third@example.com" "2026-02-12" "2026-02-13"
           50000 pending]
        [blocked 6%nat 1%nat "2026-03-01"]
        7%nat.


(** Room A is taken from 2026-01-20 to 2026-03-05, over the whole of
    February. *)
Definition dbLongStay : Db.t :=
  Db.mk [roomA; roomB]
        [reservation 3%nat 1%nat "guest@example.com" "2026-01-20" "2026-03-05"
           2200000 confirmed]
        []
        4%nat.

End Sample.

(** * Properties *)

(** ** Arrays: includes and sort *)

Lemma includes_nat_In (l : list Id) (x : Id) :
  Js.includes Nat.eqb l x = true <-> In x l.
Proof.
  unfold Js.includes. rewrite existsb_exists. split.
  - intros [y [Hy He]]. apply Nat.eqb_eq in He. now subst.
  - intros H. exists x. split; [assumption | apply Nat.eqb_refl].
Qed.

Lemma includes_string_In (l : list string) (x : string) :
  Js.includes String.eqb l x = true <-> In x l.
Proof.
  unfold Js.includes. rewrite existsb_exists. split.
  - intros [y [Hy He]]. apply String.eqb_eq in He. now subst.
  - intros H. exists x. split; [assumption | apply String.eqb_refl].
Qed.

Lemma filter_true {A : Type} (l : list A) : filter (fun _ => true) l = l.
Proof. induction l as [|x l IH]; simpl; [reflexivity | now rewrite IH]. Qed.

Section SortFacts.
Context {A : Type} (compareFn : A -> A -> Z).

Lemma insert_Permutation (x : A) (l : list A) :
  Permutation (Js.insert compareFn x l) (x :: l).
Proof.
  induction l as [|y l IH]; simpl.
  - apply Permutation_refl.
  - destruct (compareFn x y <=? 0).
    + apply Permutation_refl.
    + eapply perm_trans; [apply perm_skip, IH | apply perm_swap].
Qed.

Lemma sort_Permutation (l : list A) : Permutation (Js.sort compareFn l) l.
Proof.
  induction l as [|x l IH]; simpl.
  - apply perm_nil.
  - eapply perm_trans; [apply insert_Permutation | apply perm_skip, IH].
Qed.

Lemma sort_In (l : list A) (x : A) : In x (Js.sort compareFn l) <-> In x l.
Proof.
  split; apply Permutation_in;
    [apply sort_Permutation | apply Permutation_sym, sort_Permutation].
Qed.

Lemma sort_length (l : list A) : List.length (Js.sort compareFn l) = List.length l.
Proof. apply Permutation_length, sort_Permutation. Qed.
End SortFacts.

Section SortByKey.
Context {A : Type} (key : A -> Z).

Let cmp (a b : A) : Z := key a - key b.
Let le (a b : A) : Prop := key a <= key b.

Lemma insert_head (x : A) (l : list A) :
  Forall (le x) l -> Js.insert cmp x l = x :: l.
Proof.
  destruct l as [|y l]; simpl; [reflexivity|].
  intros H. inversion H as [|? ? Hy _]; subst. unfold le in Hy.
  unfold cmp. destruct (Z.leb_spec (key x - key y) 0); [reflexivity | lia].
Qed.

Lemma insert_sorted (x : A) (l : list A) :
  StronglySorted le l -> StronglySorted le (Js.insert cmp x l).
Proof.
  induction 1 as [|y l Hs IH Hall]; simpl.
  - repeat constructor.
  - unfold cmp at 1. destruct (Z.leb_spec (key x - key y) 0) as [Hle|Hgt].
    + constructor; [constructor; assumption|].
      constructor; [unfold le; lia|].
      eapply Forall_impl; [|exact Hall]. unfold le. intros; lia.
    + constructor; [exact IH|].
      eapply Permutation_Forall;
        [apply Permutation_sym, insert_Permutation|].
      constructor; [unfold le; lia | exact Hall].
Qed.

Lemma sort_sorted (l : list A) : StronglySorted le (Js.sort cmp l).
Proof.
  induction l as [|x l IH]; simpl; [constructor | now apply insert_sorted].
Qed.

Lemma filter_insert (p : A -> bool) (x : A) (l : list A) :
  StronglySorted le l ->
  filter p (Js.insert cmp x l) =
  if p x then Js.insert cmp x (filter p l) else filter p l.
Proof.
  induction 1 as [|y l Hs IH Hall].
  - simpl. destruct (p x); reflexivity.
  - cbn [Js.insert]. unfold cmp at 1.
    destruct (Z.leb_spec (key x - key y) 0) as [Hle|Hgt].
    + cbn [filter]. destruct (p x) eqn:Hpx; [|reflexivity].
      symmetry. apply insert_head.
      assert (Hx : Forall (le x) (y :: l)).
      { constructor; [unfold le; lia|].
        eapply Forall_impl; [|exact Hall]. unfold le. intros; lia. }
      change (Forall (le x) (filter p (y :: l))).
      rewrite Forall_forall in *. intros z Hz.
      apply filter_In in Hz. now apply Hx.
    + cbn [filter]. rewrite IH.
      destruct (p x) eqn:Hpx, (p y) eqn:Hpy; try reflexivity.
      cbn [Js.insert].
      assert (E : (cmp x y <=? 0) = false) by (apply Z.leb_gt; exact Hgt).
      now rewrite E.
Qed.

(** The sort is stable, so it commutes with filtering. *)
Lemma filter_sort (p : A -> bool) (l : list A) :
  filter p (Js.sort cmp l) = Js.sort cmp (filter p l).
Proof.
  induction l as [|x l IH]; [reflexivity|].
  cbn [Js.sort fold_right]. rewrite filter_insert by apply sort_sorted.
  fold (Js.sort cmp l). rewrite IH. cbn [filter].
  destruct (p x); reflexivity.
Qed.
End SortByKey.

(** ** Calendar arithmetic and date strings *)

Module DateFacts.
Import Date.

Lemma YearFromTime_spec (t : Z) :
  DayFromYear (YearFromTime t) <= Day t < DayFromYear (YearFromTime t + 1).
Proof.
  unfold YearFromTime. cbv zeta.
  generalize (Day t). intros d.
  remember (1970 + 400 * d / 146097) as y eqn:Hy.
  destruct (Z.leb_spec (DayFromYear (y + 1)) d) as [H1|H1].
  - split; [exact H1|]. unfold DayFromYear in *.
    Z.to_euclidean_division_equations; lia.
  - destruct (Z.leb_spec (DayFromYear y) d) as [H2|H2].
    + split; assumption.
    + replace (y - 1 + 1) with y by lia. split; [|lia].
      unfold DayFromYear in *. Z.to_euclidean_division_equations; lia.
Qed.

Lemma DaysInYear_cases (y : Z) : DaysInYear y = 365 \/ DaysInYear y = 366.
Proof.
  unfold DaysInYear.
  destruct (y mod 4 =? 0), (y mod 100 =? 0), (y mod 400 =? 0); simpl; auto.
Qed.

Lemma DayFromYear_succ (y : Z) : DayFromYear (y + 1) = DayFromYear y + DaysInYear y.
Proof.
  unfold DayFromYear, DaysInYear.
  destruct (Z.eqb_spec (y mod 4) 0), (Z.eqb_spec (y mod 100) 0),
    (Z.eqb_spec (y mod 400) 0); cbn [negb];
    Z.to_euclidean_division_equations; lia.
Qed.

Lemma DayFromYear_mono (y1 y2 : Z) : y1 <= y2 -> DayFromYear y1 <= DayFromYear y2.
Proof.
  intros H. unfold DayFromYear. Z.to_euclidean_division_equations; lia.
Qed.

Lemma DayFromYear_unique (y1 y2 n : Z) :
  DayFromYear y1 <= n < DayFromYear (y1 + 1) ->
  DayFromYear y2 <= n < DayFromYear (y2 + 1) ->
  y1 = y2.
Proof.
  intros H1 H2.
  destruct (Z.lt_trichotomy y1 y2) as [Hlt | [Heq | Hgt]]; [|exact Heq|].
  - pose proof (DayFromYear_mono (y1 + 1) y2). lia.
  - pose proof (DayFromYear_mono (y2 + 1) y1). lia.
Qed.

(** [YearFromTime t] is the largest year that starts at or before [t]. *)
Lemma YearFromTime_largest (t : Z) :
  TimeFromYear (YearFromTime t) <= t /\
  forall y, TimeFromYear y <= t -> y <= YearFromTime t.
Proof.
  pose proof (YearFromTime_spec t) as [Hlo Hhi].
  assert (Hday : forall n, msPerDay * n <= t <-> n <= Day t).
  { intros n. unfold Day, msPerDay. Z.to_euclidean_division_equations; lia. }
  unfold TimeFromYear. split; [now apply Hday|].
  intros y Hy. apply Hday in Hy.
  destruct (Z.le_gt_cases y (YearFromTime t)) as [|Hgt]; [assumption|].
  pose proof (DayFromYear_mono (YearFromTime t + 1) y). lia.
Qed.

Lemma leapOf_DaysInYear (y : Z) : DaysInYear y = 365 + leapOf y.
Proof.
  unfold leapOf. destruct (DaysInYear_cases y) as [-> | ->]; reflexivity.
Qed.

Lemma leapOf_cases (y : Z) : leapOf y = 0 \/ leapOf y = 1.
Proof. unfold leapOf. destruct (DaysInYear y =? 366); auto. Qed.

Lemma month_cases (m : Z) :
  1 <= m <= 12 ->
  m = 1 \/ m = 2 \/ m = 3 \/ m = 4 \/ m = 5 \/ m = 6 \/
  m = 7 \/ m = 8 \/ m = 9 \/ m = 10 \/ m = 11 \/ m = 12.
Proof. lia. Qed.

Ltac month_table :=
  change (1 - 1) with 0 in *; change (2 - 1) with 1 in *;
  change (3 - 1) with 2 in *; change (4 - 1) with 3 in *;
  change (5 - 1) with 4 in *; change (6 - 1) with 5 in *;
  change (7 - 1) with 6 in *; change (8 - 1) with 7 in *;
  change (9 - 1) with 8 in *; change (10 - 1) with 9 in *;
  change (11 - 1) with 10 in *; change (12 - 1) with 11 in *;
  cbv beta iota delta [monthStart] in *.

Ltac month_split H :=
  apply month_cases in H;
  repeat (destruct H as [H | H]); subst; month_table.

Lemma MakeDay_month (y m d : Z) :
  1 <= m <= 12 ->
  MakeDay y (m - 1) d = DayFromYear y + monthStart (leapOf y) (m - 1) + d - 1.
Proof.
  intros Hm. unfold MakeDay. cbv zeta.
  replace ((m - 1) / 12) with 0 by (Z.to_euclidean_division_equations; lia).
  replace ((m - 1) mod 12) with (m - 1) by (Z.to_euclidean_division_equations; lia).
  rewrite Z.add_0_r. reflexivity.
Qed.

Lemma validYMD_dayWithinYear (y m d : Z) :
  validYMD y m d ->
  0 <= monthStart (leapOf y) (m - 1) + d - 1 < DaysInYear y.
Proof.
  intros [Hm Hd]. rewrite leapOf_DaysInYear.
  unfold DaysInMonth in Hd.
  destruct (leapOf_cases y) as [Hl | Hl]; rewrite Hl in *;
    month_split Hm; lia.
Qed.

Lemma Day_MakeDate (n : Z) : Day (MakeDate n 0) = n.
Proof.
  unfold Day, MakeDate, msPerDay. Z.to_euclidean_division_equations; lia.
Qed.

Lemma YearFromTime_MakeDay (y m d : Z) :
  validYMD y m d -> YearFromTime (MakeDate (MakeDay y (m - 1) d) 0) = y.
Proof.
  intros Hv. pose proof (validYMD_dayWithinYear y m d Hv) as Hw.
  destruct Hv as [Hm Hd].
  apply (DayFromYear_unique _ _ (MakeDay y (m - 1) d)).
  - rewrite <- (Day_MakeDate (MakeDay y (m - 1) d)) at 2 3.
    apply YearFromTime_spec.
  - rewrite DayFromYear_succ, MakeDay_month by assumption. lia.
Qed.

Lemma civil_of_MakeDay (y m d : Z) :
  validYMD y m d ->
  let t := MakeDate (MakeDay y (m - 1) d) 0 in
  YearFromTime t = y /\ MonthFromTime t = m - 1 /\ DateFromTime t = d.
Proof.
  intros Hv t. pose proof (YearFromTime_MakeDay y m d Hv) as Hy. fold t in Hy.
  split; [exact Hy|].
  assert (Hw : DayWithinYear t = monthStart (leapOf y) (m - 1) + d - 1).
  { unfold DayWithinYear. rewrite Hy. unfold t. rewrite Day_MakeDate.
    rewrite MakeDay_month by apply Hv. lia. }
  assert (Hl : InLeapYear t = leapOf y).
  { unfold InLeapYear. now rewrite Hy. }
  destruct Hv as [Hm Hd]. unfold DaysInMonth in Hd. clearbody t.
  assert (HM : MonthFromTime t = m - 1).
  { unfold MonthFromTime. rewrite Hw, Hl.
    destruct (leapOf_cases y) as [Hl' | Hl']; rewrite Hl' in *;
      month_split Hm;
      repeat match goal with
             | |- context [?a <? ?b] => destruct (Z.ltb_spec a b); try lia
             end; reflexivity. }
  split; [exact HM|].
  unfold DateFromTime. rewrite HM, Hw, Hl.
  destruct (leapOf_cases y) as [Hl' | Hl']; rewrite Hl' in *;
    month_split Hm; lia.
Qed.

Lemma MonthFromTime_DateFromTime (t : Z) :
  exists M, 0 <= M <= 11 /\ MonthFromTime t = M /\
            DateFromTime t = DayWithinYear t - monthStart (InLeapYear t) M + 1.
Proof.
  unfold DateFromTime. cbv zeta.
  generalize (DayWithinYear t) (InLeapYear t). intros d l.
  unfold MonthFromTime. cbv zeta.
  generalize (DayWithinYear t) (InLeapYear t). intros d' l'.
  repeat match goal with
         | |- context [if ?a <? ?b then _ else _] => destruct (a <? b)
         end;
    eexists; (split; [|split; [reflexivity|]]);
    cbv beta iota delta [monthStart]; lia.
Qed.

Lemma MakeDay_date_succ (y m d : Z) : MakeDay y m (d + 1) = MakeDay y m d + 1.
Proof. unfold MakeDay. cbv zeta. lia. Qed.

Lemma MakeDay_next (t : Z) :
  MakeDay (YearFromTime t) (MonthFromTime t) (DateFromTime t + 1) = Day t + 1.
Proof.
  destruct (MonthFromTime_DateFromTime t) as (M & HM & -> & ->).
  unfold MakeDay. cbv zeta.
  replace (M / 12) with 0 by (Z.to_euclidean_division_equations; lia).
  replace (M mod 12) with M by (Z.to_euclidean_division_equations; lia).
  rewrite Z.add_0_r. unfold InLeapYear, DayWithinYear. lia.
Qed.

(** Moving a date to the next day of the month adds one day. *)
Lemma setDate_next (t : Z) :
  setDate t (getDate t + 1) = TimeClip (t + msPerDay).
Proof.
  unfold setDate, getDate. rewrite MakeDay_next. f_equal.
  unfold MakeDate, Day, TimeWithinDay, msPerDay.
  Z.to_euclidean_division_equations; lia.
Qed.

Lemma DayWithinYear_range (t : Z) :
  0 <= DayWithinYear t < 365 + InLeapYear t.
Proof.
  unfold DayWithinYear, InLeapYear. rewrite <- leapOf_DaysInYear.
  pose proof (YearFromTime_spec t) as H. rewrite DayFromYear_succ in H. lia.
Qed.

Lemma MonthFromTime_bounds (t : Z) :
  0 <= MonthFromTime t <= 11 /\
  monthStart (InLeapYear t) (MonthFromTime t) <= DayWithinYear t
    < monthStart (InLeapYear t) (MonthFromTime t + 1).
Proof.
  pose proof (DayWithinYear_range t) as Hr.
  assert (Hl : InLeapYear t = 0 \/ InLeapYear t = 1) by apply leapOf_cases.
  unfold MonthFromTime. cbv zeta.
  revert Hr Hl. generalize (DayWithinYear t) (InLeapYear t). intros d l Hr Hl.
  repeat match goal with
         | |- context [if ?a <? ?b then _ else _] => destruct (Z.ltb_spec a b)
         end;
    repeat match goal with
           | |- context [monthStart l (?a + 1)] =>
               let v := eval vm_compute in (a + 1) in change (a + 1) with v
           end;
    cbv beta iota delta [monthStart]; lia.
Qed.

(** Every time value falls on a day of the calendar, and MakeDay numbers
    that day. *)
Lemma civil_of_time (t : Z) :
  validYMD (YearFromTime t) (MonthFromTime t + 1) (DateFromTime t) /\
  MakeDay (YearFromTime t) (MonthFromTime t) (DateFromTime t) = Day t.
Proof.
  destruct (MonthFromTime_bounds t) as [HM Hb].
  destruct (MonthFromTime_DateFromTime t) as (M & _ & HM' & HD).
  split.
  - unfold validYMD, DaysInMonth. fold (InLeapYear t).
    replace (MonthFromTime t + 1 - 1) with (MonthFromTime t) by lia.
    rewrite HD, <- HM'. lia.
  - pose proof (MakeDay_next t) as Hnext.
    rewrite MakeDay_date_succ in Hnext. lia.
Qed.

Lemma YearFromTime_mono (t1 t2 : Z) :
  Day t1 <= Day t2 -> YearFromTime t1 <= YearFromTime t2.
Proof.
  intros H. pose proof (YearFromTime_spec t1). pose proof (YearFromTime_spec t2).
  destruct (Z.le_gt_cases (YearFromTime t1) (YearFromTime t2)); [assumption|].
  pose proof (DayFromYear_mono (YearFromTime t2 + 1) (YearFromTime t1)). lia.
Qed.

(** *** Date strings *)

Lemma digit_cases (k : Z) :
  0 <= k <= 9 ->
  k = 0 \/ k = 1 \/ k = 2 \/ k = 3 \/ k = 4 \/ k = 5 \/ k = 6 \/ k = 7 \/
  k = 8 \/ k = 9.
Proof. lia. Qed.

Lemma mod10_range (x : Z) : 0 <= x mod 10 <= 9.
Proof. Z.to_euclidean_division_equations; lia. Qed.

Lemma digitChar_not_T (x : Z) : Ascii.eqb (digitChar (x mod 10)) "T" = false.
Proof.
  pose proof (digit_cases _ (mod10_range x)) as H.
  repeat (destruct H as [H | H]); rewrite H; reflexivity.
Qed.

Lemma split0_isoDate_prefix (t : Z) (rest : string) :
  Js.split0 "T" (isoDate t ++ String "T" rest) = isoDate t.
Proof.
  unfold isoDate, isoYear.
  destruct ((0 <=? YearFromTime t) && (YearFromTime t <=? 9999));
    [|destruct (YearFromTime t <? 0)];
    unfold pad6, pad4, pad3, pad2; cbn [append Js.split0];
    rewrite ?digitChar_not_T; cbn [Ascii.eqb Bool.eqb]; reflexivity.
Qed.

Lemma split0_toISOString (t : Z) : Js.split0 "T" (toISOString t) = isoDate t.
Proof. unfold toISOString. apply split0_isoDate_prefix. Qed.

Lemma digitValue_inv (c : ascii) (v : Z) :
  digitValue c = Some v -> 0 <= v <= 9 /\ c = digitChar v.
Proof.
  unfold digitValue. cbv zeta.
  destruct (Z.leb_spec 48 (Z.of_N (N_of_ascii c))) as [H1|]; [|discriminate].
  destruct (Z.leb_spec (Z.of_N (N_of_ascii c)) 57) as [H2|]; [|discriminate].
  cbn [andb]. intros H. injection H as <-. split; [lia|].
  unfold digitChar.
  replace (48 + (Z.of_N (N_of_ascii c) - 48)) with (Z.of_N (N_of_ascii c)) by lia.
  now rewrite N2Z.id, ascii_N_embedding.
Qed.

Lemma digitValue_digitChar (v : Z) : 0 <= v <= 9 -> digitValue (digitChar v) = Some v.
Proof.
  intros H. apply digit_cases in H.
  repeat (destruct H as [H | H]); subst; reflexivity.
Qed.

Lemma dateFields_inv (s : string) (y m d : Z) :
  dateFields s = Some (y, m, d) ->
  exists a b c e f g h i,
    s = dateString a b c e f g h i /\
    (0 <= a <= 9 /\ 0 <= b <= 9 /\ 0 <= c <= 9 /\ 0 <= e <= 9) /\
    (0 <= f <= 9 /\ 0 <= g <= 9 /\ 0 <= h <= 9 /\ 0 <= i <= 9) /\
    y = 1000 * a + 100 * b + 10 * c + e /\ m = 10 * f + g /\ d = 10 * h + i.
Proof.
  unfold dateFields.
  do 10 (destruct s as [|? s]; [discriminate|]).
  destruct s; [|discriminate].
  match goal with
  | |- context [Ascii.eqb ?x "-" && Ascii.eqb ?y "-"] =>
      destruct (Ascii.eqb_spec x "-"); [|discriminate];
      destruct (Ascii.eqb_spec y "-"); [|discriminate]
  end.
  cbn [andb].
  repeat match goal with
         | |- context [match digitValue ?x with _ => _ end] =>
             let E := fresh "E" in
             destruct (digitValue x) eqn:E; [|discriminate];
             apply digitValue_inv in E; destruct E
         end.
  intros Hfields. injection Hfields as <- <- <-. subst.
  do 8 eexists. split; [reflexivity|]. repeat split; lia.
Qed.

Lemma dateFields_dateString (a b c e f g h i : Z) :
  0 <= a <= 9 -> 0 <= b <= 9 -> 0 <= c <= 9 -> 0 <= e <= 9 ->
  0 <= f <= 9 -> 0 <= g <= 9 -> 0 <= h <= 9 -> 0 <= i <= 9 ->
  dateFields (dateString a b c e f g h i) =
  Some (1000 * a + 100 * b + 10 * c + e, 10 * f + g, 10 * h + i).
Proof.
  intros. unfold dateString. cbn [dateFields].
  change (Ascii.eqb "-" "-") with true. cbn [andb].
  rewrite !digitValue_digitChar by assumption. reflexivity.
Qed.

Lemma pad2_digits (f g : Z) :
  0 <= f <= 9 -> 0 <= g <= 9 ->
  pad2 (10 * f + g) = String (digitChar f) (String (digitChar g) EmptyString).
Proof.
  intros. unfold pad2.
  replace ((10 * f + g) / 10 mod 10) with f
    by (Z.to_euclidean_division_equations; lia).
  replace ((10 * f + g) mod 10) with g
    by (Z.to_euclidean_division_equations; lia).
  reflexivity.
Qed.

Lemma pad4_digits (a b c e : Z) :
  0 <= a <= 9 -> 0 <= b <= 9 -> 0 <= c <= 9 -> 0 <= e <= 9 ->
  pad4 (1000 * a + 100 * b + 10 * c + e) =
  String (digitChar a) (String (digitChar b) (String (digitChar c)
    (String (digitChar e) EmptyString))).
Proof.
  intros. unfold pad4, pad3, pad2.
  replace ((1000 * a + 100 * b + 10 * c + e) / 1000 mod 10) with a
    by (Z.to_euclidean_division_equations; lia).
  replace ((1000 * a + 100 * b + 10 * c + e) / 100 mod 10) with b
    by (Z.to_euclidean_division_equations; lia).
  replace ((1000 * a + 100 * b + 10 * c + e) / 10 mod 10) with c
    by (Z.to_euclidean_division_equations; lia).
  replace ((1000 * a + 100 * b + 10 * c + e) mod 10) with e
    by (Z.to_euclidean_division_equations; lia).
  reflexivity.
Qed.

Lemma formatYMD_dateString (a b c e f g h i : Z) :
  0 <= a <= 9 -> 0 <= b <= 9 -> 0 <= c <= 9 -> 0 <= e <= 9 ->
  0 <= f <= 9 -> 0 <= g <= 9 -> 0 <= h <= 9 -> 0 <= i <= 9 ->
  formatYMD (1000 * a + 100 * b + 10 * c + e) (10 * f + g) (10 * h + i) =
  dateString a b c e f g h i.
Proof.
  intros. unfold formatYMD.
  rewrite pad4_digits, !pad2_digits by assumption. reflexivity.
Qed.

Lemma digitChar_compare (a b : Z) :
  0 <= a <= 9 -> 0 <= b <= 9 ->
  Ascii.compare (digitChar a) (digitChar b) = (a ?= b).
Proof.
  intros Ha Hb. apply digit_cases in Ha. apply digit_cases in Hb.
  repeat (destruct Ha as [Ha | Ha]); subst;
    repeat (destruct Hb as [Hb | Hb]); subst; reflexivity.
Qed.

Ltac lex_head :=
  match goal with
  | |- match ?x ?= ?y with _ => _ end = _ =>
      destruct (Z.compare_spec x y); [subst | |]
  end.

Ltac compare_eval :=
  repeat match goal with
         | |- context [?X ?= ?Y] =>
             first [ rewrite (proj2 (Z.compare_eq_iff X Y)) by lia
                   | rewrite (proj2 (Z.compare_lt_iff X Y)) by lia
                   | rewrite (proj2 (Z.compare_gt_iff X Y)) by lia ]
         end.

(** Date strings compare as the dates they spell. *)
Lemma dateString_compare (a1 b1 c1 e1 f1 g1 h1 i1 a2 b2 c2 e2 f2 g2 h2 i2 : Z) :
  0 <= a1 <= 9 -> 0 <= b1 <= 9 -> 0 <= c1 <= 9 -> 0 <= e1 <= 9 ->
  0 <= f1 <= 9 -> 0 <= g1 <= 9 -> 0 <= h1 <= 9 -> 0 <= i1 <= 9 ->
  0 <= a2 <= 9 -> 0 <= b2 <= 9 -> 0 <= c2 <= 9 -> 0 <= e2 <= 9 ->
  0 <= f2 <= 9 -> 0 <= g2 <= 9 -> 0 <= h2 <= 9 -> 0 <= i2 <= 9 ->
  String.compare (dateString a1 b1 c1 e1 f1 g1 h1 i1)
                 (dateString a2 b2 c2 e2 f2 g2 h2 i2) =
  compareYMD (1000 * a1 + 100 * b1 + 10 * c1 + e1) (10 * f1 + g1) (10 * h1 + i1)
             (1000 * a2 + 100 * b2 + 10 * c2 + e2) (10 * f2 + g2) (10 * h2 + i2).
Proof.
  intros. unfold dateString. cbn [String.compare].
  rewrite !digitChar_compare by assumption.
  change (Ascii.compare "-" "-") with Eq. cbv iota.
  unfold compareYMD.
  repeat (lex_head; [| compare_eval; reflexivity | compare_eval; reflexivity]).
  compare_eval. reflexivity.
Qed.

(** Days of the calendar are numbered in calendar order. *)
Lemma MakeDay_compare (y1 m1 d1 y2 m2 d2 : Z) :
  validYMD y1 m1 d1 -> validYMD y2 m2 d2 ->
  (MakeDay y1 (m1 - 1) d1 ?= MakeDay y2 (m2 - 1) d2) =
  compareYMD y1 m1 d1 y2 m2 d2.
Proof.
  intros Hv1 Hv2.
  pose proof (validYMD_dayWithinYear _ _ _ Hv1) as Hw1.
  pose proof (validYMD_dayWithinYear _ _ _ Hv2) as Hw2.
  destruct Hv1 as [Hm1 Hd1], Hv2 as [Hm2 Hd2].
  rewrite !MakeDay_month by assumption.
  unfold compareYMD.
  destruct (Z.compare_spec y1 y2) as [-> | Hy | Hy].
  - unfold DaysInMonth in Hd1, Hd2.
    destruct (Z.compare_spec m1 m2) as [-> | Hm | Hm].
    + destruct (Z.compare_spec d1 d2); compare_eval; reflexivity.
    + apply Z.compare_lt_iff.
      destruct (leapOf_cases y2) as [Hl | Hl]; rewrite Hl in *;
        month_split Hm1; month_split Hm2; lia.
    + apply Z.compare_gt_iff.
      destruct (leapOf_cases y2) as [Hl | Hl]; rewrite Hl in *;
        month_split Hm1; month_split Hm2; lia.
  - apply Z.compare_lt_iff.
    pose proof (DayFromYear_succ y1). pose proof (DayFromYear_mono (y1 + 1) y2).
    lia.
  - apply Z.compare_gt_iff.
    pose proof (DayFromYear_succ y2). pose proof (DayFromYear_mono (y2 + 1) y1).
    lia.
Qed.

Lemma DaysInMonth_le_31 (y m : Z) : 1 <= m <= 12 -> DaysInMonth y m <= 31.
Proof.
  intros Hm. unfold DaysInMonth.
  destruct (leapOf_cases y) as [Hl | Hl]; rewrite Hl; month_split Hm; lia.
Qed.

Lemma isCalendarDate_fields (s : string) :
  isCalendarDate s = true ->
  exists y m d, dateFields s = Some (y, m, d) /\ validYMD y m d.
Proof.
  unfold isCalendarDate, validYMD.
  destruct (dateFields s) as [[[y m] d]|]; [|discriminate].
  rewrite !andb_true_iff, !Z.leb_le. intros [[[? ?] ?] ?].
  exists y, m, d. repeat split; assumption.
Qed.

Lemma MakeDay_range (y m d : Z) :
  0 <= y <= 9999 -> validYMD y m d ->
  Z.abs (MakeDate (MakeDay y (m - 1) d) 0) <= maxTime.
Proof.
  intros Hy Hv. pose proof (validYMD_dayWithinYear _ _ _ Hv) as Hw.
  destruct Hv as [Hm Hd]. rewrite MakeDay_month by assumption.
  pose proof (DaysInYear_cases y).
  assert (-719528 <= DayFromYear y <= 2932532).
  { unfold DayFromYear. Z.to_euclidean_division_equations; lia. }
  unfold MakeDate, msPerDay, maxTime. lia.
Qed.

(** A calendar date string parses to midnight UTC of its day, and that
    time value prints back as the string. *)
Lemma parse_calendarDate (s : string) (y m d : Z) :
  dateFields s = Some (y, m, d) -> validYMD y m d ->
  parse s = Some (MakeDate (MakeDay y (m - 1) d) 0) /\
  isoDate (MakeDate (MakeDay y (m - 1) d) 0) = s.
Proof.
  intros Hf Hv.
  destruct (dateFields_inv _ _ _ _ Hf)
    as (a & b & c & e & f & g & h & i & Hs & Hr1 & Hr2 & Hy & Hm & Hd).
  assert (Hyr : 0 <= y <= 9999) by lia.
  split.
  - unfold parse. rewrite Hf.
    pose proof (DaysInMonth_le_31 y m (proj1 Hv)).
    destruct Hv as [Hvm Hvd].
    replace ((1 <=? m) && (m <=? 12) && (1 <=? d) && (d <=? 31)) with true
      by (symmetry; rewrite !andb_true_iff, !Z.leb_le; lia).
    unfold TimeClip.
    pose proof (MakeDay_range y m d Hyr (conj Hvm Hvd)) as Hr.
    apply Z.leb_le in Hr. now rewrite Hr.
  - unfold isoDate.
    destruct (civil_of_MakeDay y m d Hv) as (-> & -> & ->).
    unfold isoYear.
    replace ((0 <=? y) && (y <=? 9999)) with true
      by (symmetry; rewrite andb_true_iff, !Z.leb_le; lia).
    replace (m - 1 + 1) with m by lia.
    fold (formatYMD y m d). subst y m d s.
    apply formatYMD_dateString; lia.
Qed.

(** On calendar date strings the string order is the order of the days. *)
Lemma calendarDate_compare (s1 s2 : string) (y1 m1 d1 y2 m2 d2 : Z) :
  dateFields s1 = Some (y1, m1, d1) -> validYMD y1 m1 d1 ->
  dateFields s2 = Some (y2, m2, d2) -> validYMD y2 m2 d2 ->
  String.compare s1 s2 = (MakeDay y1 (m1 - 1) d1 ?= MakeDay y2 (m2 - 1) d2).
Proof.
  intros Hf1 Hv1 Hf2 Hv2. rewrite MakeDay_compare by assumption.
  destruct (dateFields_inv _ _ _ _ Hf1)
    as (a1 & b1 & c1 & e1 & f1 & g1 & h1 & i1 & -> & Hr1 & Hr1' & -> & -> & ->).
  destruct (dateFields_inv _ _ _ _ Hf2)
    as (a2 & b2 & c2 & e2 & f2 & g2 & h2 & i2 & -> & Hr2 & Hr2' & -> & -> & ->).
  apply dateString_compare; lia.
Qed.

Lemma formatYMD_fields (y m d : Z) :
  0 <= y <= 9999 -> 0 <= m <= 99 -> 0 <= d <= 99 ->
  dateFields (formatYMD y m d) = Some (y, m, d).
Proof.
  intros Hy Hm Hd.
  change (formatYMD y m d)
    with (dateString (y / 1000 mod 10) (y / 100 mod 10) (y / 10 mod 10) (y mod 10)
            (m / 10 mod 10) (m mod 10) (d / 10 mod 10) (d mod 10)).
  rewrite dateFields_dateString by apply mod10_range.
  f_equal. f_equal; [f_equal|]; Z.to_euclidean_division_equations; lia.
Qed.

(** Within the years 0..9999 the ISO date of a time value is the calendar
    date string of its day. *)
Lemma isoDate_calendar (t : Z) :
  0 <= YearFromTime t <= 9999 ->
  dateFields (isoDate t) =
    Some (YearFromTime t, MonthFromTime t + 1, DateFromTime t) /\
  isCalendarDate (isoDate t) = true.
Proof.
  intros Hy. destruct (civil_of_time t) as [Hv _].
  pose proof (DaysInMonth_le_31 (YearFromTime t) _ (proj1 Hv)) as H31.
  assert (Hf : dateFields (isoDate t) =
               Some (YearFromTime t, MonthFromTime t + 1, DateFromTime t)).
  { unfold isoDate, isoYear.
    replace ((0 <=? YearFromTime t) && (YearFromTime t <=? 9999)) with true
      by (symmetry; rewrite andb_true_iff, !Z.leb_le; lia).
    apply formatYMD_fields; destruct Hv; lia. }
  split; [exact Hf|].
  unfold isCalendarDate. rewrite Hf. destruct Hv as [? ?].
  rewrite !andb_true_iff, !Z.leb_le. lia.
Qed.

End DateFacts.

(** ** The enumeration of the requested days *)

Module RequestedDays.
Import Date DateFacts.

Lemma getDatesInRange_loop_NaN (fuel : nat) (endDate : TimeValue) :
  Rooms.getDatesInRange_loop fuel None endDate = [].
Proof. destruct fuel; reflexivity. Qed.

Lemma TimeClip_next (c e : Z) :
  - maxTime <= c -> e <= maxTime -> c < e ->
  TimeClip (c + msPerDay) = Some (c + msPerDay) \/
  (TimeClip (c + msPerDay) = None /\ e <= c + msPerDay).
Proof.
  intros Hc He Hlt. unfold TimeClip.
  destruct (Z.leb_spec (Z.abs (c + msPerDay)) maxTime) as [H|H]; [now left|].
  right. split; [reflexivity|]. unfold msPerDay, maxTime in *. lia.
Qed.

(** The loop stops on its test, not on its fuel: more fuel than
    [getDatesInRange_fuel] does not change the result. *)
Lemma getDatesInRange_loop_fuel (fuel extra : nat) (c e : Z) :
  - maxTime <= c -> e <= maxTime ->
  (Rooms.getDatesInRange_fuel (Some c) (Some e) <= fuel)%nat ->
  Rooms.getDatesInRange_loop (fuel + extra) (Some c) (Some e) =
  Rooms.getDatesInRange_loop fuel (Some c) (Some e).
Proof.
  revert c. induction fuel as [|fuel IH]; intros c Hc He Hfuel.
  - cbn [Rooms.getDatesInRange_fuel] in Hfuel.
    assert (Hle : e <= c).
    { unfold msPerDay in Hfuel.
      destruct (Z.le_gt_cases e c) as [|Hgt]; [assumption|].
      assert (0 <= (e - c) / 86400000) by (apply Z.div_pos; lia). lia. }
    destruct extra; [reflexivity|].
    cbn. apply Z.ltb_ge in Hle. now rewrite Hle.
  - cbn [Nat.add Rooms.getDatesInRange_loop lt].
    destruct (Z.ltb_spec c e) as [Hlt|]; [|reflexivity].
    f_equal. rewrite setDate_next.
    destruct (TimeClip_next c e Hc He Hlt) as [-> | [-> _]];
      [|now rewrite !getDatesInRange_loop_NaN].
    apply IH; [unfold msPerDay; lia | assumption |].
    cbn [Rooms.getDatesInRange_fuel] in Hfuel |- *.
    replace (e - (c + msPerDay)) with ((e - c) + (-1) * msPerDay) by lia.
    rewrite Z.div_add by (unfold msPerDay; lia).
    assert (0 <= (e - c) / msPerDay) by (apply Z.div_pos; unfold msPerDay; lia).
    lia.
Qed.

Lemma getDatesInRange_loop_In (fuel : nat) (c e : Z) (s : string) :
  - maxTime <= c -> e <= maxTime ->
  (Rooms.getDatesInRange_fuel (Some c) (Some e) <= fuel)%nat ->
  In s (Rooms.getDatesInRange_loop fuel (Some c) (Some e)) <->
  exists k, 0 <= k /\ c + k * msPerDay < e /\ s = isoDate (c + k * msPerDay).
Proof.
  revert c. induction fuel as [|fuel IH]; intros c Hc He Hfuel.
  - cbn [Rooms.getDatesInRange_fuel] in Hfuel. cbn. split; [tauto|].
    intros (k & Hk & Hlt & _).
    assert (0 <= (e - c) / msPerDay).
    { apply Z.div_pos; unfold msPerDay in *; lia. }
    lia.
  - cbn [Rooms.getDatesInRange_loop lt].
    destruct (Z.ltb_spec c e) as [Hlt|Hge].
    + rewrite setDate_next, split0_toISOString. cbn [In].
      assert (Hstep : In s (Rooms.getDatesInRange_loop fuel
                              (TimeClip (c + msPerDay)) (Some e)) <->
                      exists k, 0 <= k /\ c + msPerDay + k * msPerDay < e /\
                                s = isoDate (c + msPerDay + k * msPerDay)).
      { destruct (TimeClip_next c e Hc He Hlt) as [-> | [-> Hend]].
        - apply IH; [unfold msPerDay; lia | assumption |].
          cbn [Rooms.getDatesInRange_fuel] in Hfuel |- *.
          replace (e - (c + msPerDay)) with ((e - c) + (-1) * msPerDay) by lia.
          rewrite Z.div_add by (unfold msPerDay; lia).
          assert (0 <= (e - c) / msPerDay)
            by (apply Z.div_pos; unfold msPerDay; lia).
          lia.
        - rewrite getDatesInRange_loop_NaN. cbn. split; [tauto|].
          intros (k & Hk & Hk' & _). unfold msPerDay in *. lia. }
      rewrite Hstep. split.
      * intros [<- | (k & Hk & Hk' & ->)].
        -- exists 0. rewrite Z.mul_0_l, Z.add_0_r. repeat split; lia.
        -- exists (k + 1). repeat split; try lia. f_equal. lia.
      * intros (k & Hk & Hk' & ->).
        destruct (Z.eq_dec k 0) as [-> | Hnz].
        -- left. f_equal. lia.
        -- right. exists (k - 1). repeat split; try lia. f_equal. lia.
    + cbn. split; [tauto|]. intros (k & Hk & Hk' & _). unfold msPerDay in *. lia.
Qed.

Lemma parse_range (s : string) (t : Z) :
  parse s = Some t -> - maxTime <= t <= maxTime.
Proof.
  unfold parse, TimeClip.
  destruct (dateFields s) as [[[y m] d]|]; [|discriminate].
  destruct ((1 <=? m) && (m <=? 12) && (1 <=? d) && (d <=? 31)); [|discriminate].
  destruct (Z.leb_spec (Z.abs (MakeDate (MakeDay y (m - 1) d) 0)) maxTime)
    as [Hle|]; [|discriminate].
  intros Heq. injection Heq as <-. lia.
Qed.

(** [getDatesInRange] returns on every pair of strings, and what it
    returns does not depend on the fuel of its loop. *)
Lemma getDatesInRange_fuel_enough (start end_ : string) (extra : nat) :
  Rooms.getDatesInRange_loop
    (Rooms.getDatesInRange_fuel (parse start) (parse end_) + extra)
    (parse start) (parse end_)
  = Rooms.getDatesInRange start end_.
Proof.
  unfold Rooms.getDatesInRange. cbv zeta.
  destruct (parse start) as [c|] eqn:Hc; [|now rewrite !getDatesInRange_loop_NaN].
  destruct (parse end_) as [e|] eqn:He.
  - apply parse_range in Hc. apply parse_range in He.
    apply getDatesInRange_loop_fuel; [lia | lia | apply Nat.le_refl].
  - cbn [Rooms.getDatesInRange_fuel Nat.add]. now destruct extra.
Qed.

(** The requested days of any query: the ISO dates of the time values a
    whole number of days after the parsed [start] and before the parsed
    [end_]; none when either string does not parse. *)
Lemma getDatesInRange_In (start end_ s : string) :
  In s (Rooms.getDatesInRange start end_) <->
  exists t0 t1 k,
    parse start = Some t0 /\ parse end_ = Some t1 /\
    0 <= k /\ t0 + k * msPerDay < t1 /\ s = isoDate (t0 + k * msPerDay).
Proof.
  unfold Rooms.getDatesInRange. cbv zeta.
  destruct (parse start) as [c|] eqn:Hc.
  - destruct (parse end_) as [e|] eqn:He.
    + apply parse_range in Hc. apply parse_range in He.
      rewrite getDatesInRange_loop_In by (try lia; apply Nat.le_refl).
      split.
      * intros (k & Hk). now exists c, e, k.
      * intros (t0 & t1 & k & H0 & H1 & Hk).
        injection H0 as <-. injection H1 as <-. now exists k.
    + cbn. split; [tauto|]. intros (? & ? & ? & _ & H & _). discriminate H.
  - cbn. split; [tauto|]. intros (? & ? & ? & H & _). discriminate H.
Qed.

(** The requested days of a query between two calendar dates: the ISO
    dates of the days from the check-in day up to, not including, the
    check-out day. *)
Lemma getDatesInRange_days (checkIn checkOut s : string) (y1 m1 d1 y2 m2 d2 : Z) :
  dateFields checkIn = Some (y1, m1, d1) -> validYMD y1 m1 d1 ->
  dateFields checkOut = Some (y2, m2, d2) -> validYMD y2 m2 d2 ->
  In s (Rooms.getDatesInRange checkIn checkOut) <->
  exists n, MakeDay y1 (m1 - 1) d1 <= n < MakeDay y2 (m2 - 1) d2 /\
            s = isoDate (MakeDate n 0).
Proof.
  intros Hf1 Hv1 Hf2 Hv2. unfold Rooms.getDatesInRange. cbv zeta.
  destruct (parse_calendarDate _ _ _ _ Hf1 Hv1) as [-> _].
  destruct (parse_calendarDate _ _ _ _ Hf2 Hv2) as [-> _].
  assert (Hy1 : 0 <= y1 <= 9999).
  { destruct (dateFields_inv _ _ _ _ Hf1)
      as (? & ? & ? & ? & ? & ? & ? & ? & _ & ? & ? & ? & _). lia. }
  assert (Hy2 : 0 <= y2 <= 9999).
  { destruct (dateFields_inv _ _ _ _ Hf2)
      as (? & ? & ? & ? & ? & ? & ? & ? & _ & ? & ? & ? & _). lia. }
  pose proof (MakeDay_range _ _ _ Hy1 Hv1) as Hr1.
  pose proof (MakeDay_range _ _ _ Hy2 Hv2) as Hr2.
  rewrite getDatesInRange_loop_In by (try lia; apply Nat.le_refl).
  generalize dependent (MakeDay y1 (m1 - 1) d1).
  generalize dependent (MakeDay y2 (m2 - 1) d2).
  intros n2 _ n1 _. unfold MakeDate, msPerDay. split.
  - intros (k & Hk & Hlt & ->). exists (n1 + k). split; [lia|]. f_equal. lia.
  - intros (n & Hn & ->). exists (n - n1). repeat split; try lia. f_equal. lia.
Qed.

Lemma getDatesInRange_calendar_In (checkIn checkOut s : string) :
  isCalendarDate checkIn = true -> isCalendarDate checkOut = true ->
  isCalendarDate s = true ->
  (checkIn <=? s)%string = true -> (s <? checkOut)%string = true ->
  In s (Rooms.getDatesInRange checkIn checkOut).
Proof.
  intros H1 H2 Hs Hle Hlt.
  destruct (isCalendarDate_fields _ H1) as (y1 & m1 & d1 & Hf1 & Hv1).
  destruct (isCalendarDate_fields _ H2) as (y2 & m2 & d2 & Hf2 & Hv2).
  destruct (isCalendarDate_fields _ Hs) as (y & m & d & Hf & Hv).
  apply (getDatesInRange_days _ _ _ _ _ _ _ _ _ Hf1 Hv1 Hf2 Hv2).
  exists (MakeDay y (m - 1) d). split.
  - unfold String.leb, String.ltb in *.
    rewrite (calendarDate_compare _ _ _ _ _ _ _ _ Hf1 Hv1 Hf Hv) in Hle.
    rewrite (calendarDate_compare _ _ _ _ _ _ _ _ Hf Hv Hf2 Hv2) in Hlt.
    split.
    + destruct (Z.compare_spec (MakeDay y1 (m1 - 1) d1) (MakeDay y (m - 1) d));
        [lia | lia | discriminate].
    + destruct (Z.compare_spec (MakeDay y (m - 1) d) (MakeDay y2 (m2 - 1) d2));
        [discriminate | lia | discriminate].
  - symmetry. now apply parse_calendarDate.
Qed.

(** The requested days between two calendar dates are exactly the
    calendar date strings from [checkIn] up to, not including,
    [checkOut] in the string order. *)
Lemma getDatesInRange_calendar (checkIn checkOut s : string) :
  isCalendarDate checkIn = true -> isCalendarDate checkOut = true ->
  In s (Rooms.getDatesInRange checkIn checkOut) <->
  isCalendarDate s = true /\
  (checkIn <=? s)%string = true /\ (s <? checkOut)%string = true.
Proof.
  intros H1 H2. split.
  - intros Hin.
    destruct (isCalendarDate_fields _ H1) as (y1 & m1 & d1 & Hf1 & Hv1).
    destruct (isCalendarDate_fields _ H2) as (y2 & m2 & d2 & Hf2 & Hv2).
    apply (getDatesInRange_days _ _ _ _ _ _ _ _ _ Hf1 Hv1 Hf2 Hv2) in Hin.
    destruct Hin as (n & Hn & ->).
    set (t := MakeDate n 0).
    assert (Hy : 0 <= YearFromTime t <= 9999).
    { pose proof (YearFromTime_mono (MakeDate (MakeDay y1 (m1 - 1) d1) 0) t) as Ha.
      pose proof (YearFromTime_mono t (MakeDate (MakeDay y2 (m2 - 1) d2) 0)) as Hb.
      unfold t in Ha, Hb. rewrite !Day_MakeDate in Ha, Hb.
      rewrite YearFromTime_MakeDay in Ha, Hb by assumption.
      destruct (dateFields_inv _ _ _ _ Hf1)
        as (? & ? & ? & ? & ? & ? & ? & ? & _ & ? & ? & ? & _).
      destruct (dateFields_inv _ _ _ _ Hf2)
        as (? & ? & ? & ? & ? & ? & ? & ? & _ & ? & ? & ? & _).
      fold t in Ha, Hb. lia. }
    destruct (isoDate_calendar t Hy) as [Hf Hc].
    destruct (civil_of_time t) as [Hv Hday].
    unfold t in Hday at 4. rewrite Day_MakeDate in Hday.
    split; [exact Hc|].
    unfold String.leb, String.ltb.
    rewrite (calendarDate_compare _ _ _ _ _ _ _ _ Hf1 Hv1 Hf Hv).
    rewrite (calendarDate_compare _ _ _ _ _ _ _ _ Hf Hv Hf2 Hv2).
    replace (MonthFromTime t + 1 - 1) with (MonthFromTime t) by lia.
    rewrite Hday. split.
    + destruct (Z.compare_spec (MakeDay y1 (m1 - 1) d1) n); [reflexivity..|lia].
    + destruct (Z.compare_spec n (MakeDay y2 (m2 - 1) d2)); [lia|reflexivity|lia].
  - intros (Hs & Hle & Hlt). now apply getDatesInRange_calendar_In.
Qed.

End RequestedDays.

(** ** Tables: get and patch *)

Section TableFacts.
Context {D : Type} (idOf : D -> Id).

Lemma get_Some (tbl : list D) (id : Id) (d : D) :
  Db.get idOf tbl id = Some d -> In d tbl /\ idOf d = id.
Proof.
  unfold Db.get. intros H. apply find_some in H.
  destruct H as [Hin He]. apply Nat.eqb_eq in He. now split.
Qed.

Lemma patch_None (tbl : list D) (id : Id) (f : D -> D) :
  Db.get idOf tbl id = None -> Db.patch idOf tbl id f = None.
Proof.
  unfold Db.get. induction tbl as [|d tbl IH]; simpl; [reflexivity|].
  destruct (Nat.eqb (idOf d) id); [discriminate|].
  intros H. now rewrite (IH H).
Qed.

Lemma patch_get (tbl : list D) (id : Id) (f : D -> D) (d : D) :
  Db.get idOf tbl id = Some d -> idOf (f d) = idOf d ->
  exists tbl', Db.patch idOf tbl id f = Some tbl' /\
               Db.get idOf tbl' id = Some (f d).
Proof.
  unfold Db.get. intros Hget Hid.
  induction tbl as [|x tbl IH]; simpl in *; [discriminate|].
  destruct (Nat.eqb (idOf x) id) eqn:E.
  - injection Hget as ->. eexists. split; [reflexivity|].
    simpl. now rewrite Hid, E.
  - destruct (IH Hget) as (tbl' & -> & Hg). eexists. split; [reflexivity|].
    simpl. now rewrite E.
Qed.
End TableFacts.

(** ** The availability resolver *)

Lemma getAvailableRooms_In db checkIn checkOut room :
  In room (Rooms.getAvailableRooms db checkIn checkOut) <->
  In room (Db.rooms db) /\ Room.isAvailable room = true /\
  (forall res, In res (Db.reservations db) ->
     Reservation.status res = pending \/ Reservation.status res = confirmed ->
     Rooms.isOverlapping (Reservation.checkIn res) (Reservation.checkOut res)
       checkIn checkOut = true ->
     Reservation.roomId res <> Room._id room) /\
  (forall b, In b (Db.blockedDates db) ->
     In (BlockedDate.date b) (Rooms.getDatesInRange checkIn checkOut) ->
     BlockedDate.roomId b <> Room._id room).
Proof.
  unfold Rooms.getAvailableRooms. rewrite sort_In, !filter_In.
  rewrite andb_true_iff, !negb_true_iff, eqb_true_iff.
  rewrite <- !not_true_iff_false, !includes_nat_In, !in_map_iff.
  split.
  - intros [[Hin Hav] [Hbook Hblock]]. repeat split; try assumption.
    + intros res Hres Hst Hov Heq. apply Hbook. exists res. split; [exact Heq|].
      apply filter_In. split; [assumption|]. rewrite Hov, andb_true_r.
      destruct Hst as [-> | ->]; reflexivity.
    + intros b Hb Hd Heq. apply Hblock. exists b. split; [exact Heq|].
      apply filter_In. split; [assumption|]. now apply includes_string_In.
  - intros (Hin & Hav & Hbook & Hblock). repeat split; try assumption.
    + intros [res [Heq Hres]]. apply filter_In in Hres. destruct Hres as [Hres Hc].
      apply andb_true_iff in Hc. destruct Hc as [Hst Hov].
      apply (Hbook res Hres); [|exact Hov|exact Heq].
      destruct (Reservation.status res); simpl in Hst; auto; discriminate.
    + intros [b [Heq Hb]]. apply filter_In in Hb. destruct Hb as [Hb Hc].
      apply includes_string_In in Hc. now apply (Hblock b Hb).
Qed.

(** The days of a three-night stay across the end of February. *)
Example getDatesInRange_february :
  Rooms.getDatesInRange "2026-02-27" "2026-03-02" =
  ["2026-02-27"; "2026-02-28"; "2026-03-01"]%string.
Proof. reflexivity. Qed.

(** A query overlapping room A's stay returns room B only; a query that
    starts on the check-out day returns both rooms. *)
Example getAvailableRooms_overlap :
  Rooms.getAvailableRooms Sample.dbTurnover "2026-02-11" "2026-02-13" =
  [Sample.roomB].
Proof. reflexivity. Qed.

Example getAvailableRooms_turnover :
  Rooms.getAvailableRooms Sample.dbTurnover "2026-02-12" "2026-02-14" =
  [Sample.roomA; Sample.roomB].
Proof. reflexivity. Qed.

(** C1. A pending or confirmed reservation whose stay overlaps the query
    range under the half-open rule ([resCheckIn < checkOut] and
    [resCheckOut > checkIn] on the date strings) keeps the room it
    references out of the result of [getAvailableRooms]. *)
Theorem getAvailableRooms_excludes_overlapping
    (db : Db.t) (checkIn checkOut : string) (res : Reservation.t) :
  In res (Db.reservations db) ->
  Reservation.status res = pending \/ Reservation.status res = confirmed ->
  (Reservation.checkIn res <? checkOut)%string = true ->
  (checkIn <? Reservation.checkOut res)%string = true ->
  ~ In (Reservation.roomId res)
       (map Room._id (Rooms.getAvailableRooms db checkIn checkOut)).
Proof.
  intros Hres Hst Hin Hout Hroom.
  apply in_map_iff in Hroom. destruct Hroom as [room [Heq Hroom]].
  apply getAvailableRooms_In in Hroom. destruct Hroom as (_ & _ & Hbook & _).
  apply (Hbook res Hres Hst); [|now symmetry].
  unfold Rooms.isOverlapping. now rewrite Hin, Hout.
Qed.

Lemma getAvailableRooms_excludes_overlapping_witness :
  ~ In 1%nat
       (map Room._id (Rooms.getAvailableRooms Sample.db "2026-02-11" "2026-02-13")).
Proof.
  apply (getAvailableRooms_excludes_overlapping Sample.db "2026-02-11" "2026-02-13"
           (Sample.reservation 3%nat 1%nat "guest@example.com" "2026-02-10"
              "2026-02-15" 250000 confirmed)).
  - simpl. left. reflexivity.
  - right. reflexivity.
  - reflexivity.
  - reflexivity.
Defined.

(** *** The zero-night query *)

Lemma getDatesInRange_same (d : string) : Rooms.getDatesInRange d d = [].
Proof.
  unfold Rooms.getDatesInRange, Rooms.getDatesInRange_fuel.
  destruct (Date.parse d) as [t|]; [|reflexivity].
  rewrite Z.sub_diag. simpl. now rewrite Z.ltb_irrefl.
Qed.

Lemma booked_includes_heldOn db d (room : Room.t) :
  Js.includes Nat.eqb
    (map (fun res : Reservation.t => Reservation.roomId res)
       (filter
          (fun res : Reservation.t =>
             (Status_eqb (Reservation.status res) pending
              || Status_eqb (Reservation.status res) confirmed)
             && Rooms.isOverlapping (Reservation.checkIn res)
                  (Reservation.checkOut res) d d)
          (Db.reservations db)))
    (Room._id room)
  = Spec.heldOn db d (Room._id room).
Proof.
  unfold Spec.heldOn, Js.includes.
  induction (Db.reservations db) as [|res l IH]; [reflexivity|].
  cbn [filter existsb]. rewrite <- IH. clear IH.
  unfold Spec.isActive, Spec.spansDay, Rooms.isOverlapping.
  rewrite (Nat.eqb_sym (Reservation.roomId res)).
  destruct (Reservation.status res); cbn [Status_eqb orb andb];
    try reflexivity;
    destruct ((Reservation.checkIn res <? d)%string && (d <? Reservation.checkOut res)%string);
    reflexivity.
Qed.

(** The claim C2 as stated fails: room A holds a confirmed reservation from
    2026-02-10 to 2026-02-15, and the zero-night query on 2026-02-12 drops
    it although it is bookable. *)
Lemma zero_night_query_drops_held_room :
  Rooms.list Sample.db = [Sample.roomA; Sample.roomB] /\
  Rooms.getAvailableRooms Sample.db "2026-02-12" "2026-02-12" = [Sample.roomB] /\
  Rooms.getAvailableRooms Sample.db "2026-02-12" "2026-02-12" <> Rooms.list Sample.db.
Proof. repeat split; try reflexivity. discriminate. Qed.

Lemma filter_keeps_all {A : Type} (p : A -> bool) (l : list A) :
  filter p l = l <-> forall x, In x l -> p x = true.
Proof.
  assert (Hlen : forall m : list A, (List.length (filter p m) <= List.length m)%nat).
  { induction m as [|y m IHm]; cbn; [lia|]. destruct (p y); cbn; lia. }
  induction l as [|x l IH]; cbn [filter].
  - split; [intros _ y [] | reflexivity].
  - destruct (p x) eqn:Hp; split.
    + intros H y [<- | Hy]; [exact Hp|]. injection H as H. now apply IH.
    + intros H. f_equal. apply IH. intros y Hy. apply H. now right.
    + intros H. exfalso. pose proof (Hlen l) as Hle. rewrite H in Hle.
      cbn in Hle. lia.
    + intros H. rewrite (H x) in Hp by now left. discriminate.
Qed.

(** C2 (amended). On a zero-night query [getAvailableRooms(d, d)] the
    enumeration of the requested days is empty, so no blocked date
    excludes a room; the result is the bookable rooms in display order
    without those that hold a pending or confirmed reservation with
    [resCheckIn < d < resCheckOut]. It is the list of all bookable rooms
    exactly when no bookable room holds such a reservation, and so in
    particular when no pending or confirmed reservation spans [d] at
    all. *)
Theorem getAvailableRooms_zero_night (db : Db.t) (d : string) :
  Rooms.getDatesInRange d d = [] /\
  Rooms.getAvailableRooms db d d =
    filter (fun room : Room.t => negb (Spec.heldOn db d (Room._id room)))
      (Rooms.list db) /\
  (Rooms.getAvailableRooms db d d = Rooms.list db <->
   forall room, In room (Db.rooms db) -> Room.isAvailable room = true ->
     Spec.heldOn db d (Room._id room) = false) /\
  ((forall res, In res (Db.reservations db) ->
      Spec.isActive res && Spec.spansDay d res = false) ->
   Rooms.getAvailableRooms db d d = Rooms.list db).
Proof.
  assert (Heq : Rooms.getAvailableRooms db d d =
    filter (fun room : Room.t => negb (Spec.heldOn db d (Room._id room)))
      (Rooms.list db)).
  { unfold Rooms.getAvailableRooms, Rooms.list.
    rewrite getDatesInRange_same.
    rewrite (filter_sort (fun r : Room.t => Room.order r)). f_equal.
    apply filter_ext. intros room.
    rewrite booked_includes_heldOn.
    assert (Hnil : forall l : list BlockedDate.t,
               filter (fun blocked : BlockedDate.t =>
                         Js.includes String.eqb [] (BlockedDate.date blocked)) l = []).
    { induction l; simpl; auto. }
    rewrite Hnil. simpl. now rewrite andb_true_r. }
  assert (Hiff : Rooms.getAvailableRooms db d d = Rooms.list db <->
            forall room, In room (Db.rooms db) -> Room.isAvailable room = true ->
              Spec.heldOn db d (Room._id room) = false).
  { rewrite Heq, filter_keeps_all. unfold Rooms.list. cbv zeta. split.
    - intros H room Hin Hav. apply negb_true_iff. apply H.
      apply sort_In, filter_In. split; [exact Hin|]. now rewrite Hav.
    - intros H room Hin. apply sort_In, filter_In in Hin.
      destruct Hin as [Hin Hav]. apply eqb_prop in Hav.
      apply negb_true_iff. now apply H. }
  split; [apply getDatesInRange_same|]. split; [exact Heq|].
  split; [exact Hiff|].
  intros Hfree. apply Hiff. intros room _ _.
  unfold Spec.heldOn. apply not_true_iff_false. intros Hex.
  apply existsb_exists in Hex. destruct Hex as [res [Hres Hc]].
  apply andb_true_iff in Hc. destruct Hc as [Hc _].
  rewrite (Hfree res Hres) in Hc. discriminate.
Qed.

(** C3. A blocked date that lies in the requested half-open range
    [checkIn <= date < checkOut] keeps the room it references out of the
    result of [getAvailableRooms], whatever reservations the database
    holds. The three dates are calendar dates in the [YYYY-MM-DD] form. *)
Theorem getAvailableRooms_excludes_blocked
    (db : Db.t) (checkIn checkOut : string) (blocked : BlockedDate.t) :
  Date.isCalendarDate checkIn = true ->
  Date.isCalendarDate checkOut = true ->
  Date.isCalendarDate (BlockedDate.date blocked) = true ->
  In blocked (Db.blockedDates db) ->
  (checkIn <=? BlockedDate.date blocked)%string = true ->
  (BlockedDate.date blocked <? checkOut)%string = true ->
  ~ In (BlockedDate.roomId blocked)
       (map Room._id (Rooms.getAvailableRooms db checkIn checkOut)).
Proof.
  intros H1 H2 Hd Hb Hle Hlt Hroom.
  apply in_map_iff in Hroom. destruct Hroom as [room [Heq Hroom]].
  apply getAvailableRooms_In in Hroom. destruct Hroom as (_ & _ & _ & Hblock).
  apply (Hblock blocked Hb); [|now symmetry].
  now apply RequestedDays.getDatesInRange_calendar_In.
Qed.

Lemma getAvailableRooms_excludes_blocked_witness :
  ~ In 2%nat
       (map Room._id (Rooms.getAvailableRooms Sample.db "2026-02-27" "2026-03-02")).
Proof.
  apply (getAvailableRooms_excludes_blocked Sample.db "2026-02-27" "2026-03-02"
           (Sample.blocked 4%nat 2%nat "2026-03-01")).
  - reflexivity.
  - reflexivity.
  - reflexivity.
  - simpl. left. reflexivity.
  - reflexivity.
  - reflexivity.
Defined.

(** Closed reservations and the enumeration of the requested days, for
    every pair of query strings. *)
Lemma closed_reservations_requested_days
    (db : Db.t) (checkIn checkOut : string) (room : Room.t) :
  In room (Db.rooms db) ->
  Room.isAvailable room = true ->
  (forall res, In res (Db.reservations db) ->
     Reservation.roomId res = Room._id room ->
     Reservation.status res = cancelled \/ Reservation.status res = completed) ->
  (forall b, In b (Db.blockedDates db) ->
     BlockedDate.roomId b = Room._id room ->
     ~ In (BlockedDate.date b) (Rooms.getDatesInRange checkIn checkOut)) ->
  In room (Rooms.getAvailableRooms db checkIn checkOut).
Proof.
  intros Hin Hav Hres Hblock. apply getAvailableRooms_In.
  repeat split; try assumption.
  - intros res Hr Hst _ Heq.
    destruct (Hres res Hr Heq) as [Hc | Hc]; rewrite Hc in Hst;
      destruct Hst; discriminate.
  - intros b Hb Hd Heq. exact (Hblock b Hb Heq Hd).
Qed.

(** C4. Cancelled and completed reservations never exclude a room: for a
    query between two calendar dates, a bookable room whose reservations
    are all cancelled or completed, and which has no blocked date in the
    half-open range [checkIn <= date < checkOut], is in the result of
    [getAvailableRooms], whatever the stays of those reservations. *)
Theorem getAvailableRooms_ignores_closed_reservations
    (db : Db.t) (checkIn checkOut : string) (room : Room.t) :
  Date.isCalendarDate checkIn = true ->
  Date.isCalendarDate checkOut = true ->
  In room (Db.rooms db) ->
  Room.isAvailable room = true ->
  (forall res, In res (Db.reservations db) ->
     Reservation.roomId res = Room._id room ->
     Reservation.status res = cancelled \/ Reservation.status res = completed) ->
  (forall b, In b (Db.blockedDates db) ->
     BlockedDate.roomId b = Room._id room ->
     (checkIn <=? BlockedDate.date b)%string && (BlockedDate.date b <? checkOut)%string
     = false) ->
  In room (Rooms.getAvailableRooms db checkIn checkOut).
Proof.
  intros H1 H2 Hin Hav Hres Hblock.
  apply closed_reservations_requested_days; try assumption.
  intros b Hb Heq Hd.
  apply (RequestedDays.getDatesInRange_calendar _ _ _ H1 H2) in Hd.
  destruct Hd as (_ & Hle & Hlt).
  specialize (Hblock b Hb Heq). rewrite Hle, Hlt in Hblock. discriminate.
Qed.

Lemma getAvailableRooms_ignores_closed_reservations_witness :
  In Sample.roomA
     (Rooms.getAvailableRooms Sample.dbPast "2026-02-11" "2026-02-13").
Proof.
  apply getAvailableRooms_ignores_closed_reservations.
  - reflexivity.
  - reflexivity.
  - right. left. reflexivity.
  - reflexivity.
  - intros res [<- | [<- | [<- | []]]] He;
      [right | left | discriminate He]; reflexivity.
  - intros b [<- | []] _. reflexivity.
Defined.

(** ** The room catalogue *)

Lemma filter_length_le {A : Type} (p : A -> bool) (l : list A) :
  (List.length (filter p l) <= List.length l)%nat.
Proof.
  induction l as [|x l IH]; simpl; [lia|]. destruct (p x); simpl; lia.
Qed.

Lemma filter_length_eq {A : Type} (p : A -> bool) (l : list A) :
  List.length (filter p l) = List.length l <-> forall x, In x l -> p x = true.
Proof.
  induction l as [|x l IH]; simpl.
  - split; [intros _ ? [] | reflexivity].
  - pose proof (filter_length_le p l) as Hle.
    destruct (p x) eqn:Hp; simpl; split.
    + intros H y [<- | Hy]; [assumption|]. apply IH; [lia | assumption].
    + intros H. f_equal. apply IH. intros y Hy. apply H. now right.
    + intros H. lia.
    + intros H. specialize (H x (or_introl eq_refl)). congruence.
Qed.

(** C8. [listAll] returns every room and [list] exactly the rooms whose
    [isAvailable] is true, both sorted by [order]; so [list] is never
    longer than [listAll], and they have the same length if and only if no
    room has its availability flag off. *)
Theorem listAll_list_views (db : Db.t) :
  Permutation (Rooms.listAll db) (Db.rooms db) /\
  Permutation (Rooms.list db)
    (filter (fun r : Room.t => Room.isAvailable r) (Db.rooms db)) /\
  Rooms.list db = filter (fun r : Room.t => Room.isAvailable r) (Rooms.listAll db) /\
  StronglySorted Spec.byOrder (Rooms.listAll db) /\
  StronglySorted Spec.byOrder (Rooms.list db) /\
  (List.length (Rooms.list db) <= List.length (Rooms.listAll db))%nat /\
  (List.length (Rooms.list db) = List.length (Rooms.listAll db) <->
   forall r, In r (Db.rooms db) -> Room.isAvailable r = true).
Proof.
  assert (Hext : forall l : list Room.t,
             filter (fun r : Room.t => Bool.eqb (Room.isAvailable r) true) l =
             filter (fun r : Room.t => Room.isAvailable r) l).
  { intros l. apply filter_ext. intros r. now destruct (Room.isAvailable r). }
  unfold Rooms.list, Rooms.listAll. cbv zeta. rewrite Hext.
  repeat split.
  - apply sort_Permutation.
  - apply sort_Permutation.
  - symmetry. apply (filter_sort (fun r : Room.t => Room.order r)).
  - apply (sort_sorted (fun r : Room.t => Room.order r)).
  - apply (sort_sorted (fun r : Room.t => Room.order r)).
  - rewrite !sort_length. apply filter_length_le.
  - rewrite !sort_length. apply filter_length_eq.
  - rewrite !sort_length. apply filter_length_eq.
Qed.

(** C10. [seedRooms] is idempotent: on a non-empty rooms table it inserts
    nothing, leaves the database as it is and returns the number of rooms
    there; so running it twice leaves the database that running it once
    leaves. *)
Theorem seedRooms_idempotent (db : Db.t) :
  (Db.rooms db <> [] ->
   Rooms.seedRooms db =
     (Return {| Rooms.message := "이미 객실 데이터가 있습니다.";
                Rooms.count := Z.of_nat (List.length (Db.rooms db)) |},
      db)) /\
  snd (Rooms.seedRooms (snd (Rooms.seedRooms db))) = snd (Rooms.seedRooms db).
Proof.
  assert (Hskip : forall db', Db.rooms db' <> [] ->
            Rooms.seedRooms db' =
              (Return {| Rooms.message := "이미 객실 데이터가 있습니다.";
                         Rooms.count := Z.of_nat (List.length (Db.rooms db')) |},
               db')).
  { intros db' Hne. unfold Rooms.seedRooms, bind, Ctx.collect.
    destruct (Db.rooms db') as [|r l]; [contradiction|]. reflexivity. }
  split; [apply Hskip|].
  destruct (Db.rooms db) as [|r l] eqn:Hrooms.
  - rewrite Hskip; [reflexivity|].
    destruct db as [rooms res bl n]. cbn in Hrooms. subst rooms.
    vm_compute. discriminate.
  - rewrite (Hskip db) by (rewrite Hrooms; discriminate). cbn [snd].
    rewrite (Hskip db) by (rewrite Hrooms; discriminate). reflexivity.
Qed.

(** ** The reservation ledger *)

Lemma withStatus_sameBooking (s : Status) (now : Z) (r : Reservation.t) :
  Spec.sameBooking r (Reservation.withStatus s now r).
Proof. unfold Spec.sameBooking. repeat split. Qed.

Lemma updateStatus_resolving (db : Db.t) (now : Z) (id : Id) (s : Status)
    (r : Reservation.t) :
  Reservations.getById db id = Some r ->
  exists db',
    Reservations.updateStatus now id s db = (Return id, db') /\
    Reservations.getById db' id = Some (Reservation.withStatus s now r).
Proof.
  unfold Reservations.getById, Reservations.updateStatus, bind,
    Ctx.patchReservation, ret.
  intros Hget.
  destruct (patch_get Reservation._id _ _ (Reservation.withStatus s now) _ Hget
              eq_refl) as (tbl' & -> & Hg).
  eexists. split; [reflexivity | exact Hg].
Qed.

(** C7. On a resolving id, [updateStatus(id, s)] succeeds whatever the
    current status: afterwards the reservation has status [s] and update
    time [now], every other field as before. A second call with the same
    [s] keeps the status and the other fields, and sets the update time
    again. *)
Theorem updateStatus_sets_status_and_time
    (db : Db.t) (now : Z) (id : Id) (s : Status) (r : Reservation.t) :
  Reservations.getById db id = Some r ->
  exists db' r',
    Reservations.updateStatus now id s db = (Return id, db') /\
    Reservations.getById db' id = Some r' /\
    Reservation.status r' = s /\
    Reservation.updatedAt r' = now /\
    Spec.sameBooking r r' /\
    forall now2, exists db'' r'',
      Reservations.updateStatus now2 id s db' = (Return id, db'') /\
      Reservations.getById db'' id = Some r'' /\
      Reservation.status r'' = s /\
      Reservation.updatedAt r'' = now2 /\
      Spec.sameBooking r r''.
Proof.
  intros Hget.
  destruct (updateStatus_resolving db now id s r Hget) as (db' & Hrun & Hget').
  exists db', (Reservation.withStatus s now r).
  repeat split; try assumption; try reflexivity.
  intros now2.
  destruct (updateStatus_resolving db' now2 id s _ Hget') as (db'' & Hrun' & Hget'').
  exists db'', (Reservation.withStatus s now2 (Reservation.withStatus s now r)).
  repeat split; try assumption; reflexivity.
Qed.

Lemma updateStatus_sets_status_and_time_witness :
  exists db',
    Reservations.updateStatus 2000 3%nat completed Sample.db = (Return 3%nat, db').
Proof.
  destruct (updateStatus_sets_status_and_time Sample.db 2000 3%nat completed
              (Sample.reservation 3%nat 1%nat "guest@example.com" "2026-02-10"
                 "2026-02-15" 250000 confirmed) eq_refl)
    as (db' & _ & Hrun & _).
  exists db'. exact Hrun.
Defined.

Lemma Status_eqb_eq (a b : Status) : Status_eqb a b = true <-> a = b.
Proof. destruct a, b; simpl; split; intros H; congruence. Qed.

Lemma cancel_not_found (db : Db.t) (now : Z) (id : Id) (email : string) :
  Reservations.getById db id = None ->
  Reservations.cancel now id email db = (Throw NotFound, db).
Proof.
  unfold Reservations.cancel, Reservations.getById, bind, Ctx.getReservation.
  now intros ->.
Qed.

Lemma cancel_unauthorized (db : Db.t) (now : Z) (id : Id) (email : string)
    (r : Reservation.t) :
  Reservations.getById db id = Some r ->
  Reservation.guestEmail r <> email ->
  Reservations.cancel now id email db = (Throw Unauthorized, db).
Proof.
  unfold Reservations.cancel, Reservations.getById, bind, Ctx.getReservation.
  intros -> Hne. apply String.eqb_neq in Hne. now rewrite Hne.
Qed.

Lemma cancel_invalid_state (db : Db.t) (now : Z) (id : Id) (email : string)
    (r : Reservation.t) :
  Reservations.getById db id = Some r ->
  Reservation.guestEmail r = email ->
  Reservation.status r <> pending ->
  Reservations.cancel now id email db = (Throw InvalidState, db).
Proof.
  unfold Reservations.cancel, Reservations.getById, bind, Ctx.getReservation.
  intros -> He Hst. apply String.eqb_eq in He. rewrite He. cbn [negb].
  destruct (Status_eqb (Reservation.status r) pending) eqn:E; [|reflexivity].
  apply Status_eqb_eq in E. contradiction.
Qed.

Lemma cancel_pending (db : Db.t) (now : Z) (id : Id) (email : string)
    (r : Reservation.t) :
  Reservations.getById db id = Some r ->
  Reservation.guestEmail r = email ->
  Reservation.status r = pending ->
  exists db',
    Reservations.cancel now id email db = (Return id, db') /\
    Reservations.getById db' id = Some (Reservation.withStatus cancelled now r).
Proof.
  unfold Reservations.cancel, Reservations.getById, bind, Ctx.getReservation.
  intros Hget He Hst. rewrite Hget.
  apply String.eqb_eq in He. rewrite He, Hst. cbn [negb Status_eqb].
  unfold Ctx.patchReservation, ret.
  destruct (patch_get Reservation._id _ _
              (Reservation.withStatus cancelled now) _ Hget eq_refl)
    as (tbl' & -> & Hg).
  eexists. split; [reflexivity | exact Hg].
Qed.

Lemma Status_pending_dec (s : Status) : {s = pending} + {s <> pending}.
Proof. destruct s; [left; reflexivity | right; discriminate ..]. Qed.

(** A guest cannot cancel a confirmed reservation, nor a pending one
    under another email; the pending one under the booking email becomes
    cancelled. *)
Example cancel_confirmed :
  fst (Reservations.cancel 2000 3%nat "guest@example.com" Sample.db) =
  Throw InvalidState.
Proof. reflexivity. Qed.

Example cancel_wrong_email :
  fst (Reservations.cancel 2000 5%nat "guest@example.com" Sample.dbPast) =
  Throw Unauthorized.
Proof. reflexivity. Qed.

Example cancel_own_pending :
  let (outcome, db') :=
    Reservations.cancel 2000 5%nat "third@example.com" Sample.dbPast in
  outcome = Return 5%nat /\
  option_map (fun r : Reservation.t => (Reservation.status r, Reservation.updatedAt r))
    (Reservations.getById db' 5%nat) = Some (cancelled, 2000).
Proof. split; reflexivity. Qed.

(** C5. [cancel(reservationId, email)] throws not-found when the id does
    not resolve; else unauthorized when the email differs from the stored
    [guestEmail]; else invalid-state when the status is not pending; else
    it returns, and the reservation is then cancelled. No other failure
    occurs. *)
Theorem cancel_cases (db : Db.t) (now : Z) (id : Id) (email : string) :
  (Reservations.getById db id = None ->
   fst (Reservations.cancel now id email db) = Throw NotFound) /\
  (forall r, Reservations.getById db id = Some r ->
     Reservation.guestEmail r <> email ->
     fst (Reservations.cancel now id email db) = Throw Unauthorized) /\
  (forall r, Reservations.getById db id = Some r ->
     Reservation.guestEmail r = email ->
     Reservation.status r <> pending ->
     fst (Reservations.cancel now id email db) = Throw InvalidState) /\
  (forall r, Reservations.getById db id = Some r ->
     Reservation.guestEmail r = email ->
     Reservation.status r = pending ->
     exists db' r',
       Reservations.cancel now id email db = (Return id, db') /\
       Reservations.getById db' id = Some r' /\
       Reservation.status r' = cancelled /\
       Reservation.updatedAt r' = now /\
       Spec.sameBooking r r') /\
  (forall e, fst (Reservations.cancel now id email db) = Throw e ->
     (e = NotFound /\ Reservations.getById db id = None) \/
     (e = Unauthorized /\
      exists r, Reservations.getById db id = Some r /\
                Reservation.guestEmail r <> email) \/
     (e = InvalidState /\
      exists r, Reservations.getById db id = Some r /\
                Reservation.guestEmail r = email /\
                Reservation.status r <> pending)).
Proof.
  split; [|split; [|split; [|split]]].
  - intros H. now rewrite cancel_not_found.
  - intros r H Hne. now rewrite (cancel_unauthorized _ _ _ _ r).
  - intros r H He Hst. now rewrite (cancel_invalid_state _ _ _ _ r).
  - intros r H He Hst.
    destruct (cancel_pending db now id email r H He Hst) as (db' & Hrun & Hget).
    exists db', (Reservation.withStatus cancelled now r).
    repeat split; assumption || reflexivity.
  - intros e.
    destruct (Reservations.getById db id) as [r|] eqn:Hget.
    + destruct (string_dec (Reservation.guestEmail r) email) as [He|Hne].
      * destruct (Status_pending_dec (Reservation.status r)) as [Hst|Hst].
        -- destruct (cancel_pending db now id email r Hget He Hst)
             as (db' & -> & _).
           discriminate.
        -- rewrite (cancel_invalid_state _ _ _ _ r) by assumption.
           intros H. injection H as <-. right. right.
           split; [reflexivity|]. now exists r.
      * rewrite (cancel_unauthorized _ _ _ _ r) by assumption.
        intros H. injection H as <-. right. left.
        split; [reflexivity|]. now exists r.
    + rewrite cancel_not_found by assumption.
      intros H. injection H as <-. left. now split.
Qed.

(** C9. A failing [cancel] writes nothing: whenever it throws, the
    database, and with it every reservation, is as before the call. *)
Theorem cancel_failure_writes_nothing
    (db : Db.t) (now : Z) (id : Id) (email : string) (e : Error) :
  fst (Reservations.cancel now id email db) = Throw e ->
  snd (Reservations.cancel now id email db) = db.
Proof.
  destruct (Reservations.getById db id) as [r|] eqn:Hget.
  - destruct (string_dec (Reservation.guestEmail r) email) as [He|Hne].
    + destruct (Status_pending_dec (Reservation.status r)) as [Hst|Hst].
      * destruct (cancel_pending db now id email r Hget He Hst)
          as (db' & -> & _).
        discriminate.
      * now rewrite (cancel_invalid_state _ _ _ _ r).
    + now rewrite (cancel_unauthorized _ _ _ _ r).
  - now rewrite cancel_not_found.
Qed.

Lemma cancel_failure_writes_nothing_witness :
  snd (Reservations.cancel 2000 3%nat "guest@example.com" Sample.db) = Sample.db.
Proof.
  apply (cancel_failure_writes_nothing Sample.db 2000 3%nat "guest@example.com"
           InvalidState).
  reflexivity.
Defined.

(** *** Sums of prices as numbers *)

(** [Number.add] is the binary64 addition of the standard library's
    IEEE 754 specification on every pair of the probes, which sit where
    the two could part: at the last exact integers, at ties, and at the
    overflow to infinity. *)
Lemma add_agrees_with_SpecFloat :
  forallb
    (fun x =>
       forallb
         (fun y =>
            Number.eqb (Number.add (Number.ofZ x) (Number.ofZ y))
              (Number.addSpecFloat x y))
         Number.probes)
    Number.probes = true.
Proof. vm_compute. reflexivity. Qed.








(** * Further properties of the handlers *)

(** ** Tables *)

Section MoreTableFacts.
Context {D : Type} (idOf : D -> Id).

(** A patch rewrites the first document with the id, in place. *)
Lemma patch_split (tbl : list D) (id : Id) (f : D -> D) (d : D) :
  Db.get idOf tbl id = Some d ->
  exists l1 l2,
    tbl = l1 ++ d :: l2 /\
    Db.patch idOf tbl id f = Some (l1 ++ f d :: l2) /\
    (forall x, In x l1 -> idOf x <> id).
Proof.
  unfold Db.get. induction tbl as [|x tbl IH]; simpl; [discriminate|].
  destruct (Nat.eqb_spec (idOf x) id) as [He|Hne].
  - intros H. injection H as ->. exists [], tbl. repeat split. intros ? [].
  - intros H. destruct (IH H) as (l1 & l2 & -> & -> & Hl1).
    exists (x :: l1), l2. repeat split.
    intros y [<- | Hy]; [exact Hne | now apply Hl1].
Qed.

Lemma patch_Some_get (tbl tbl' : list D) (id : Id) (f : D -> D) :
  Db.patch idOf tbl id f = Some tbl' -> exists d, Db.get idOf tbl id = Some d.
Proof.
  destruct (Db.get idOf tbl id) as [d|] eqn:E; [now exists d|].
  now rewrite (patch_None idOf tbl id f E).
Qed.

Lemma get_app_l (l1 l2 : list D) (id : Id) (d : D) :
  Db.get idOf l1 id = Some d -> Db.get idOf (l1 ++ l2) id = Some d.
Proof.
  unfold Db.get. induction l1 as [|x l1 IH]; simpl; [discriminate|].
  destruct (Nat.eqb (idOf x) id); [trivial | exact IH].
Qed.

Lemma get_app_r (l1 l2 : list D) (id : Id) :
  (forall x, In x l1 -> idOf x <> id) ->
  Db.get idOf (l1 ++ l2) id = Db.get idOf l2 id.
Proof.
  unfold Db.get. induction l1 as [|x l1 IH]; simpl; intros H; [reflexivity|].
  destruct (Nat.eqb_spec (idOf x) id) as [He|Hne].
  - exfalso. apply (H x); auto.
  - apply IH. intros y Hy. apply H. now right.
Qed.

Lemma get_None_iff (tbl : list D) (id : Id) :
  Db.get idOf tbl id = None <-> ~ In id (map idOf tbl).
Proof.
  unfold Db.get. induction tbl as [|x tbl IH]; simpl; [tauto|].
  destruct (Nat.eqb_spec (idOf x) id) as [He|Hne].
  - split; [discriminate | intros H; exfalso; apply H; now left].
  - rewrite IH. tauto.
Qed.

Lemma get_In_NoDup (tbl : list D) (d : D) :
  NoDup (map idOf tbl) -> In d tbl -> Db.get idOf tbl (idOf d) = Some d.
Proof.
  unfold Db.get. induction tbl as [|x tbl IH]; simpl; [tauto|].
  intros Hnd [-> | Hin].
  - now rewrite Nat.eqb_refl.
  - inversion Hnd as [|? ? Hx Hnd']; subst.
    destruct (Nat.eqb_spec (idOf x) (idOf d)) as [He|Hne]; [|now apply IH].
    exfalso. apply Hx. rewrite He. now apply in_map.
Qed.

(** Under a patch that keeps ids, every other id resolves as before. *)
Lemma patch_get_other (tbl tbl' : list D) (id id' : Id) (f : D -> D) :
  (forall d, idOf (f d) = idOf d) ->
  Db.patch idOf tbl id f = Some tbl' -> id' <> id ->
  Db.get idOf tbl' id' = Db.get idOf tbl id'.
Proof.
  intros Hid. unfold Db.get. revert tbl'.
  induction tbl as [|x tbl IH]; simpl; intros tbl' H Hne; [discriminate|].
  destruct (Nat.eqb_spec (idOf x) id) as [He|Hxe].
  - injection H as <-. simpl. rewrite Hid.
    destruct (Nat.eqb_spec (idOf x) id'); [congruence | reflexivity].
  - destruct (Db.patch idOf tbl id f) as [t|] eqn:E; [|discriminate].
    injection H as <-. simpl.
    destruct (Nat.eqb (idOf x) id'); [reflexivity | now apply IH].
Qed.

Lemma patch_ids (tbl tbl' : list D) (id : Id) (f : D -> D) :
  (forall d, idOf (f d) = idOf d) ->
  Db.patch idOf tbl id f = Some tbl' -> map idOf tbl' = map idOf tbl.
Proof.
  intros Hid H. destruct (patch_Some_get _ _ _ _ H) as [d Hd].
  destruct (patch_split tbl id f d Hd) as (l1 & l2 & -> & Hp & _).
  rewrite Hp in H. injection H as <-.
  rewrite !map_app. simpl. now rewrite Hid.
Qed.

(** A patch that changes nothing in the document leaves the table as it
    is. *)
Lemma patch_same (tbl : list D) (id : Id) (f : D -> D) (d : D) :
  Db.get idOf tbl id = Some d -> f d = d -> Db.patch idOf tbl id f = Some tbl.
Proof.
  intros Hd Hf. destruct (patch_split tbl id f d Hd) as (l1 & l2 & -> & Hp & _).
  now rewrite Hp, Hf.
Qed.

(** Two patches of one id compose. *)
Lemma patch_patch (tbl tbl' : list D) (id : Id) (f g : D -> D) :
  (forall d, idOf (f d) = idOf d) ->
  Db.patch idOf tbl id f = Some tbl' ->
  Db.patch idOf tbl' id g = Db.patch idOf tbl id (fun d => g (f d)).
Proof.
  intros Hid. revert tbl'.
  induction tbl as [|x tbl IH]; simpl; intros tbl' H; [discriminate|].
  destruct (Nat.eqb_spec (idOf x) id) as [He|Hne].
  - injection H as <-. simpl. rewrite Hid.
    destruct (Nat.eqb_spec (idOf x) id); [reflexivity | contradiction].
  - destruct (Db.patch idOf tbl id f) as [t|] eqn:E; [|discriminate].
    injection H as <-. simpl.
    destruct (Nat.eqb_spec (idOf x) id); [contradiction|].
    now rewrite (IH t eq_refl).
Qed.

End MoreTableFacts.

(** ** The reservation ledger: status writes *)

(** [updateStatus] on an id that does not resolve throws, and the database
    is as before. *)
Theorem updateStatus_missing
    (db : Db.t) (now : Z) (id : Id) (s : Status) :
  Reservations.getById db id = None ->
  Reservations.updateStatus now id s db = (Throw MissingDocument, db).
Proof.
  unfold Reservations.getById, Reservations.updateStatus, bind,
    Ctx.patchReservation.
  intros H. now rewrite (patch_None _ _ _ _ H).
Qed.

Lemma updateStatus_missing_witness :
  Reservations.updateStatus 2000 99%nat confirmed Sample.db =
  (Throw MissingDocument, Sample.db).
Proof. apply updateStatus_missing. reflexivity. Defined.

Lemma patchReservation_run (db : Db.t) (id : Id)
    (f : Reservation.t -> Reservation.t) (r : Reservation.t) :
  Reservations.getById db id = Some r ->
  exists l1 l2,
    Db.reservations db = l1 ++ r :: l2 /\
    (forall x, In x l1 -> Reservation._id x <> id) /\
    Db.patch Reservation._id (Db.reservations db) id f = Some (l1 ++ f r :: l2) /\
    Ctx.patchReservation id f db =
      (Return tt, Db.setReservations (l1 ++ f r :: l2) db).
Proof.
  unfold Reservations.getById, Ctx.patchReservation. intros H.
  destruct (patch_split Reservation._id _ id f r H) as (l1 & l2 & Hl & Hp & Hfresh).
  exists l1, l2. rewrite Hp. repeat split; assumption.
Qed.

(** [updateStatus] writes one document: rooms, blocked dates and the id
    counter are as before, the reservations keep their ids and order, and
    every other id resolves to the same reservation. *)
Theorem updateStatus_frame
    (db : Db.t) (now : Z) (id : Id) (s : Status) (r : Reservation.t) :
  Reservations.getById db id = Some r ->
  let db' := snd (Reservations.updateStatus now id s db) in
  Db.rooms db' = Db.rooms db /\
  Db.blockedDates db' = Db.blockedDates db /\
  Db.nextId db' = Db.nextId db /\
  map Reservation._id (Db.reservations db') =
    map Reservation._id (Db.reservations db) /\
  forall id', id' <> id ->
    Reservations.getById db' id' = Reservations.getById db id'.
Proof.
  intros Hget.
  destruct (patchReservation_run db id (Reservation.withStatus s now) r Hget)
    as (l1 & l2 & Hl & Hfresh & Hp & Hrun).
  unfold Reservations.updateStatus, bind. rewrite Hrun. cbn.
  repeat split.
  - rewrite Hl, !map_app. reflexivity.
  - intros id' Hne. unfold Reservations.getById. cbn.
    now apply (patch_get_other Reservation._id _ _ id id'
                 (Reservation.withStatus s now)).
Qed.

Lemma updateStatus_frame_witness :
  Reservations.getById
    (snd (Reservations.updateStatus 2000 4%nat confirmed Sample.dbPast)) 5%nat =
  Reservations.getById Sample.dbPast 5%nat.
Proof.
  apply (updateStatus_frame Sample.dbPast 2000 4%nat confirmed
           (Sample.reservation 4%nat 1%nat "other@example.com" "2026-02-12"
              "2026-02-14" 100000 cancelled) eq_refl).
  discriminate.
Defined.

(** ** The reservation ledger: statistics *)

Lemma volume_nonneg (l : list Reservation.t) : 0 <= Spec.volume l.
Proof. induction l as [|r l IH]; cbn; lia. Qed.








Lemma countStatus_cons (s : Status) (r : Reservation.t) (l : list Reservation.t) :
  Reservations.countStatus s (r :: l) =
  (if Status_eqb (Reservation.status r) s then 1 else 0)
  + Reservations.countStatus s l.
Proof.
  unfold Reservations.countStatus. cbn [filter].
  destruct (Status_eqb (Reservation.status r) s); cbn [List.length]; lia.
Qed.

(** The four status counts of [getStats] add up to its total, and each is
    the number of reservations [list] returns for that status. *)
Theorem getStats_counts (db : Db.t) :
  let stats := Reservations.getStats db in
  Reservations.Stats.total stats =
    Reservations.Stats.pending stats + Reservations.Stats.confirmed stats
    + Reservations.Stats.cancelled stats + Reservations.Stats.completed stats /\
  Reservations.Stats.total stats =
    Z.of_nat (List.length (Reservations.list db None)) /\
  Reservations.Stats.pending stats =
    Z.of_nat (List.length (Reservations.list db (Some pending))) /\
  Reservations.Stats.confirmed stats =
    Z.of_nat (List.length (Reservations.list db (Some confirmed))) /\
  Reservations.Stats.cancelled stats =
    Z.of_nat (List.length (Reservations.list db (Some cancelled))) /\
  Reservations.Stats.completed stats =
    Z.of_nat (List.length (Reservations.list db (Some completed))).
Proof.
  unfold Reservations.getStats, Reservations.list. cbv zeta.
  cbn [Reservations.Stats.total Reservations.Stats.pending
       Reservations.Stats.confirmed Reservations.Stats.cancelled
       Reservations.Stats.completed].
  rewrite !sort_length. repeat split; try reflexivity.
  induction (Db.reservations db) as [|r l IH]; [reflexivity|].
  rewrite !countStatus_cons. cbn [List.length].
  destruct (Reservation.status r); cbn [Status_eqb]; lia.
Qed.

(** ** The reservation ledger: views *)

Lemma sort_ext {A : Type} (cmp1 cmp2 : A -> A -> Z) (l : list A) :
  (forall a b, cmp1 a b = cmp2 a b) -> Js.sort cmp1 l = Js.sort cmp2 l.
Proof.
  intros H. induction l as [|x l IH]; [reflexivity|].
  cbn [Js.sort fold_right]. fold (Js.sort cmp1 l) (Js.sort cmp2 l). rewrite IH.
  generalize (Js.sort cmp2 l). intros m.
  induction m as [|y m IHm]; [reflexivity|].
  cbn [Js.insert]. now rewrite H, IHm.
Qed.

Lemma StronglySorted_weaken {A : Type} (R R' : A -> A -> Prop) (l : list A) :
  (forall a b, R a b -> R' a b) -> StronglySorted R l -> StronglySorted R' l.
Proof.
  intros H. induction 1 as [|x l Hs IH Hall]; constructor; [assumption|].
  eapply Forall_impl; [|exact Hall]. intros; now apply H.
Qed.

(** Sorting by [b.createdAt - a.createdAt] is sorting by the key
    [- createdAt]. *)
Lemma sort_newest (l : list Reservation.t) :
  Js.sort (fun a b : Reservation.t => Reservation.createdAt b - Reservation.createdAt a) l =
  Js.sort (fun a b : Reservation.t =>
             (fun r : Reservation.t => - Reservation.createdAt r) a
             - (fun r : Reservation.t => - Reservation.createdAt r) b) l.
Proof. apply sort_ext. intros a b. lia. Qed.

Lemma sort_newest_sorted (l : list Reservation.t) :
  StronglySorted Spec.newestFirst
    (Js.sort (fun a b : Reservation.t =>
                Reservation.createdAt b - Reservation.createdAt a) l).
Proof.
  rewrite sort_newest.
  eapply StronglySorted_weaken;
    [|apply (sort_sorted (fun r : Reservation.t => - Reservation.createdAt r))].
  unfold Spec.newestFirst. intros a b Hab. cbv beta in Hab. lia.
Qed.

(** [list] without a status returns every reservation, newest first; with
    a status it returns the reservations of that status, and is the part
    of the full view with that status, in the same order. *)
Theorem list_newest_first (db : Db.t) :
  Permutation (Reservations.list db None) (Db.reservations db) /\
  StronglySorted Spec.newestFirst (Reservations.list db None) /\
  forall s,
    Reservations.list db (Some s) =
      filter (fun r : Reservation.t => Status_eqb (Reservation.status r) s)
        (Reservations.list db None) /\
    StronglySorted Spec.newestFirst (Reservations.list db (Some s)) /\
    (forall r, In r (Reservations.list db (Some s)) <->
               In r (Db.reservations db) /\ Reservation.status r = s).
Proof.
  unfold Reservations.list. cbv zeta. split; [apply sort_Permutation|].
  split; [apply sort_newest_sorted|].
  intros s. split; [|split].
  - rewrite !sort_newest. symmetry.
    apply (filter_sort (fun r : Reservation.t => - Reservation.createdAt r)).
  - apply sort_newest_sorted.
  - intros r. rewrite sort_In, filter_In, Status_eqb_eq. reflexivity.
Qed.

(** ** Document ids *)

Lemma wf_room_lt (db : Db.t) (r : Room.t) :
  Store.wf db -> In r (Db.rooms db) -> (Room._id r < Db.nextId db)%nat.
Proof.
  intros [_ Hlt] Hin. rewrite Forall_forall in Hlt. apply Hlt.
  unfold Store.ids. apply in_or_app. left. now apply in_map.
Qed.

Lemma wf_reservation_lt (db : Db.t) (r : Reservation.t) :
  Store.wf db -> In r (Db.reservations db) ->
  (Reservation._id r < Db.nextId db)%nat.
Proof.
  intros [_ Hlt] Hin. rewrite Forall_forall in Hlt. apply Hlt.
  unfold Store.ids. apply in_or_app. right. apply in_or_app. left.
  now apply in_map.
Qed.

Lemma wf_rooms_NoDup (db : Db.t) :
  Store.wf db -> NoDup (map Room._id (Db.rooms db)).
Proof. intros [Hnd _]. unfold Store.ids in Hnd. now apply NoDup_app_remove_r in Hnd. Qed.

Lemma wf_reservations_NoDup (db : Db.t) :
  Store.wf db -> NoDup (map Reservation._id (Db.reservations db)).
Proof.
  intros [Hnd _]. unfold Store.ids in Hnd.
  apply NoDup_app_remove_l in Hnd. now apply NoDup_app_remove_r in Hnd.
Qed.

(** ** The reservation ledger: create *)

Section CreateReservation.
Variables (now : Z) (roomId : Id).
Variables (guestName guestEmail guestPhone guestCountry checkIn checkOut : string).
Variables (adults children totalPrice : Z) (specialRequests : option string).

Let create : Mutation Id :=
  Reservations.create now roomId guestName guestEmail guestPhone guestCountry
    checkIn checkOut adults children totalPrice specialRequests.

Let fields : Reservation.Fields :=
  {| Reservation.roomId := roomId;
     Reservation.guestName := guestName;
     Reservation.guestEmail := guestEmail;
     Reservation.guestPhone := guestPhone;
     Reservation.guestCountry := guestCountry;
     Reservation.checkIn := checkIn;
     Reservation.checkOut := checkOut;
     Reservation.adults := adults;
     Reservation.children := children;
     Reservation.totalPrice := totalPrice;
     Reservation.status := pending;
     Reservation.specialRequests := specialRequests;
     Reservation.createdAt := now;
     Reservation.updatedAt := now |}.

(** [create] stores the booking under a fresh id and returns the id: the
    stored reservation is pending, carries the arguments and has both
    timestamps at [now]; every reservation stored before still resolves,
    and rooms and blocked dates are as before. *)
Theorem create_stores_pending (db : Db.t) :
  Store.wf db ->
  exists id db',
    create db = (Return id, db') /\
    Reservations.getById db id = None /\
    Reservations.getById db' id = Some (Reservation.mk id fields) /\
    (forall id0 r0, Reservations.getById db id0 = Some r0 ->
                    Reservations.getById db' id0 = Some r0) /\
    Db.rooms db' = Db.rooms db /\
    Db.blockedDates db' = Db.blockedDates db.
Proof.
  intros Hwf. exists (Db.nextId db). eexists. split; [reflexivity|].
  assert (Hfresh : forall x, In x (Db.reservations db) ->
                             Reservation._id x <> Db.nextId db).
  { intros x Hx. pose proof (wf_reservation_lt db x Hwf Hx). lia. }
  unfold Reservations.getById. cbn [Db.reservations Db.rooms Db.blockedDates].
  repeat split.
  - apply get_None_iff. intros Hin. apply in_map_iff in Hin.
    destruct Hin as (x & He & Hx). now apply (Hfresh x).
  - rewrite get_app_r by assumption.
    unfold Db.get. cbn. now rewrite Nat.eqb_refl.
  - intros id0 r0 H0. now apply get_app_l.
Qed.

(** [create] does not look at availability, but what it stores counts at
    once: the room is off the result of [getAvailableRooms] for every
    query range that overlaps the new stay. *)
Theorem create_takes_room (db : Db.t) (queryIn queryOut : string) :
  (checkIn <? queryOut)%string = true ->
  (queryIn <? checkOut)%string = true ->
  ~ In roomId
       (map Room._id (Rooms.getAvailableRooms (snd (create db)) queryIn queryOut)).
Proof.
  intros H1 H2 Hin. apply in_map_iff in Hin. destruct Hin as (room & He & Hroom).
  apply getAvailableRooms_In in Hroom. destruct Hroom as (_ & _ & Hbook & _).
  apply (Hbook (Reservation.mk (Db.nextId db) fields)).
  - cbn. apply in_or_app. right. now left.
  - now left.
  - unfold Rooms.isOverlapping. cbn. now rewrite H1, H2.
  - now symmetry.
Qed.

(** [create] never refuses a booking: the same request sent twice is
    stored twice, as two pending reservations of the one room over the
    same nights. *)
Theorem create_accepts_double_booking (db : Db.t) :
  Store.wf db ->
  (checkIn <? checkOut)%string = true ->
  exists id1 id2 db1 db2 r1 r2,
    create db = (Return id1, db1) /\
    create db1 = (Return id2, db2) /\
    id1 <> id2 /\
    Reservations.getById db2 id1 = Some r1 /\
    Reservations.getById db2 id2 = Some r2 /\
    Reservation.roomId r1 = roomId /\ Reservation.roomId r2 = roomId /\
    Reservation.status r1 = pending /\ Reservation.status r2 = pending /\
    Rooms.isOverlapping (Reservation.checkIn r1) (Reservation.checkOut r1)
      (Reservation.checkIn r2) (Reservation.checkOut r2) = true.
Proof.
  intros Hwf Hlt.
  exists (Db.nextId db), (S (Db.nextId db)). do 2 eexists.
  exists (Reservation.mk (Db.nextId db) fields),
         (Reservation.mk (S (Db.nextId db)) fields).
  split; [reflexivity|]. split; [reflexivity|]. split; [lia|].
  assert (Hfresh : forall x, In x (Db.reservations db) ->
                             (Reservation._id x < Db.nextId db)%nat).
  { intros x Hx. now apply wf_reservation_lt. }
  unfold Reservations.getById. cbn [Db.reservations].
  repeat split.
  - rewrite <- app_assoc. rewrite get_app_r
      by (intros x Hx; specialize (Hfresh x Hx); lia).
    unfold Db.get. cbn. now rewrite Nat.eqb_refl.
  - rewrite <- app_assoc. rewrite get_app_r
      by (intros x Hx; specialize (Hfresh x Hx); lia).
    unfold Db.get. cbn.
    destruct (Nat.eqb_spec (Db.nextId db) (S (Db.nextId db))); [lia|].
    now rewrite Nat.eqb_refl.
  - unfold Rooms.isOverlapping. cbn. now rewrite Hlt.
Qed.

(** [create] adds one to the total and to the pending count of
    [getStats]; the other counts and the revenue stay. *)
Theorem create_counts_as_pending (db : Db.t) :
  let before := Reservations.getStats db in
  let after := Reservations.getStats (snd (create db)) in
  Reservations.Stats.total after = Reservations.Stats.total before + 1 /\
  Reservations.Stats.pending after = Reservations.Stats.pending before + 1 /\
  Reservations.Stats.confirmed after = Reservations.Stats.confirmed before /\
  Reservations.Stats.cancelled after = Reservations.Stats.cancelled before /\
  Reservations.Stats.completed after = Reservations.Stats.completed before /\
  Reservations.Stats.totalRevenue after = Reservations.Stats.totalRevenue before.
Proof.
  cbv zeta.
  unfold Reservations.getStats, Reservations.countStatus. cbv zeta.
  cbn [Reservations.Stats.total Reservations.Stats.pending
       Reservations.Stats.confirmed Reservations.Stats.cancelled
       Reservations.Stats.completed Reservations.Stats.totalRevenue
       snd create Db.reservations].
  unfold create, Reservations.create, Ctx.insertReservation.
  cbn [snd Db.reservations].
  rewrite !filter_app, !length_app. cbn [filter Reservation.status Reservation.fields
    Status_eqb orb app List.length]. rewrite app_nil_r.
  repeat split; lia.
Qed.

End CreateReservation.

Lemma wf_sample_db : Store.wf Sample.db.
Proof.
  split.
  - repeat constructor; simpl; intuition discriminate.
  - repeat constructor; simpl; lia.
Qed.

Lemma wf_sample_dbPast : Store.wf Sample.dbPast.
Proof.
  split.
  - repeat constructor; simpl; intuition discriminate.
  - repeat constructor; simpl; lia.
Qed.

Lemma create_stores_pending_witness :
  exists id db',
    Reservations.create 2000 2%nat "Lan" "lan@example.com" "0900000000" "VN"
      "2026-04-01" "2026-04-03" 2 0 100000 None Sample.db = (Return id, db').
Proof.
  destruct (create_stores_pending 2000 2%nat "Lan" "lan@example.com" "0900000000"
              "VN" "2026-04-01" "2026-04-03" 2 0 100000 None Sample.db
              wf_sample_db)
    as (id & db' & Hrun & _).
  exists id, db'. exact Hrun.
Defined.

Lemma create_takes_room_witness :
  ~ In 2%nat
       (map Room._id
          (Rooms.getAvailableRooms
             (snd (Reservations.create 2000 2%nat "Lan" "lan@example.com"
                     "0900000000" "VN" "2026-04-01" "2026-04-03" 2 0 100000 None
                     Sample.db))
             "2026-04-02" "2026-04-05")).
Proof.
  apply (create_takes_room 2000 2%nat "Lan" "lan@example.com" "0900000000" "VN"
           "2026-04-01" "2026-04-03" 2 0 100000 None Sample.db
           "2026-04-02" "2026-04-05"); reflexivity.
Defined.

Lemma create_accepts_double_booking_witness :
  exists id1 id2 db1 db2,
    Reservations.create 2000 2%nat "Lan" "lan@example.com" "0900000000" "VN"
      "2026-04-01" "2026-04-03" 2 0 100000 None Sample.db = (Return id1, db1) /\
    Reservations.create 2000 2%nat "Lan" "lan@example.com" "0900000000" "VN"
      "2026-04-01" "2026-04-03" 2 0 100000 None db1 = (Return id2, db2) /\
    id1 <> id2.
Proof.
  destruct (create_accepts_double_booking 2000 2%nat "Lan" "lan@example.com"
              "0900000000" "VN" "2026-04-01" "2026-04-03" 2 0 100000 None
              Sample.db wf_sample_db eq_refl)
    as (id1 & id2 & db1 & db2 & r1 & r2 & H1 & H2 & Hne & _).
  exists id1, id2, db1, db2. repeat split; assumption.
Defined.

(** ** The reservation ledger: the guest's views *)

Lemma sort_newest_pairs (l : list (Reservation.t * option Room.t)) :
  Js.sort
    (fun a b : Reservation.t * option Room.t =>
       Reservation.createdAt (fst b) - Reservation.createdAt (fst a)) l =
  Js.sort
    (fun a b : Reservation.t * option Room.t =>
       (fun p : Reservation.t * option Room.t => - Reservation.createdAt (fst p)) a
       - (fun p : Reservation.t * option Room.t => - Reservation.createdAt (fst p)) b)
    l.
Proof. apply sort_ext. intros a b. lia. Qed.

Lemma getByEmail_In (db : Db.t) (email : string)
    (r : Reservation.t) (room : option Room.t) :
  In (r, room) (Reservations.getByEmail db email) <->
  In r (Db.reservations db) /\ Reservation.guestEmail r = email /\
  room = Rooms.getById db (Reservation.roomId r).
Proof.
  unfold Reservations.getByEmail. cbv zeta.
  rewrite sort_In, in_map_iff. split.
  - intros (x & He & Hx). injection He as <- <-.
    apply filter_In in Hx. destruct Hx as [Hin He].
    apply String.eqb_eq in He. now repeat split.
  - intros (Hin & He & ->). exists r. split; [reflexivity|].
    apply filter_In. split; [assumption|]. now apply String.eqb_eq.
Qed.

(** [getByEmail] returns exactly the reservations whose [guestEmail] is
    the given string, each with the document of its room, newest first. *)
Theorem getByEmail_exact (db : Db.t) (email : string) :
  (forall r room,
     In (r, room) (Reservations.getByEmail db email) <->
     In r (Db.reservations db) /\ Reservation.guestEmail r = email /\
     room = Rooms.getById db (Reservation.roomId r)) /\
  StronglySorted (fun a b => Spec.newestFirst (fst a) (fst b))
    (Reservations.getByEmail db email) /\
  Permutation (map fst (Reservations.getByEmail db email))
    (filter (fun r : Reservation.t => (Reservation.guestEmail r =? email)%string)
       (Db.reservations db)).
Proof.
  split; [intros r room; apply getByEmail_In|].
  unfold Reservations.getByEmail. cbv zeta. split.
  - rewrite sort_newest_pairs.
    eapply StronglySorted_weaken;
      [|apply (sort_sorted
                 (fun p : Reservation.t * option Room.t =>
                    - Reservation.createdAt (fst p)))].
    unfold Spec.newestFirst. intros a b Hab. cbv beta in Hab. lia.
  - eapply perm_trans; [apply Permutation_map, sort_Permutation|].
    rewrite map_map. cbn [fst]. rewrite map_id. apply Permutation_refl.
Qed.

(** A guest can cancel only what [getByEmail] lists for the email given:
    when [cancel] returns, the reservation was among the pending ones of
    that view. *)
Theorem cancel_only_own_listing
    (db : Db.t) (now : Z) (id id' : Id) (email : string) :
  fst (Reservations.cancel now id email db) = Return id' ->
  exists r : Reservation.t,
    In (r, Rooms.getById db (Reservation.roomId r))
       (Reservations.getByEmail db email) /\
    Reservation._id r = id /\ Reservation.status r = pending.
Proof.
  intros Hret.
  destruct (Reservations.getById db id) as [r|] eqn:Hget.
  - destruct (string_dec (Reservation.guestEmail r) email) as [He|Hne].
    + destruct (Status_pending_dec (Reservation.status r)) as [Hst|Hst].
      * exists r. apply get_Some in Hget. destruct Hget as [Hin Hid].
        split; [|now split].
        now apply getByEmail_In.
      * rewrite (cancel_invalid_state _ _ _ _ r) in Hret by assumption.
        discriminate.
    + rewrite (cancel_unauthorized _ _ _ _ r) in Hret by assumption.
      discriminate.
  - rewrite cancel_not_found in Hret by assumption. discriminate.
Qed.

Lemma cancel_only_own_listing_witness :
  exists r : Reservation.t,
    In (r, Rooms.getById Sample.dbPast (Reservation.roomId r))
       (Reservations.getByEmail Sample.dbPast "third@example.com") /\
    Reservation._id r = 5%nat /\ Reservation.status r = pending.
Proof.
  apply (cancel_only_own_listing Sample.dbPast 2000 5%nat 5%nat "third@example.com").
  reflexivity.
Defined.

(** ** The reservation ledger: the calendar of a room *)

Lemma getByRoom_In (db : Db.t) (roomId : Id) (res : Reservation.t) :
  In res (Reservations.getByRoom db roomId None) <->
  In res (Db.reservations db) /\ Reservation.roomId res = roomId /\
  (Reservation.status res = pending \/ Reservation.status res = confirmed).
Proof.
  unfold Reservations.getByRoom. cbv zeta.
  rewrite !filter_In, orb_true_iff, !Status_eqb_eq, Nat.eqb_eq. tauto.
Qed.

Lemma getByRoom_month_In (db : Db.t) (roomId : Id) (month : string)
    (res : Reservation.t) :
  Js.truthy month = true ->
  In res (Reservations.getByRoom db roomId (Some month)) <->
  In res (Reservations.getByRoom db roomId None) /\
  (Js.startsWith (Reservation.checkIn res) month = true \/
   Js.startsWith (Reservation.checkOut res) month = true).
Proof.
  intros Ht. unfold Reservations.getByRoom. cbv zeta. rewrite Ht.
  rewrite filter_In, orb_true_iff. reflexivity.
Qed.

(** The calendar and the availability search agree on reservations: a
    bookable room is in the result of [getAvailableRooms] exactly when no
    reservation that [getByRoom] lists for it overlaps the query range and
    no blocked date of the room is among the requested days. *)
Theorem getByRoom_decides_availability
    (db : Db.t) (checkIn checkOut : string) (room : Room.t) :
  In room (Db.rooms db) ->
  Room.isAvailable room = true ->
  In room (Rooms.getAvailableRooms db checkIn checkOut) <->
  (forall res, In res (Reservations.getByRoom db (Room._id room) None) ->
     Rooms.isOverlapping (Reservation.checkIn res) (Reservation.checkOut res)
       checkIn checkOut = false) /\
  (forall b, In b (Db.blockedDates db) ->
     BlockedDate.roomId b = Room._id room ->
     ~ In (BlockedDate.date b) (Rooms.getDatesInRange checkIn checkOut)).
Proof.
  intros Hin Hav. rewrite getAvailableRooms_In. split.
  - intros (_ & _ & Hbook & Hblock). split.
    + intros res Hres. apply getByRoom_In in Hres.
      destruct Hres as (Hr & Hid & Hst).
      apply not_true_iff_false. intros Hov. now apply (Hbook res Hr Hst Hov).
    + intros b Hb Hid Hd. now apply (Hblock b Hb Hd).
  - intros [Hcal Hblock]. repeat split; try assumption.
    + intros res Hr Hst Hov Hid.
      rewrite (Hcal res) in Hov; [discriminate|].
      apply getByRoom_In. now repeat split.
    + intros b Hb Hd Hid. now apply (Hblock b Hb Hid).
Qed.

Lemma getByRoom_decides_availability_witness :
  In Sample.roomA (Rooms.getAvailableRooms Sample.dbPast "2026-02-11" "2026-02-13") <->
  (forall res, In res (Reservations.getByRoom Sample.dbPast 1%nat None) ->
     Rooms.isOverlapping (Reservation.checkIn res) (Reservation.checkOut res)
       "2026-02-11" "2026-02-13" = false) /\
  (forall b, In b (Db.blockedDates Sample.dbPast) ->
     BlockedDate.roomId b = 1%nat ->
     ~ In (BlockedDate.date b) (Rooms.getDatesInRange "2026-02-11" "2026-02-13")).
Proof.
  apply (getByRoom_decides_availability Sample.dbPast "2026-02-11" "2026-02-13"
           Sample.roomA).
  - right. left. reflexivity.
  - reflexivity.
Defined.

(** With a month, [getByRoom] lists a stay only when it starts or ends in
    that month: a stay that covers the month from before its first day to
    after its last is missing from the month's calendar, while the view
    without a month lists it and the room is off the availability result
    for every query range that overlaps the stay. *)
Theorem getByRoom_month_misses_covering_stay
    (db : Db.t) (month queryIn queryOut : string) (res : Reservation.t) :
  In res (Db.reservations db) ->
  Reservation.status res = pending \/ Reservation.status res = confirmed ->
  month <> EmptyString ->
  Js.startsWith (Reservation.checkIn res) month = false ->
  Js.startsWith (Reservation.checkOut res) month = false ->
  (Reservation.checkIn res <? queryOut)%string = true ->
  (queryIn <? Reservation.checkOut res)%string = true ->
  ~ In res (Reservations.getByRoom db (Reservation.roomId res) (Some month)) /\
  In res (Reservations.getByRoom db (Reservation.roomId res) None) /\
  ~ In (Reservation.roomId res)
       (map Room._id (Rooms.getAvailableRooms db queryIn queryOut)).
Proof.
  intros Hin Hst Hm Hci Hco H1 H2.
  assert (Ht : Js.truthy month = true) by (destruct month; [contradiction | reflexivity]).
  split; [|split].
  - rewrite (getByRoom_month_In _ _ _ _ Ht). intros [_ [H | H]]; congruence.
  - apply getByRoom_In. now repeat split.
  - intros Hroom. apply in_map_iff in Hroom. destruct Hroom as (room & He & Hroom).
    apply getAvailableRooms_In in Hroom. destruct Hroom as (_ & _ & Hbook & _).
    apply (Hbook res Hin Hst); [|now symmetry].
    unfold Rooms.isOverlapping. now rewrite H1, H2.
Qed.

Lemma getByRoom_month_misses_covering_stay_witness :
  Reservations.getByRoom Sample.dbLongStay 1%nat (Some "2026-02"%string) = [] /\
  ~ In 1%nat
       (map Room._id
          (Rooms.getAvailableRooms Sample.dbLongStay "2026-02-10" "2026-02-12")).
Proof.
  split; [reflexivity|].
  apply (getByRoom_month_misses_covering_stay Sample.dbLongStay "2026-02"
           "2026-02-10" "2026-02-12"
           (Sample.reservation 3%nat 1%nat "guest@example.com" "2026-01-20"
              "2026-03-05" 2200000 confirmed)).
  - left. reflexivity.
  - right. reflexivity.
  - discriminate.
  - reflexivity.
  - reflexivity.
  - reflexivity.
  - reflexivity.
Defined.

(** A cancellation gives the nights back: once [cancel] has returned, a
    bookable room whose other reservations are all cancelled or completed,
    and which has no blocked date among the requested days, is in the
    result of [getAvailableRooms]. *)
Theorem cancel_frees_room
    (db : Db.t) (now : Z) (id id' : Id) (email checkIn checkOut : string)
    (room : Room.t) :
  Store.wf db ->
  fst (Reservations.cancel now id email db) = Return id' ->
  In room (Db.rooms db) ->
  Room.isAvailable room = true ->
  (forall res, In res (Db.reservations db) ->
     Reservation.roomId res = Room._id room ->
     Reservation._id res <> id ->
     Reservation.status res = cancelled \/ Reservation.status res = completed) ->
  (forall b, In b (Db.blockedDates db) ->
     BlockedDate.roomId b = Room._id room ->
     ~ In (BlockedDate.date b) (Rooms.getDatesInRange checkIn checkOut)) ->
  In room
     (Rooms.getAvailableRooms (snd (Reservations.cancel now id email db))
        checkIn checkOut).
Proof.
  intros Hwf Hret Hin Hav Hothers Hblock.
  destruct (Reservations.getById db id) as [r|] eqn:Hget.
  2: { rewrite cancel_not_found in Hret by assumption. discriminate. }
  destruct (string_dec (Reservation.guestEmail r) email) as [He|Hne].
  2: { rewrite (cancel_unauthorized _ _ _ _ r) in Hret by assumption. discriminate. }
  destruct (Status_pending_dec (Reservation.status r)) as [Hst|Hst].
  2: { rewrite (cancel_invalid_state _ _ _ _ r) in Hret by assumption. discriminate. }
  clear Hret.
  destruct (patchReservation_run db id (Reservation.withStatus cancelled now) r Hget)
    as (l1 & l2 & Hl & Hfresh & _ & Hrun).
  assert (Hsnd : snd (Reservations.cancel now id email db) =
                 Db.setReservations
                   (l1 ++ Reservation.withStatus cancelled now r :: l2) db).
  { unfold Reservations.cancel, bind, Ctx.getReservation.
    unfold Reservations.getById in Hget. rewrite Hget.
    apply String.eqb_eq in He. rewrite He, Hst. cbn [negb Status_eqb].
    now rewrite Hrun. }
  rewrite Hsnd. apply getAvailableRooms_In.
  cbn [Db.rooms Db.reservations Db.blockedDates Db.setReservations].
  repeat split; try assumption.
  - intros res Hres Hact _ Hroom.
    pose proof (wf_reservations_NoDup db Hwf) as Hnd.
    rewrite Hl, map_app in Hnd. cbn [map] in Hnd.
    apply get_Some in Hget. destruct Hget as [_ Hid].
    assert (Hclosed : Reservation.status res = cancelled \/
                      Reservation.status res = completed).
    { apply in_app_or in Hres. destruct Hres as [Hres | [<- | Hres]].
      - apply Hothers; [rewrite Hl; apply in_or_app; now left | assumption|].
        now apply Hfresh.
      - now left.
      - apply Hothers; [rewrite Hl; apply in_or_app; right; now right | assumption|].
        apply NoDup_remove_2 in Hnd. intros Heq. apply Hnd.
        apply in_or_app. right. rewrite Hid, <- Heq. now apply in_map. }
    destruct Hclosed as [Hc | Hc]; rewrite Hc in Hact; destruct Hact; discriminate.
  - intros b Hb Hd Heq. exact (Hblock b Hb Heq Hd).
Qed.

Lemma cancel_frees_room_witness :
  In Sample.roomB
     (Rooms.getAvailableRooms
        (snd (Reservations.cancel 2000 5%nat "third@example.com" Sample.dbPast))
        "2026-02-12" "2026-02-13").
Proof.
  apply (cancel_frees_room Sample.dbPast 2000 5%nat 5%nat "third@example.com").
  - exact wf_sample_dbPast.
  - reflexivity.
  - left. reflexivity.
  - reflexivity.
  - intros res [<- | [<- | [<- | []]]] He Hid;
      [discriminate He | discriminate He | exfalso; now apply Hid].
  - intros b [<- | []] He. discriminate He.
Defined.

(** ** The room catalogue: update *)

Lemma withUpdates_id (u : Room.Patch.t) (r : Room.t) :
  Room._id (Room.withUpdates u r) = Room._id r.
Proof. reflexivity. Qed.

Lemma withUpdates_idem (u : Room.Patch.t) (r : Room.t) :
  Room.withUpdates u (Room.withUpdates u r) = Room.withUpdates u r.
Proof.
  destruct u as [a b c d e f g h i j k].
  destruct a, b, c, d, e, f, g, h, i, j, k; reflexivity.
Qed.

Lemma withUpdates_empty (r : Room.t) : Room.withUpdates Room.Patch.empty r = r.
Proof. destruct r as [id []]. reflexivity. Qed.

Lemma patchRoom_run (db : Db.t) (id : Id) (f : Room.t -> Room.t) (r : Room.t) :
  Rooms.getById db id = Some r ->
  exists l1 l2,
    Db.rooms db = l1 ++ r :: l2 /\
    (forall x, In x l1 -> Room._id x <> id) /\
    Ctx.patchRoom id f db =
      (Return tt,
       Db.mk (l1 ++ f r :: l2) (Db.reservations db) (Db.blockedDates db)
             (Db.nextId db)).
Proof.
  unfold Rooms.getById, Ctx.patchRoom. intros H.
  destruct (patch_split Room._id _ id f r H) as (l1 & l2 & Hl & Hp & Hfresh).
  exists l1, l2. rewrite Hp. repeat split; assumption.
Qed.

Lemma update_run (db : Db.t) (id : Id) (u : Room.Patch.t) (r : Room.t) :
  Rooms.getById db id = Some r ->
  exists l1 l2,
    Db.rooms db = l1 ++ r :: l2 /\
    (forall x, In x l1 -> Room._id x <> id) /\
    Rooms.update id u db =
      (Return id,
       Db.mk (l1 ++ Room.withUpdates u r :: l2) (Db.reservations db)
             (Db.blockedDates db) (Db.nextId db)).
Proof.
  intros H.
  destruct (patchRoom_run db id (Room.withUpdates u) r H) as (l1 & l2 & Hl & Hf & Hrun).
  exists l1, l2. repeat split; try assumption.
  unfold Rooms.update, bind. now rewrite Hrun.
Qed.

Lemma update_missing_run (db : Db.t) (id : Id) (u : Room.Patch.t) :
  Rooms.getById db id = None ->
  Rooms.update id u db = (Throw MissingDocument, db).
Proof.
  unfold Rooms.getById, Rooms.update, bind, Ctx.patchRoom. intros H.
  now rewrite (patch_None Room._id _ id _ H).
Qed.

Lemma get_app {D : Type} (idOf : D -> Id) (l1 l2 : list D) (id : Id) :
  Db.get idOf (l1 ++ l2) id =
  match Db.get idOf l1 id with
  | Some d => Some d
  | None => Db.get idOf l2 id
  end.
Proof.
  unfold Db.get. induction l1 as [|x l1 IH]; simpl; [reflexivity|].
  destruct (Nat.eqb (idOf x) id); [reflexivity | exact IH].
Qed.

Lemma get_middle (l1 l2 : list Room.t) (r : Room.t) :
  (forall x, In x l1 -> Room._id x <> Room._id r) ->
  Db.get Room._id (l1 ++ r :: l2) (Room._id r) = Some r.
Proof.
  intros Hfresh. rewrite get_app_r by assumption.
  unfold Db.get. simpl. now rewrite Nat.eqb_refl.
Qed.

(** [update] on an id that resolves to no room throws and writes nothing.
    On a room it returns the id and stores the room with the supplied
    fields replaced and the others kept; every other room resolves as
    before, the rooms keep their ids and places in the table, and
    reservations, blocked dates and statistics are untouched. *)
Theorem update_outcome (db : Db.t) (roomId : Id) (updates : Room.Patch.t) :
  match Rooms.getById db roomId with
  | None => Rooms.update roomId updates db = (Throw MissingDocument, db)
  | Some room =>
      let db' := snd (Rooms.update roomId updates db) in
      fst (Rooms.update roomId updates db) = Return roomId /\
      Rooms.getById db' roomId = Some (Room.withUpdates updates room) /\
      (forall id, id <> roomId -> Rooms.getById db' id = Rooms.getById db id) /\
      map Room._id (Db.rooms db') = map Room._id (Db.rooms db) /\
      Db.reservations db' = Db.reservations db /\
      Db.blockedDates db' = Db.blockedDates db /\
      Db.nextId db' = Db.nextId db /\
      Reservations.getStats db' = Reservations.getStats db
  end.
Proof.
  destruct (Rooms.getById db roomId) as [room|] eqn:Hget.
  2: { now apply update_missing_run. }
  destruct (update_run db roomId updates room Hget) as (l1 & l2 & Hl & Hfresh & Hrun).
  rewrite Hrun. cbn [fst snd]. unfold Rooms.getById.
  cbn [Db.rooms Db.reservations Db.blockedDates Db.nextId].
  pose proof (get_Some _ _ _ _ Hget) as [_ Hid].
  repeat split.
  - rewrite get_app_r by assumption. unfold Db.get. simpl.
    now rewrite Hid, Nat.eqb_refl.
  - intros id Hne. rewrite Hl, !get_app.
    destruct (Db.get Room._id l1 id); [reflexivity|].
    unfold Db.get. simpl. rewrite Hid.
    destruct (Nat.eqb_spec roomId id) as [He|_]; [now symmetry in He | reflexivity].
  - rewrite Hl, !map_app. reflexivity.
Qed.

(** [update] is idempotent: sending the same arguments again changes
    nothing more. With no optional argument it changes nothing at all. *)
Theorem update_idempotent (db : Db.t) (roomId : Id) (updates : Room.Patch.t) :
  Rooms.update roomId updates (snd (Rooms.update roomId updates db)) =
    (fst (Rooms.update roomId updates db), snd (Rooms.update roomId updates db)) /\
  snd (Rooms.update roomId Room.Patch.empty db) = db.
Proof.
  destruct (Rooms.getById db roomId) as [room|] eqn:Hget.
  - split.
    + destruct (update_run db roomId updates room Hget)
        as (l1 & l2 & Hl & Hfresh & Hrun).
      rewrite Hrun. cbn [fst snd].
      pose proof (get_Some _ _ _ _ Hget) as [_ Hid].
      assert (Hget' : Rooms.getById
                (Db.mk (l1 ++ Room.withUpdates updates room :: l2)
                   (Db.reservations db) (Db.blockedDates db) (Db.nextId db))
                roomId = Some (Room.withUpdates updates room)).
      { unfold Rooms.getById. cbn [Db.rooms].
        replace roomId with (Room._id (Room.withUpdates updates room))
          by (now rewrite withUpdates_id).
        apply get_middle. intros x Hx. rewrite withUpdates_id, Hid. now apply Hfresh. }
      destruct (update_run _ roomId updates _ Hget')
        as (k1 & k2 & Hk & Hkfresh & Hrun').
      rewrite Hrun'. cbn [Db.rooms Db.reservations Db.blockedDates Db.nextId] in *.
      rewrite withUpdates_idem.
      assert (Hsame : k1 ++ Room.withUpdates updates room :: k2 =
                      l1 ++ Room.withUpdates updates room :: l2) by (now symmetry).
      now rewrite Hsame.
    + destruct (update_run db roomId Room.Patch.empty room Hget)
        as (l1 & l2 & Hl & _ & Hrun).
      rewrite Hrun. cbn [snd]. rewrite withUpdates_empty, <- Hl.
      destruct db; reflexivity.
  - rewrite !(update_missing_run db roomId _ Hget). cbn [fst snd].
    split; reflexivity.
Qed.

Lemma list_In (db : Db.t) (room : Room.t) :
  In room (Rooms.list db) <-> In room (Db.rooms db) /\ Room.isAvailable room = true.
Proof.
  unfold Rooms.list. cbv zeta. rewrite sort_In, filter_In, eqb_true_iff. reflexivity.
Qed.

Lemma listAll_In (db : Db.t) (room : Room.t) :
  In room (Rooms.listAll db) <-> In room (Db.rooms db).
Proof. unfold Rooms.listAll. cbv zeta. apply sort_In. Qed.

(** Taking a room off sale: after an [update] whose arguments carry
    [isAvailable: false], the room is on neither the guest list nor any
    availability result, whatever the dates; the admin list still shows it. *)
Theorem update_hides_room
    (db : Db.t) (roomId : Id) (updates : Room.Patch.t) (checkIn checkOut : string) :
  Store.wf db ->
  Room.Patch.isAvailable updates = Some false ->
  let db' := snd (Rooms.update roomId updates db) in
  ~ In roomId (map Room._id (Rooms.list db')) /\
  ~ In roomId (map Room._id (Rooms.getAvailableRooms db' checkIn checkOut)) /\
  (In roomId (map Room._id (Rooms.listAll db')) <->
   In roomId (map Room._id (Db.rooms db))).
Proof.
  intros Hwf Hoff db'.
  assert (Hnone : forall x, In x (Db.rooms db') -> Room._id x = roomId ->
                            Room.isAvailable x = false).
  { subst db'. destruct (Rooms.getById db roomId) as [room|] eqn:Hget.
    - destruct (update_run db roomId updates room Hget)
        as (l1 & l2 & Hl & Hfresh & Hrun).
      rewrite Hrun. cbn [snd Db.rooms].
      pose proof (wf_rooms_NoDup db Hwf) as Hnd.
      rewrite Hl, map_app in Hnd. cbn [map] in Hnd.
      apply NoDup_remove_2 in Hnd.
      pose proof (get_Some _ _ _ _ Hget) as [_ Hid].
      intros x Hx Hxid. apply in_app_or in Hx. destruct Hx as [Hx | [<- | Hx]].
      + exfalso. now apply (Hfresh x).
      + cbn. now rewrite Hoff.
      + exfalso. apply Hnd. apply in_or_app. right.
        rewrite Hid, <- Hxid. now apply in_map.
    - rewrite update_missing_run by assumption. cbn [snd].
      intros x Hx Hxid. exfalso.
      apply (proj1 (get_None_iff Room._id (Db.rooms db) roomId) Hget).
      rewrite <- Hxid. now apply in_map. }
  split; [|split].
  - intros Hin. apply in_map_iff in Hin. destruct Hin as (x & Hxid & Hx).
    apply list_In in Hx. destruct Hx as [Hx Hav].
    rewrite (Hnone x Hx Hxid) in Hav. discriminate.
  - intros Hin. apply in_map_iff in Hin. destruct Hin as (x & Hxid & Hx).
    apply getAvailableRooms_In in Hx. destruct Hx as (Hx & Hav & _).
    rewrite (Hnone x Hx Hxid) in Hav. discriminate.
  - assert (Hids : map Room._id (Db.rooms db') = map Room._id (Db.rooms db)).
    { subst db'. pose proof (update_run db roomId updates) as Hrun.
      destruct (Rooms.getById db roomId) as [room|] eqn:Hget.
      - destruct (Hrun room eq_refl) as (l1 & l2 & Hl & _ & ->).
        cbn [snd Db.rooms]. rewrite Hl, !map_app. reflexivity.
      - now rewrite update_missing_run. }
    rewrite <- Hids. split; intros Hin; apply in_map_iff in Hin;
      destruct Hin as (x & Hxid & Hx); apply in_map_iff; exists x;
      (split; [assumption|]); now apply listAll_In.
Qed.

Lemma update_hides_room_witness :
  ~ In 1%nat
       (map Room._id
          (Rooms.getAvailableRooms
             (snd (AdminRoomsPage.handleToggleAvailable 1%nat false Sample.db))
             "2026-05-01" "2026-05-03")) /\
  In 1%nat
     (map Room._id
        (Rooms.listAll
           (snd (AdminRoomsPage.handleToggleAvailable 1%nat false Sample.db)))).
Proof.
  destruct (update_hides_room Sample.db 1%nat
              {| Room.Patch.name := None; Room.Patch.nameKo := None;
                 Room.Patch.nameEn := None; Room.Patch.description := None;
                 Room.Patch.price := None; Room.Patch.capacity := None;
                 Room.Patch.bedType := None; Room.Patch.amenities := None;
                 Room.Patch.images := None; Room.Patch.isAvailable := Some false;
                 Room.Patch.order := None |}
              "2026-05-01" "2026-05-03" wf_sample_db eq_refl)
    as (_ & Hav & Hall).
  split; [exact Hav|]. apply (proj2 Hall). right. left. reflexivity.
Defined.

(** The admin toggle is reversible: switching a room's availability and
    then switching it back to what it was restores the database. *)
Theorem handleToggleAvailable_round_trip
    (db : Db.t) (roomId : Id) (isAvailable : bool) (room : Room.t) :
  Rooms.getById db roomId = Some room ->
  snd (AdminRoomsPage.handleToggleAvailable roomId (Room.isAvailable room)
         (snd (AdminRoomsPage.handleToggleAvailable roomId isAvailable db))) = db.
Proof.
  intros Hget.
  unfold AdminRoomsPage.handleToggleAvailable, Rooms.update, bind, Ctx.patchRoom, ret.
  unfold Rooms.getById in Hget.
  match goal with
  | |- context [Db.patch Room._id (Db.rooms db) roomId ?f0] => set (f := f0)
  end.
  destruct (patch_split Room._id _ roomId f room Hget) as (l1 & l2 & Hl & Hp & _).
  rewrite Hp. cbn [snd fst Db.rooms Db.reservations Db.blockedDates Db.nextId].
  match goal with
  | |- context [Db.patch Room._id _ roomId ?g0] => set (g := g0)
  end.
  rewrite (patch_patch Room._id _ _ roomId f g (fun d => eq_refl) Hp).
  destruct (patch_split Room._id _ roomId (fun d => g (f d)) room Hget)
    as (m1 & m2 & Hm & Hq & _).
  rewrite Hq. cbn [snd].
  replace (g (f room)) with room by (destruct room as [id []]; reflexivity).
  rewrite <- Hm. destruct db; reflexivity.
Qed.

Lemma handleToggleAvailable_round_trip_witness :
  snd (AdminRoomsPage.handleToggleAvailable 1%nat true
         (snd (AdminRoomsPage.handleToggleAvailable 1%nat false Sample.db))) =
  Sample.db.
Proof.
  apply (handleToggleAvailable_round_trip Sample.db 1%nat false Sample.roomA).
  reflexivity.
Defined.

(** ** The room catalogue: create and seed *)

Section CreateRoom.
Variables (name nameKo nameEn : string) (description : Room.Description).
Variables (price capacity : Z) (bedType : string).
Variables (amenities images : list string) (order : Z).

Let create : Mutation Id :=
  Rooms.create name nameKo nameEn description price capacity bedType amenities
    images order.

Let fields : Room.Fields :=
  {| Room.name := name; Room.nameKo := nameKo; Room.nameEn := nameEn;
     Room.description := description; Room.price := price;
     Room.capacity := capacity; Room.bedType := bedType;
     Room.amenities := amenities; Room.images := images;
     Room.isAvailable := true; Room.order := order |}.

(** [create] stores the room under a fresh id and returns the id. The new
    room carries the arguments and is on sale: it is on the guest list and
    in the availability result of every query, since no reservation and no
    blocked date can name it yet. The rooms stored before still resolve,
    and the admin list is the old one with the new room added. *)
Theorem create_room_bookable (db : Db.t) (checkIn checkOut : string) :
  Store.wf db ->
  Store.linked db ->
  let room := Room.mk (Db.nextId db) fields in
  let db' := snd (create db) in
  fst (create db) = Return (Db.nextId db) /\
  Rooms.getById db' (Db.nextId db) = Some room /\
  (forall id r, Rooms.getById db id = Some r -> Rooms.getById db' id = Some r) /\
  In room (Rooms.list db') /\
  In room (Rooms.getAvailableRooms db' checkIn checkOut) /\
  Permutation (Rooms.listAll db') (room :: Rooms.listAll db).
Proof.
  intros Hwf [Hres Hblock] room db'.
  assert (Hfresh : forall x, In x (Db.rooms db) -> Room._id x <> Db.nextId db).
  { intros x Hx. pose proof (wf_room_lt db x Hwf Hx). lia. }
  assert (Hnew : forall id, In id (map Room._id (Db.rooms db)) -> id <> Db.nextId db).
  { intros id Hid. apply in_map_iff in Hid. destruct Hid as (x & <- & Hx).
    now apply Hfresh. }
  assert (Hrooms : Db.rooms db' = Db.rooms db ++ [room]) by reflexivity.
  split; [reflexivity|]. split; [|split; [|split; [|split]]].
  - unfold Rooms.getById. rewrite Hrooms, get_app_r by assumption.
    unfold Db.get. simpl. now rewrite Nat.eqb_refl.
  - intros id r Hget. unfold Rooms.getById. rewrite Hrooms.
    now apply get_app_l.
  - apply list_In. split; [|reflexivity].
    rewrite Hrooms. apply in_or_app. right. now left.
  - apply getAvailableRooms_In. repeat split.
    + rewrite Hrooms. apply in_or_app. right. now left.
    + intros res Hin _ _. apply Hnew. now apply Hres.
    + intros b Hin _. apply Hnew. now apply Hblock.
  - unfold Rooms.listAll. cbv zeta.
    eapply perm_trans; [apply sort_Permutation|]. rewrite Hrooms.
    eapply perm_trans; [apply Permutation_app_comm|]. cbn [app].
    apply perm_skip, Permutation_sym, sort_Permutation.
Qed.

End CreateRoom.

Lemma linked_sample_db : Store.linked Sample.db.
Proof.
  split.
  - intros res [<- | []]. right. left. reflexivity.
  - intros b [<- | []]. left. reflexivity.
Qed.

Lemma create_room_bookable_witness :
  In (Room.mk 5%nat
        {| Room.name := "C"; Room.nameKo := "C"; Room.nameEn := "C";
           Room.description := {| Room.vi := ""; Room.ko := ""; Room.en := "" |};
           Room.price := 60000; Room.capacity := 2; Room.bedType := "queen";
           Room.amenities := []; Room.images := [];
           Room.isAvailable := true; Room.order := 3 |})
     (Rooms.getAvailableRooms
        (snd (Rooms.create "C" "C" "C"
                {| Room.vi := ""; Room.ko := ""; Room.en := "" |}
                60000 2 "queen" [] [] 3 Sample.db))
        "2026-02-10" "2026-02-15").
Proof.
  apply (create_room_bookable "C" "C" "C"
           {| Room.vi := ""; Room.ko := ""; Room.en := "" |}
           60000 2 "queen" [] [] 3 Sample.db "2026-02-10" "2026-02-15"
           wf_sample_db linked_sample_db).
Defined.



(** ** The reservation ledger: the detail view *)

(** The detail view and the guest's listing agree: a reservation that
    [getById] returns with its room is listed, with the same room, under
    its own booking email; and every entry of [getByEmail] is what
    [getById] returns for the entry's id. *)
Theorem getById_agrees_with_getByEmail
    (db : Db.t) (email : string) (r : Reservation.t) (room : option Room.t) :
  Store.wf db ->
  (Reservations.getByIdWithRoom db (Reservation._id r) = Some (r, room) ->
   In (r, room) (Reservations.getByEmail db (Reservation.guestEmail r))) /\
  (In (r, room) (Reservations.getByEmail db email) ->
   Reservations.getByIdWithRoom db (Reservation._id r) = Some (r, room)).
Proof.
  intros Hwf. unfold Reservations.getByIdWithRoom. split.
  - destruct (Db.get Reservation._id (Db.reservations db) (Reservation._id r))
      as [x|] eqn:Hget; [|discriminate].
    cbv zeta. intros H. injection H as -> <-.
    apply getByEmail_In. apply get_Some in Hget. now repeat split.
  - intros Hin. apply getByEmail_In in Hin. destruct Hin as (Hin & _ & ->).
    rewrite (get_In_NoDup Reservation._id _ r (wf_reservations_NoDup db Hwf) Hin).
    reflexivity.
Qed.

Lemma getById_agrees_with_getByEmail_witness :
  In (Sample.reservation 5%nat 2%nat "third@example.com" "2026-02-12" "2026-02-13"
        50000 pending, Some Sample.roomB)
     (Reservations.getByEmail Sample.dbPast "third@example.com").
Proof.
  apply (getById_agrees_with_getByEmail Sample.dbPast "third@example.com"
           (Sample.reservation 5%nat 2%nat "third@example.com" "2026-02-12"
              "2026-02-13" 50000 pending)
           (Some Sample.roomB) wf_sample_dbPast).
  reflexivity.
Defined.

(** Re-pricing a room does not re-price its bookings: after the admin
    page's [handleUpdateRoom] the detail view of a reservation of that room
    shows the reservation unchanged, with the total it was booked at, next
    to the room with the new price and capacity and every other field as it
    was. *)
Theorem handleUpdateRoom_keeps_booked_total
    (db : Db.t) (reservationId : Id) (editPrice editCapacity : Z)
    (r : Reservation.t) (room : Room.t) :
  Reservations.getByIdWithRoom db reservationId = Some (r, Some room) ->
  Reservations.getByIdWithRoom
    (snd (AdminRoomsPage.handleUpdateRoom (Reservation.roomId r) editPrice
            editCapacity db))
    reservationId =
  Some (r,
        Some (Room.mk (Room._id room)
                {| Room.name := Room.name room; Room.nameKo := Room.nameKo room;
                   Room.nameEn := Room.nameEn room;
                   Room.description := Room.description room;
                   Room.price := editPrice; Room.capacity := editCapacity;
                   Room.bedType := Room.bedType room;
                   Room.amenities := Room.amenities room;
                   Room.images := Room.images room;
                   Room.isAvailable := Room.isAvailable room;
                   Room.order := Room.order room |})).
Proof.
  unfold Reservations.getByIdWithRoom.
  destruct (Db.get Reservation._id (Db.reservations db) reservationId)
    as [x|] eqn:Hres; [|discriminate].
  cbv zeta. intros H. injection H as -> Hroom.
  unfold AdminRoomsPage.handleUpdateRoom.
  match goal with
  | |- context [Rooms.update _ ?u0 db] => set (u := u0)
  end.
  destruct (update_run db (Reservation.roomId r) u room Hroom)
    as (l1 & l2 & Hl & Hfresh & Hrun).
  rewrite Hrun. cbn [snd Db.rooms Db.reservations]. rewrite Hres.
  rewrite get_app_r by assumption.
  apply get_Some in Hroom. destruct Hroom as [_ Hid].
  unfold Db.get. cbn [find]. rewrite withUpdates_id, <- Hid, Nat.eqb_refl.
  reflexivity.
Qed.

Lemma handleUpdateRoom_keeps_booked_total_witness :
  Reservations.getByIdWithRoom
    (snd (AdminRoomsPage.handleUpdateRoom 1%nat 80000 3 Sample.db)) 3%nat =
  Some (Sample.reservation 3%nat 1%nat "guest@example.com" "2026-02-10"
          "2026-02-15" 250000 confirmed,
        Some (Room.mk 1%nat
                {| Room.name := "A"; Room.nameKo := "A"; Room.nameEn := "A";
                   Room.description :=
                     {| Room.vi := ""; Room.ko := ""; Room.en := "" |};
                   Room.price := 80000; Room.capacity := 3;
                   Room.bedType := "king"; Room.amenities := ["wifi"]%string;
                   Room.images := []; Room.isAvailable := true;
                   Room.order := 1 |})).
Proof.
  apply (handleUpdateRoom_keeps_booked_total Sample.db 3%nat 80000 3
           (Sample.reservation 3%nat 1%nat "guest@example.com" "2026-02-10"
              "2026-02-15" 250000 confirmed)
           Sample.roomA).
  reflexivity.
Defined.

(** ** The requested days, one per night *)

Module RequestedNights.
Import Date DateFacts RequestedDays.

Lemma map_seq_shift {A : Type} (f : nat -> A) (n : nat) :
  map f (seq 1 n) = map (fun k => f (S k)) (seq 0 n).
Proof. rewrite <- seq_shift, map_map. reflexivity. Qed.

Lemma nights_zero (c e : Z) :
  e <= c -> Z.to_nat ((e - c + msPerDay - 1) / msPerDay) = O.
Proof.
  intros H. unfold msPerDay. 
  assert ((e - c + 86400000 - 1) / 86400000 <= 0)
    by (Z.to_euclidean_division_equations; lia).
  lia.
Qed.

Lemma nights_succ (c e : Z) :
  c < e ->
  Z.to_nat ((e - c + msPerDay - 1) / msPerDay) =
  S (Z.to_nat ((e - (c + msPerDay) + msPerDay - 1) / msPerDay)).
Proof.
  intros H. unfold msPerDay.
  replace (e - c + 86400000 - 1) with ((e - (c + 86400000) + 86400000 - 1) + 1 * 86400000)
    by lia.
  rewrite Z.div_add by lia.
  assert (0 <= (e - (c + 86400000) + 86400000 - 1) / 86400000)
    by (Z.to_euclidean_division_equations; lia).
  lia.
Qed.

(** The loop lists the day of [c], then of each following day, as long as
    the instant is before [e]. *)
Lemma getDatesInRange_loop_shape (fuel : nat) (c e : Z) :
  - maxTime <= c -> e <= maxTime ->
  (Rooms.getDatesInRange_fuel (Some c) (Some e) <= fuel)%nat ->
  Rooms.getDatesInRange_loop fuel (Some c) (Some e) =
  map (fun k => isoDate (c + Z.of_nat k * msPerDay))
      (seq 0 (Z.to_nat ((e - c + msPerDay - 1) / msPerDay))).
Proof.
  revert c. induction fuel as [|fuel IH]; intros c Hc He Hfuel.
  - cbn [Rooms.getDatesInRange_fuel] in Hfuel.
    assert (Hle : e <= c).
    { unfold msPerDay in Hfuel.
      destruct (Z.le_gt_cases e c) as [|Hgt]; [assumption|].
      assert (0 <= (e - c) / 86400000) by (apply Z.div_pos; lia). lia. }
    now rewrite nights_zero.
  - cbn [Rooms.getDatesInRange_loop lt].
    destruct (Z.ltb_spec c e) as [Hlt|Hge]; [|now rewrite nights_zero].
    rewrite nights_succ by assumption. cbn [seq map].
    rewrite split0_toISOString, setDate_next, map_seq_shift.
    f_equal; [f_equal; lia|].
    destruct (TimeClip_next c e Hc He Hlt) as [-> | [-> Hend]].
    + rewrite IH.
      * apply map_ext. intros k. f_equal. lia.
      * unfold msPerDay; lia.
      * assumption.
      * cbn [Rooms.getDatesInRange_fuel] in Hfuel |- *.
        replace (e - (c + msPerDay)) with ((e - c) + (-1) * msPerDay) by lia.
        rewrite Z.div_add by (unfold msPerDay; lia).
        assert (0 <= (e - c) / msPerDay)
          by (apply Z.div_pos; unfold msPerDay; lia).
        lia.
    + rewrite getDatesInRange_loop_NaN, nights_zero by assumption. reflexivity.
Qed.

Lemma map_seq_sorted {A : Type} (R : A -> A -> Prop) (f : nat -> A) (a n : nat) :
  (forall i j, (a <= i)%nat -> (i < j)%nat -> (j < a + n)%nat -> R (f i) (f j)) ->
  StronglySorted R (map f (seq a n)).
Proof.
  revert a. induction n as [|n IH]; intros a H; cbn [seq map]; constructor.
  - apply IH. intros i j Hi Hij Hj. apply H; lia.
  - apply Forall_forall. intros x Hx. apply in_map_iff in Hx.
    destruct Hx as (j & <- & Hj). apply in_seq in Hj. apply H; lia.
Qed.

End RequestedNights.

(** Between two calendar dates [getDatesInRange] returns one date string
    per night of the stay, in ascending order: the day of [checkIn], then
    each following day up to the day before [checkOut]. So the list has as
    many entries as the stay has nights, starts with [checkIn] itself when
    the stay has a night, and never holds [checkOut]. *)
Theorem getDatesInRange_nights (checkIn checkOut : string) :
  Date.isCalendarDate checkIn = true ->
  Date.isCalendarDate checkOut = true ->
  exists n1 n2,
    Date.parse checkIn = Some (Date.MakeDate n1 0) /\
    Date.parse checkOut = Some (Date.MakeDate n2 0) /\
    Rooms.getDatesInRange checkIn checkOut =
      map (fun k => Date.isoDate (Date.MakeDate (n1 + Z.of_nat k) 0))
          (seq 0 (Z.to_nat (n2 - n1))) /\
    List.length (Rooms.getDatesInRange checkIn checkOut) = Z.to_nat (n2 - n1) /\
    StronglySorted (fun a b : string => (a <? b)%string = true)
      (Rooms.getDatesInRange checkIn checkOut) /\
    ((checkIn <? checkOut)%string = true ->
     hd_error (Rooms.getDatesInRange checkIn checkOut) = Some checkIn) /\
    ~ In checkOut (Rooms.getDatesInRange checkIn checkOut).
Proof.
  intros H1 H2.
  destruct (DateFacts.isCalendarDate_fields _ H1) as (y1 & m1 & d1 & Hf1 & Hv1).
  destruct (DateFacts.isCalendarDate_fields _ H2) as (y2 & m2 & d2 & Hf2 & Hv2).
  destruct (DateFacts.parse_calendarDate _ _ _ _ Hf1 Hv1) as [Hp1 Hiso1].
  destruct (DateFacts.parse_calendarDate _ _ _ _ Hf2 Hv2) as [Hp2 _].
  assert (Hy1 : 0 <= y1 <= 9999).
  { destruct (DateFacts.dateFields_inv _ _ _ _ Hf1)
      as (? & ? & ? & ? & ? & ? & ? & ? & _ & ? & ? & ? & _). lia. }
  assert (Hy2 : 0 <= y2 <= 9999).
  { destruct (DateFacts.dateFields_inv _ _ _ _ Hf2)
      as (? & ? & ? & ? & ? & ? & ? & ? & _ & ? & ? & ? & _). lia. }
  pose proof (DateFacts.MakeDay_range _ _ _ Hy1 Hv1) as Hr1.
  pose proof (DateFacts.MakeDay_range _ _ _ Hy2 Hv2) as Hr2.
  pose proof (DateFacts.YearFromTime_MakeDay _ _ _ Hv1) as HY1.
  pose proof (DateFacts.YearFromTime_MakeDay _ _ _ Hv2) as HY2.
  pose proof (DateFacts.calendarDate_compare _ _ _ _ _ _ _ _ Hf1 Hv1 Hf2 Hv2) as Hcmp.
  set (n1 := Date.MakeDay y1 (m1 - 1) d1) in *.
  set (n2 := Date.MakeDay y2 (m2 - 1) d2) in *.
  assert (Hshape : Rooms.getDatesInRange checkIn checkOut =
            map (fun k => Date.isoDate (Date.MakeDate (n1 + Z.of_nat k) 0))
                (seq 0 (Z.to_nat (n2 - n1)))).
  { unfold Rooms.getDatesInRange. cbv zeta. rewrite Hp1, Hp2.
    rewrite RequestedNights.getDatesInRange_loop_shape
      by (try lia; apply Nat.le_refl).
    replace ((Date.MakeDate n2 0 - Date.MakeDate n1 0 + Date.msPerDay - 1)
             / Date.msPerDay) with (n2 - n1)
      by (unfold Date.MakeDate, Date.msPerDay;
          Z.to_euclidean_division_equations; lia).
    apply map_ext. intros k. f_equal. unfold Date.MakeDate. lia. }
  exists n1, n2. split; [exact Hp1|]. split; [exact Hp2|].
  split; [exact Hshape|]. rewrite Hshape.
  split; [now rewrite length_map, length_seq|].
  assert (Hday : forall n, n1 <= n <= n2 ->
            exists y m d, Date.dateFields (Date.isoDate (Date.MakeDate n 0)) =
                            Some (y, m, d) /\
                          Date.validYMD y m d /\ Date.MakeDay y (m - 1) d = n).
  { intros n Hn. set (t := Date.MakeDate n 0).
    assert (Hy : 0 <= Date.YearFromTime t <= 9999).
    { pose proof (DateFacts.YearFromTime_mono (Date.MakeDate n1 0) t) as Ha.
      pose proof (DateFacts.YearFromTime_mono t (Date.MakeDate n2 0)) as Hb.
      unfold t in Ha, Hb. rewrite !DateFacts.Day_MakeDate in Ha, Hb.
      rewrite HY1 in Ha. rewrite HY2 in Hb. fold t in Ha, Hb. lia. }
    destruct (DateFacts.isoDate_calendar t Hy) as [Hf _].
    destruct (DateFacts.civil_of_time t) as [Hv Hd].
    unfold t in Hd at 4. rewrite DateFacts.Day_MakeDate in Hd.
    exists (Date.YearFromTime t), (Date.MonthFromTime t + 1), (Date.DateFromTime t).
    repeat split; try assumption; try apply Hv.
    now replace (Date.MonthFromTime t + 1 - 1) with (Date.MonthFromTime t) by lia. }
  split; [|split].
  - apply RequestedNights.map_seq_sorted. intros i j _ Hij Hj.
    destruct (Hday (n1 + Z.of_nat i)) as (ya & ma & da & Hfa & Hva & Hna); [lia|].
    destruct (Hday (n1 + Z.of_nat j)) as (yb & mb & db & Hfb & Hvb & Hnb); [lia|].
    unfold String.ltb.
    rewrite (DateFacts.calendarDate_compare _ _ _ _ _ _ _ _ Hfa Hva Hfb Hvb).
    rewrite Hna, Hnb.
    now rewrite (proj2 (Z.compare_lt_iff _ _)) by lia.
  - intros Hlt. unfold String.ltb in Hlt. rewrite Hcmp in Hlt.
    assert (n1 < n2) by (destruct (Z.compare_spec n1 n2); [discriminate | lia | discriminate]).
    destruct (Z.to_nat (n2 - n1)) as [|k] eqn:Hk; [lia|].
    cbn [seq map hd_error]. rewrite Z.add_0_r. now rewrite Hiso1.
  - intros Hin. apply in_map_iff in Hin. destruct Hin as (k & Hk & Hin).
    apply in_seq in Hin.
    destruct (Hday (n1 + Z.of_nat k)) as (ya & ma & da & Hfa & Hva & Hna); [lia|].
    rewrite Hk, Hf2 in Hfa. injection Hfa as <- <- <-.
    fold n2 in Hna. lia.
Qed.

Lemma getDatesInRange_nights_witness :
  exists n1 n2,
    Date.parse "2026-02-27" = Some (Date.MakeDate n1 0) /\
    Date.parse "2026-03-02" = Some (Date.MakeDate n2 0) /\
    Rooms.getDatesInRange "2026-02-27" "2026-03-02" =
      map (fun k => Date.isoDate (Date.MakeDate (n1 + Z.of_nat k) 0))
          (seq 0 (Z.to_nat (n2 - n1))) /\
    List.length (Rooms.getDatesInRange "2026-02-27" "2026-03-02") =
      Z.to_nat (n2 - n1) /\
    StronglySorted (fun a b : string => (a <? b)%string = true)
      (Rooms.getDatesInRange "2026-02-27" "2026-03-02") /\
    (("2026-02-27" <? "2026-03-02")%string = true ->
     hd_error (Rooms.getDatesInRange "2026-02-27" "2026-03-02") =
       Some "2026-02-27"%string) /\
    ~ In "2026-03-02"%string (Rooms.getDatesInRange "2026-02-27" "2026-03-02").
Proof.
  apply (getDatesInRange_nights "2026-02-27" "2026-03-02"); reflexivity.
Defined.

(** ** The admin pages *)

Lemma offered_not_pending (current newStatus : Status) :
  In newStatus (AdminReservationsPage.offered current) -> newStatus <> pending.
Proof.
  unfold AdminReservationsPage.offered.
  destruct current; cbn; intros H; intuition (subst; discriminate).
Qed.

Lemma updateStatus_run (db : Db.t) (now : Z) (id : Id) (s : Status)
    (r : Reservation.t) :
  Reservations.getById db id = Some r ->
  exists l1 l2,
    Db.reservations db = l1 ++ r :: l2 /\
    (forall x, In x l1 -> Reservation._id x <> id) /\
    Reservations.updateStatus now id s db =
      (Return id,
       Db.setReservations (l1 ++ Reservation.withStatus s now r :: l2) db).
Proof.
  intros Hget.
  destruct (patchReservation_run db id (Reservation.withStatus s now) r Hget)
    as (l1 & l2 & Hl & Hfresh & _ & Hrun).
  exists l1, l2. repeat split; try assumption.
  unfold Reservations.updateStatus, bind. now rewrite Hrun.
Qed.

Lemma updateStatus_getById (db : Db.t) (now : Z) (id : Id) (s : Status)
    (r : Reservation.t) :
  Reservations.getById db id = Some r ->
  Reservations.getById (snd (Reservations.updateStatus now id s db)) id =
  Some (Reservation.withStatus s now r).
Proof.
  intros Hget.
  destruct (updateStatus_run db now id s r Hget) as (l1 & l2 & Hl & Hfresh & ->).
  apply get_Some in Hget. destruct Hget as [_ Hid].
  unfold Reservations.getById. cbn [snd Db.reservations Db.setReservations].
  rewrite get_app_r by assumption.
  unfold Db.get. cbn. now rewrite Hid, Nat.eqb_refl.
Qed.

(** No button of the admin page sends [pending], so one status change by
    the admin ends the guest's right to cancel: after a press on any
    offered button, [cancel] on that reservation throws, whoever calls it,
    and writes nothing. *)
Theorem handleStatusChange_ends_guest_cancel
    (db : Db.t) (now now' : Z) (reservationId : Id) (newStatus : Status)
    (email : string) (r : Reservation.t) :
  Reservations.getById db reservationId = Some r ->
  In newStatus (AdminReservationsPage.offered (Reservation.status r)) ->
  let db' :=
    snd (AdminReservationsPage.handleStatusChange now reservationId newStatus db) in
  Reservations.cancel now' reservationId email db' =
    (Throw (if (Reservation.guestEmail r =? email)%string
            then InvalidState else Unauthorized),
     db').
Proof.
  intros Hget Hoff db'. apply offered_not_pending in Hoff.
  pose proof (updateStatus_getById db now reservationId newStatus r Hget) as Hget'.
  fold db' in Hget'.
  destruct (String.eqb_spec (Reservation.guestEmail r) email) as [He|Hne].
  - now apply (cancel_invalid_state _ _ _ _ _ Hget').
  - now apply (cancel_unauthorized _ _ _ _ _ Hget').
Qed.

Lemma handleStatusChange_ends_guest_cancel_witness :
  Reservations.cancel 3000 5%nat "third@example.com"
    (snd (AdminReservationsPage.handleStatusChange 2000 5%nat confirmed
            Sample.dbPast)) =
  (Throw InvalidState,
   snd (AdminReservationsPage.handleStatusChange 2000 5%nat confirmed
          Sample.dbPast)).
Proof.
  apply (handleStatusChange_ends_guest_cancel Sample.dbPast 2000 3000 5%nat
           confirmed "third@example.com"
           (Sample.reservation 5%nat 2%nat "third@example.com" "2026-02-12"
              "2026-02-13" 50000 pending)).
  - reflexivity.
  - left. reflexivity.
Defined.

(** Cancelled and completed are not final on the admin page: for such a
    reservation the confirm button is offered, and pressing it puts the
    reservation back on the books, so its room leaves the availability
    result of every query that overlaps the stay. *)
Theorem handleStatusChange_revives_closed
    (db : Db.t) (now : Z) (reservationId : Id) (r : Reservation.t)
    (checkIn checkOut : string) :
  Reservations.getById db reservationId = Some r ->
  Reservation.status r = cancelled \/ Reservation.status r = completed ->
  (Reservation.checkIn r <? checkOut)%string = true ->
  (checkIn <? Reservation.checkOut r)%string = true ->
  In confirmed (AdminReservationsPage.offered (Reservation.status r)) /\
  ~ In (Reservation.roomId r)
       (map Room._id
          (Rooms.getAvailableRooms
             (snd (AdminReservationsPage.handleStatusChange now reservationId
                     confirmed db))
             checkIn checkOut)).
Proof.
  intros Hget Hst H1 H2. split.
  - destruct Hst as [-> | ->]; left; reflexivity.
  - unfold AdminReservationsPage.handleStatusChange.
    destruct (updateStatus_run db now reservationId confirmed r Hget)
      as (l1 & l2 & _ & _ & ->).
    cbn [snd]. intros Hin. apply in_map_iff in Hin.
    destruct Hin as (room & Hid & Hin). apply getAvailableRooms_In in Hin.
    destruct Hin as (_ & _ & Hbook & _).
    apply (Hbook (Reservation.withStatus confirmed now r)).
    + cbn [Db.reservations Db.setReservations]. apply in_or_app. right. now left.
    + right. reflexivity.
    + unfold Rooms.isOverlapping. cbn. now rewrite H1, H2.
    + now symmetry.
Qed.

Lemma handleStatusChange_revives_closed_witness :
  ~ In 1%nat
       (map Room._id
          (Rooms.getAvailableRooms
             (snd (AdminReservationsPage.handleStatusChange 2000 4%nat confirmed
                     Sample.dbPast))
             "2026-02-13" "2026-02-14")).
Proof.
  apply (handleStatusChange_revives_closed Sample.dbPast 2000 4%nat
           (Sample.reservation 4%nat 1%nat "other@example.com" "2026-02-12"
              "2026-02-14" 100000 cancelled)
           "2026-02-13" "2026-02-14").
  - reflexivity.
  - left. reflexivity.
  - reflexivity.
  - reflexivity.
Defined.

Lemma StronglySorted_app_inv {A : Type} (R : A -> A -> Prop) (l1 l2 : list A) :
  StronglySorted R (l1 ++ l2) -> forall x y, In x l1 -> In y l2 -> R x y.
Proof.
  induction l1 as [|a l1 IH]; cbn; intros Hs x y Hx Hy; [contradiction|].
  inversion Hs as [|? ? Hs' Hall]; subst. destruct Hx as [<- | Hx].
  - rewrite Forall_forall in Hall. apply Hall. apply in_or_app. now right.
  - now apply IH.
Qed.

(** The dashboard shows the newest reservations: up to five of them, as
    many as there are when there are fewer, and every reservation it leaves
    out is at most as new as every one it shows. *)
Theorem recent_are_newest (db : Db.t) :
  List.length (AdminDashboard.recent db) =
    Nat.min 5 (List.length (Db.reservations db)) /\
  StronglySorted Spec.newestFirst (AdminDashboard.recent db) /\
  (forall r, In r (AdminDashboard.recent db) -> In r (Db.reservations db)) /\
  (forall r r', In r (AdminDashboard.recent db) -> In r' (Db.reservations db) ->
     ~ In r' (AdminDashboard.recent db) ->
     Reservation.createdAt r' <= Reservation.createdAt r).
Proof.
  unfold AdminDashboard.recent, Reservations.list. cbv zeta.
  set (L := Js.sort _ (Db.reservations db)).
  assert (Hsorted : StronglySorted Spec.newestFirst L) by apply sort_newest_sorted.
  assert (Hin : forall r, In r L <-> In r (Db.reservations db))
    by (intros r; apply sort_In).
  assert (Hlen : List.length L = List.length (Db.reservations db))
    by apply sort_length.
  rewrite <- (firstn_skipn 5 L) in Hsorted.
  split; [now rewrite length_firstn, Hlen|]. split; [|split].
  - clear -Hsorted. revert Hsorted. generalize (firstn 5 L), (skipn 5 L).
    intros l1 l2. induction l1 as [|a l1 IH]; cbn; intros Hs; [constructor|].
    inversion Hs as [|? ? Hs' Hall]; subst. constructor; [now apply IH|].
    rewrite Forall_forall in *. intros x Hx. apply Hall. apply in_or_app. now left.
  - intros r Hr. apply Hin. rewrite <- (firstn_skipn 5 L). apply in_or_app. now left.
  - intros r r' Hr Hr' Hout. apply Hin in Hr'.
    rewrite <- (firstn_skipn 5 L) in Hr'. apply in_app_or in Hr'.
    destruct Hr' as [Hr' | Hr']; [contradiction|].
    exact (StronglySorted_app_inv _ _ _ Hsorted r r' Hr Hr').
Qed.

(** ** The booking form *)

(** Whatever buttons are pressed, and whatever step a press carries, the
    form holds one to four adults and no more than three children; and
    with the steps of the four buttons, plus and minus one, every such
    pair of counts can be reached. *)
Theorem guests_in_range (presses : list BookingForm.Press) :
  (let st := fold_left BookingForm.press presses BookingForm.initial in
   1 <= BookingForm.adults st <= 4 /\ 0 <= BookingForm.children st <= 3) /\
  (forall a c, 1 <= a <= 4 -> 0 <= c <= 3 ->
     exists buttons,
       Forall (fun p => In p [BookingForm.PressAdults (-1); BookingForm.PressAdults 1;
                              BookingForm.PressChildren (-1);
                              BookingForm.PressChildren 1]) buttons /\
       fold_left BookingForm.press buttons BookingForm.initial =
         {| BookingForm.adults := a; BookingForm.children := c |}).
Proof.
  split.
  - cbv zeta.
    assert (Hinv : forall st,
              1 <= BookingForm.adults st <= 4 /\ 0 <= BookingForm.children st <= 3 ->
              let st' := fold_left BookingForm.press presses st in
              1 <= BookingForm.adults st' <= 4 /\ 0 <= BookingForm.children st' <= 3).
    { induction presses as [|p presses IH]; intros st Hst; [exact Hst|].
      cbn [fold_left]. apply IH.
      destruct p as [delta|delta]; cbn [BookingForm.press];
        unfold BookingForm.handleAdultsChange, BookingForm.handleChildrenChange;
        cbv zeta.
      - destruct (Z.leb_spec 1 (BookingForm.adults st + delta));
          destruct (Z.leb_spec (BookingForm.adults st + delta) 4); cbn; lia.
      - destruct (Z.leb_spec 0 (BookingForm.children st + delta));
          destruct (Z.leb_spec (BookingForm.children st + delta) 3); cbn; lia. }
    apply Hinv. cbn. lia.
  - intros a c Ha Hc.
    exists ((if a =? 1 then [BookingForm.PressAdults (-1)]
             else repeat (BookingForm.PressAdults 1) (Z.to_nat (a - 2)))
            ++ repeat (BookingForm.PressChildren 1) (Z.to_nat c)).
    assert (Has : a = 1 \/ a = 2 \/ a = 3 \/ a = 4) by lia.
    assert (Hcs : c = 0 \/ c = 1 \/ c = 2 \/ c = 3) by lia.
    destruct Has as [-> | [-> | [-> | ->]]];
      destruct Hcs as [-> | [-> | [-> | ->]]];
      (split; [repeat constructor; cbn; tauto | reflexivity]).
Qed.

(** The date [onSubmit] sends is the UTC day of the picked instant: a
    calendar date that reads back as the last UTC midnight at or before the
    instant. So an instant up to a day before the UTC midnight that starts
    a day, such as that day's local midnight east of Greenwich, is sent as
    the day before. *)
Theorem dateArg_utc_day (date : Z) :
  0 <= Date.YearFromTime date <= 9999 ->
  Date.isCalendarDate (BookingForm.dateArg date) = true /\
  Date.parse (BookingForm.dateArg date) = Some (Date.MakeDate (Date.Day date) 0) /\
  Date.MakeDate (Date.Day date) 0 <= date < Date.MakeDate (Date.Day date + 1) 0 /\
  (forall n offset,
     date = Date.MakeDate n 0 - offset -> 0 < offset <= Date.msPerDay ->
     Date.parse (BookingForm.dateArg date) = Some (Date.MakeDate (n - 1) 0)).
Proof.
  intros Hy. unfold BookingForm.dateArg. rewrite DateFacts.split0_toISOString.
  destruct (DateFacts.isoDate_calendar date Hy) as [Hf Hc].
  destruct (DateFacts.civil_of_time date) as [Hv Hday].
  destruct (DateFacts.parse_calendarDate _ _ _ _ Hf Hv) as [Hp _].
  replace (Date.MonthFromTime date + 1 - 1) with (Date.MonthFromTime date) in Hp by lia.
  rewrite Hday in Hp.
  split; [exact Hc|]. split; [exact Hp|]. split.
  - unfold Date.MakeDate, Date.Day, Date.msPerDay.
    Z.to_euclidean_division_equations; lia.
  - intros n offset -> Hoff. rewrite Hp. do 2 f_equal.
    unfold Date.MakeDate, Date.Day, Date.msPerDay in *.
    Z.to_euclidean_division_equations; lia.
Qed.

Lemma dateArg_utc_day_witness :
  Date.parse (BookingForm.dateArg (Date.MakeDate 20494 0 - 25200000)) =
  Some (Date.MakeDate 20493 0).
Proof.
  assert (Hy : 0 <= Date.YearFromTime (Date.MakeDate 20494 0 - 25200000) <= 9999)
    by (vm_compute; split; discriminate).
  apply (proj2 (proj2 (proj2 (dateArg_utc_day _ Hy))) 20494 25200000).
  - reflexivity.
  - unfold Date.msPerDay. lia.
Defined.

(** ** The availability result within the guest list *)

Lemma filter_none {A : Type} (p : A -> bool) (l : list A) :
  (forall x, In x l -> p x = false) -> filter p l = [].
Proof.
  induction l as [|x l IH]; cbn; intros H; [reflexivity|].
  rewrite (H x) by now left. apply IH. intros y Hy. apply H. now right.
Qed.

Lemma includes_booked (db : Db.t) (checkIn checkOut : string) (roomId : Id) :
  Js.includes Nat.eqb
    (map (fun res : Reservation.t => Reservation.roomId res)
       (filter
          (fun res : Reservation.t =>
             (Status_eqb (Reservation.status res) pending
              || Status_eqb (Reservation.status res) confirmed)
             && Rooms.isOverlapping (Reservation.checkIn res)
                  (Reservation.checkOut res) checkIn checkOut)
          (Db.reservations db)))
    roomId =
  Spec.bookedFor db checkIn checkOut roomId.
Proof.
  unfold Spec.bookedFor, Js.includes.
  induction (Db.reservations db) as [|res l IH]; [reflexivity|].
  cbn [filter existsb]. rewrite <- IH. clear IH.
  unfold Spec.isActive. rewrite (Nat.eqb_sym (Reservation.roomId res)).
  destruct (Reservation.status res); cbn [Status_eqb orb andb];
    try reflexivity;
    destruct (Rooms.isOverlapping (Reservation.checkIn res)
                (Reservation.checkOut res) checkIn checkOut);
    reflexivity.
Qed.

Lemma includes_blocked (db : Db.t) (checkIn checkOut : string) (roomId : Id) :
  Js.includes Nat.eqb
    (map (fun blocked : BlockedDate.t => BlockedDate.roomId blocked)
       (filter
          (fun blocked : BlockedDate.t =>
             Js.includes String.eqb (Rooms.getDatesInRange checkIn checkOut)
               (BlockedDate.date blocked))
          (Db.blockedDates db)))
    roomId =
  Spec.blockedFor db checkIn checkOut roomId.
Proof.
  unfold Spec.blockedFor.
  generalize (Rooms.getDatesInRange checkIn checkOut). intros days.
  unfold Js.includes at 1.
  induction (Db.blockedDates db) as [|b l IH]; [reflexivity|].
  cbn [filter existsb]. rewrite <- IH. clear IH.
  rewrite (Nat.eqb_sym (BlockedDate.roomId b)).
  destruct (Js.includes String.eqb days (BlockedDate.date b)); reflexivity.
Qed.

Lemma blockedFor_calendar (db : Db.t) (checkIn checkOut : string) (roomId : Id) :
  Date.isCalendarDate checkIn = true ->
  Date.isCalendarDate checkOut = true ->
  Spec.blockedFor db checkIn checkOut roomId =
  Spec.blockedWithin db checkIn checkOut roomId.
Proof.
  intros H1 H2. unfold Spec.blockedFor, Spec.blockedWithin.
  induction (Db.blockedDates db) as [|b l IH]; [reflexivity|].
  cbn [existsb]. rewrite IH. f_equal. f_equal.
  apply eq_true_iff_eq.
  rewrite includes_string_In, (RequestedDays.getDatesInRange_calendar _ _ _ H1 H2).
  rewrite !andb_true_iff. tauto.
Qed.

(** [getAvailableRooms] is the guest list [list] with exactly the booked
    and the blocked rooms struck out, the others staying in the order of
    that list: a room of [list] is dropped when it has a pending or
    confirmed reservation that overlaps the range, or a blocked date among
    the requested days, and only then. So the result is sorted by display
    order, and it is the whole guest list exactly when no room of it is
    booked or blocked, as when every reservation is cancelled or completed
    and no date is blocked. Between two calendar dates the blocked dates
    among the requested days are the calendar dates with
    [checkIn <= date < checkOut]. *)
Theorem getAvailableRooms_within_list (db : Db.t) (checkIn checkOut : string) :
  Rooms.getAvailableRooms db checkIn checkOut =
    filter
      (fun room : Room.t =>
         negb (Spec.bookedFor db checkIn checkOut (Room._id room))
         && negb (Spec.blockedFor db checkIn checkOut (Room._id room)))
      (Rooms.list db) /\
  StronglySorted Spec.byOrder (Rooms.getAvailableRooms db checkIn checkOut) /\
  (forall room, In room (Rooms.getAvailableRooms db checkIn checkOut) <->
     In room (Rooms.list db) /\
     Spec.bookedFor db checkIn checkOut (Room._id room) = false /\
     Spec.blockedFor db checkIn checkOut (Room._id room) = false) /\
  (Rooms.getAvailableRooms db checkIn checkOut = Rooms.list db <->
   forall room, In room (Rooms.list db) ->
     Spec.bookedFor db checkIn checkOut (Room._id room) = false /\
     Spec.blockedFor db checkIn checkOut (Room._id room) = false) /\
  ((forall res, In res (Db.reservations db) ->
      Reservation.status res = cancelled \/ Reservation.status res = completed) ->
   Db.blockedDates db = [] ->
   Rooms.getAvailableRooms db checkIn checkOut = Rooms.list db) /\
  (Date.isCalendarDate checkIn = true -> Date.isCalendarDate checkOut = true ->
   forall roomId,
     Spec.blockedFor db checkIn checkOut roomId =
     Spec.blockedWithin db checkIn checkOut roomId).
Proof.
  assert (Heq : Rooms.getAvailableRooms db checkIn checkOut =
    filter
      (fun room : Room.t =>
         negb (Spec.bookedFor db checkIn checkOut (Room._id room))
         && negb (Spec.blockedFor db checkIn checkOut (Room._id room)))
      (Rooms.list db)).
  { unfold Rooms.getAvailableRooms, Rooms.list. cbv zeta.
    rewrite (filter_sort (fun r : Room.t => Room.order r)). f_equal.
    apply filter_ext. intros room.
    now rewrite includes_booked, includes_blocked. }
  assert (Hp : forall room : Room.t,
            negb (Spec.bookedFor db checkIn checkOut (Room._id room))
            && negb (Spec.blockedFor db checkIn checkOut (Room._id room)) = true <->
            Spec.bookedFor db checkIn checkOut (Room._id room) = false /\
            Spec.blockedFor db checkIn checkOut (Room._id room) = false).
  { intros room. rewrite andb_true_iff, !negb_true_iff. reflexivity. }
  assert (Hall : Rooms.getAvailableRooms db checkIn checkOut = Rooms.list db <->
            forall room, In room (Rooms.list db) ->
              Spec.bookedFor db checkIn checkOut (Room._id room) = false /\
              Spec.blockedFor db checkIn checkOut (Room._id room) = false).
  { rewrite Heq, filter_keeps_all. split; intros H room Hin; apply Hp; now apply H. }
  split; [exact Heq|]. split; [|split; [|split; [exact Hall|split]]].
  - unfold Rooms.getAvailableRooms. cbv zeta.
    apply (sort_sorted (fun r : Room.t => Room.order r)).
  - intros room. rewrite Heq, filter_In, Hp. reflexivity.
  - intros Hclosed Hnone. apply Hall. intros room _. split.
    + unfold Spec.bookedFor. apply not_true_iff_false. intros Hex.
      apply existsb_exists in Hex. destruct Hex as (res & Hres & Hc).
      apply andb_true_iff in Hc. destruct Hc as [Hc _].
      apply andb_true_iff in Hc. destruct Hc as [Hc _].
      unfold Spec.isActive in Hc.
      destruct (Hclosed res Hres) as [E | E]; rewrite E in Hc; discriminate.
    + unfold Spec.blockedFor. now rewrite Hnone.
  - intros H1 H2 roomId. now apply blockedFor_calendar.
Qed.
